(** * Project CORAL: data acquisition, fallback and risk inference

    A shallow embedding of the request-time pipeline of the dashboard
    ([app/app.py]), of the offline fetcher
    ([data_preparation_pipeline/noaa_data_fetcher.py]) and of the
    preprocessor ([data_preparation_pipeline/data_preprocessor.py]).

    Conventions of the embedding:
    - a pandas DataFrame is a list of rows, a row is a finite map from
      column names to cells ([df['c'] = v] is an insert on every row);
    - a float64 is a rational or NaN; values are only copied and compared,
      except in the labelling heuristic where they are rounded;
    - a timestamp is the number of nanoseconds since the Unix epoch (UTC);
    - exceptions are values of [outcome]; network traffic, sleeps, the
      result cache and what is drawn on the page are threaded through an
      explicit [world]. *)

From Stdlib Require Import ZArith QArith Qround Lqa String List Bool Lia Sorted.
From stdpp Require Import gmap strings list fin_maps.

Local Open Scope string_scope.
Local Open Scope list_scope.
Local Open Scope Z_scope.

(** ** Cells, rows, exceptions *)

(** [None] is NaN. *)
Abbreviation float64 := (option Q).

Inductive cell : Type :=
| CTime (t : Z)
| CFloat (x : float64)
| CInt (n : Z)
| CStr (s : string).

Abbreviation row := (gmap string cell).
Abbreviation DataFrame := (list (gmap string cell)).

Inductive exn : Type :=
| IndexError
| KeyError (col : string)
| AttributeError
| TypeError
| ValueError.

Inductive outcome (A : Type) : Type :=
| Ok (a : A)
| Raised (e : exn).
Arguments Ok {A} a.
Arguments Raised {A} e.

Definition obind {A B : Type} (o : outcome A) (k : A -> outcome B) : outcome B :=
  match o with
  | Ok a => k a
  | Raised e => Raised e
  end.

Declare Scope outcome_scope.
Delimit Scope outcome_scope with outcome.
Notation "'try' x <- e 'in' k" := (obind e (fun x => k))
  (at level 10, x name, e at level 100, k at level 200) : outcome_scope.
Local Open Scope outcome_scope.

Fixpoint omap {A B : Type} (f : A -> outcome B) (l : list A) : outcome (list B) :=
  match l with
  | [] => Ok []
  | a :: l' =>
      try b <- f a in
      try bs <- omap f l' in
      Ok (b :: bs)
  end.

(** ** The proleptic Gregorian calendar behind the [.dt] accessors *)

Module Calendar.

Definition ns_per_day : Z := 86400 * 1000000000.

(** Whole days since 1970-01-01, rounding towards the past. *)
Definition epoch_days (t : Z) : Z := t / ns_per_day.

Definition days_from_civil (y m d : Z) : Z :=
  let y' := if m <=? 2 then y - 1 else y in
  let era := y' / 400 in
  let yoe := y' - era * 400 in
  let mp := if 2 <? m then m - 3 else m + 9 in
  let doy := (153 * mp + 2) / 5 + d - 1 in
  let doe := yoe * 365 + yoe / 4 - yoe / 100 + doy in
  era * 146097 + doe - 719468.

Definition civil_from_days (z0 : Z) : Z * Z * Z :=
  let z := z0 + 719468 in
  let era := z / 146097 in
  let doe := z - era * 146097 in
  let yoe := (doe - doe / 1460 + doe / 36524 - doe / 146096) / 365 in
  let doy := doe - (365 * yoe + yoe / 4 - yoe / 100) in
  let mp := (5 * doy + 2) / 153 in
  let d := doy - (153 * mp + 2) / 5 + 1 in
  let m := if mp <? 10 then mp + 3 else mp - 9 in
  let y := yoe + era * 400 in
  (if m <=? 2 then y + 1 else y, m, d).

Definition year (t : Z) : Z := fst (fst (civil_from_days (epoch_days t))).
Definition month (t : Z) : Z := snd (fst (civil_from_days (epoch_days t))).
Definition day (t : Z) : Z := snd (civil_from_days (epoch_days t)).

Definition dayofyear (t : Z) : Z :=
  epoch_days t - days_from_civil (year t) 1 1 + 1.

(** Monday is 0. 1970-01-01 was a Thursday. *)
Definition weekday_of_days (n : Z) : Z := (n + 3) mod 7.

(** The Monday that starts ISO week 1 of [y], as an epoch day. *)
Definition isoweek1monday (y : Z) : Z :=
  let firstday := days_from_civil y 1 1 in
  let firstweekday := weekday_of_days firstday in
  let week1monday := firstday - firstweekday in
  if 3 <? firstweekday then week1monday + 7 else week1monday.

(** [isocalendar().week] *)
Definition isoweek (t : Z) : Z :=
  let y := year t in
  let today := epoch_days t in
  let week := (today - isoweek1monday y) / 7 in
  if week <? 0 then (today - isoweek1monday (y - 1)) / 7 + 1
  else if (52 <=? week) && (isoweek1monday (y + 1) <=? today) then 1
  else week + 1.

(** Noon UTC of a civil date, the instant the remote service stamps
    its daily rows with. *)
Definition noon (y m d : Z) : Z :=
  days_from_civil y m d * ns_per_day + 43200 * 1000000000.

End Calendar.

(** ** Strings: substring test and fixed-width decimal fields *)

(** ["needle" in hay] *)
Fixpoint contains (needle hay : string) : bool :=
  String.prefix needle hay
  || match hay with
     | EmptyString => false
     | String _ hay' => contains needle hay'
     end.

Definition digit (d : Z) : string :=
  String (Ascii.ascii_of_nat (48 + Z.to_nat (d mod 10))) EmptyString.

(** [%m], [%d]: two digits, zero padded. *)
Definition pad2 (n : Z) : string := digit (n / 10) +:+ digit n.

(** [%Y] for the years 0..9999. *)
Definition pad4 (n : Z) : string :=
  digit (n / 1000) +:+ digit (n / 100) +:+ digit (n / 10) +:+ digit n.

Definition month_name (m : Z) : string :=
  nth (Z.to_nat (m - 1))
      ["January"; "February"; "March"; "April"; "May"; "June"; "July";
       "August"; "September"; "October"; "November"; "December"] "".

(** [strftime('%Y-%m-%d')] *)
Definition strftime_Y_m_d (t : Z) : string :=
  pad4 (Calendar.year t) +:+ "-" +:+ pad2 (Calendar.month t) +:+ "-"
  +:+ pad2 (Calendar.day t).

(** [strftime('%B %d, %Y')] *)
Definition strftime_B_d_Y (t : Z) : string :=
  month_name (Calendar.month t) +:+ " " +:+ pad2 (Calendar.day t) +:+ ", "
  +:+ pad4 (Calendar.year t).

(** [",".join(parts)] *)
Fixpoint join_comma (parts : list string) : string :=
  match parts with
  | [] => ""
  | [p] => p
  | p :: rest => p +:+ "," +:+ join_comma rest
  end.

(** ** DataFrame operations used by the pipeline *)

(** [df[col]] on one row. *)
Definition getitem (col : string) (r : row) : outcome cell :=
  match r !! col with
  | Some c => Ok c
  | None => Raised (KeyError col)
  end.

(** [df[col] = v]: the scalar is broadcast to every row. *)
Definition setitem (col : string) (v : cell) (df : DataFrame) : DataFrame :=
  map (fun r : row => <[col := v]> r) df.

(** [df[col].dt]: only a datetime column has the accessor. *)
Definition dt (r : row) : outcome Z :=
  try c <- getitem "time" r in
  match c with
  | CTime t => Ok t
  | _ => Raised AttributeError
  end.

Fixpoint insert_by_time (x : Z * row) (l : list (Z * row)) : list (Z * row) :=
  match l with
  | [] => [x]
  | y :: l' => if fst x <? fst y then x :: l else y :: insert_by_time x l'
  end.

Fixpoint sort_by_time (l : list (Z * row)) : list (Z * row) :=
  match l with
  | [] => []
  | x :: l' => insert_by_time x (sort_by_time l')
  end.

(** [df.sort_values('time')], ascending, on a frame whose [time] column
    holds timestamps, as it does wherever the pipeline sorts. Rows with
    equal times come out in the reverse of their order here; pandas
    leaves their order open, and nothing below depends on it. *)
Definition sort_values_time (df : DataFrame) : outcome DataFrame :=
  try keyed <- omap (fun r : row => try t <- dt r in Ok (t, r)) df in
  Ok (map snd (sort_by_time keyed)).

(** [df.iloc[-1:]]: the last row as a frame, the empty frame if there is
    none. *)
Definition iloc_last (df : DataFrame) : DataFrame :=
  drop (length df - 1)%nat df.

(** [series.iloc[0]] *)
Definition iloc0 {A : Type} (s : list A) : outcome A :=
  match s with
  | [] => Raised IndexError
  | a :: _ => Ok a
  end.

(** [df.empty] *)
Definition df_empty (df : DataFrame) : bool :=
  match df with [] => true | _ => false end.

(** [df[df['location_name'] == name]] *)
Definition loc_rows (name : string) (df : DataFrame) : outcome DataFrame :=
  try flags <- omap (fun r : row =>
                       try c <- getitem "location_name" r in
                       Ok (match c with
                           | CStr s => String.eqb s name
                           | _ => false
                           end)) df in
  Ok (map snd (List.filter fst (combine flags df))).

(** ** Calendar features *)

(** [df[col] = df['time'].dt.<field>] for a calendar field [f]. *)
Definition assign_dt (col : string) (f : Z -> Z) (df : DataFrame) : outcome DataFrame :=
  try vals <- omap (fun r : row => try t <- dt r in Ok (CInt (f t))) df in
  Ok (zip_with (fun (r : row) v => <[col := v]> r) df vals).

(** [app.py], [preprocess_live_data] *)
Definition preprocess_live_data (df : DataFrame) : outcome DataFrame :=
  try df <- assign_dt "year" Calendar.year df in
  try df <- assign_dt "month" Calendar.month df in
  try df <- assign_dt "day_of_year" Calendar.dayofyear df in
  try df <- assign_dt "week_of_year" Calendar.isoweek df in
  Ok df.

Definition features_for_model : list string :=
  ["sea_surface_temp_c"; "hotspot_c"; "degree_heating_week_c_weeks";
   "sst_anomaly_c"; "bleaching_alert_area"; "bleaching_alert_area_7d_max";
   "year"; "month"; "day_of_year"; "week_of_year"].

(** [df[features_for_model]]: the ten cells of each row, in this order. *)
Definition select_features (df : DataFrame) : outcome (list (list cell)) :=
  omap (fun r : row => omap (fun col => getitem col r) features_for_model) df.

(** Responses of the remote service to one GET. [Timeout] and
    [RequestError] are the two [requests.exceptions.RequestException]
    cases the fetchers tell apart ([raise_for_status] raises the second). *)
Inductive response : Type :=
| Timeout
| RequestError
| Body (text : string).

(** What [pd.read_csv(..., skiprows=[1])] hands back: the header names and
    the data cells below the skipped units line. *)
Record csv_table : Type := { header : list string; body : list (list cell) }.

Inductive event : Type :=
| Get (url : string)
| Sleep (secs : Z).

(** What the page shows that carries data: info, warning and error boxes,
    metrics and the gauge. Headers, markdown, dividers, the sliders
    themselves and the fixed explanatory boxes of the simulator tab are
    left out. *)
Inductive ui : Type :=
| st_info (msg : string)
| st_warning (msg : string)
| st_error (msg : string)
| st_metric (label : string) (value : cell)
| st_plotly_gauge (risk_value : float64).

(** Everything the code acts on: the requests sent and pauses taken, the
    entries of [st.cache_data] (argument tuple, time stored, value), and
    the elements drawn on the page. *)
Record world : Type := {
  wire : list event;
  cache : gmap (string * string) (Z * option DataFrame);
  screen : list ui
}.

Definition fresh_world : world := {| wire := []; cache := ∅; screen := [] |}.

Definition M (A : Type) : Type := world -> outcome A * world.

Definition ret {A : Type} (a : A) : M A := fun w => (Ok a, w).

Definition raise {A : Type} (e : exn) : M A := fun w => (Raised e, w).

Definition bind {A B : Type} (m : M A) (k : A -> M B) : M B :=
  fun w =>
    match m w with
    | (Ok a, w') => k a w'
    | (Raised e, w') => (Raised e, w')
    end.

Definition lift {A : Type} (o : outcome A) : M A := fun w => (o, w).

Declare Scope M_scope.
Delimit Scope M_scope with M.
Notation "'do' x <- e ; k" := (bind e (fun x => k))
  (at level 10, x name, e at level 100, k at level 200) : M_scope.
Notation "e ;; k" := (bind e (fun _ => k))
  (at level 100, right associativity) : M_scope.

(** One more event on the wire. *)
Definition log (e : event) (w : world) : world :=
  {| wire := wire w ++ [e]; cache := cache w; screen := screen w |}.

Definition time_sleep (secs : Z) : M unit :=
  fun w => (Ok tt, log (Sleep secs) w).

Definition draw (u : ui) : M unit :=
  fun w => (Ok tt, {| wire := wire w; cache := cache w; screen := screen w ++ [u] |}).

(** How many GETs of [url] are on the wire. *)
Definition gets_of (url : string) (evs : list event) : nat :=
  length (List.filter (fun e => match e with
                                | Get u => String.eqb u url
                                | Sleep _ => false
                                end) evs).

(** All network attempts made so far. *)
Definition attempts (evs : list event) : nat :=
  length (List.filter (fun e => match e with Get _ => true | Sleep _ => false end) evs).

Definition crw_columns : list string :=
  ["time"; "latitude"; "longitude"; "sea_surface_temp_c"; "hotspot_c";
   "degree_heating_week_c_weeks"; "sst_anomaly_c"; "bleaching_alert_area";
   "bleaching_alert_area_7d_max"].

(** [df.columns = names]: positional renaming, refused when the number of
    names differs from the number of columns. *)
Definition set_columns (names : list string) (tbl : csv_table) : outcome DataFrame :=
  if (length names =? length (header tbl))%nat
  then Ok (map (fun cells => list_to_map (zip names cells)) (body tbl))
  else Raised ValueError.

Definition variables : list string :=
  ["CRW_SST"; "CRW_HOTSPOT"; "CRW_DHW"; "CRW_SSTANOMALY"; "CRW_BAA"; "CRW_BAA_7D_MAX"].

(** One term of the griddap query: a variable with its time, latitude and
    longitude ranges. Coordinates are carried as the text Python prints
    for them. *)
Definition query_part (start_date end_date lat lon var : string) : string :=
  var +:+ "[(" +:+ start_date +:+ "T12:00:00Z):1:(" +:+ end_date +:+ "T12:00:00Z)][("
      +:+ lat +:+ "):1:(" +:+ lat +:+ ")][(" +:+ lon +:+ "):1:(" +:+ lon +:+ ")]".

Definition build_query (start_date end_date lat lon : string) : string :=
  join_comma (map (query_part start_date end_date lat lon) variables).

(** ["ERROR" in csv_data or len(csv_data) < 100]; the service answers in
    ASCII, so the length in bytes is the length in characters. *)
Definition invalid_body (csv_data : string) : bool :=
  contains "ERROR" csv_data || (String.length csv_data <? 100)%nat.

(** ** [data_preprocessor.py], [apply_heuristic_labels] *)

Module Heuristic.

Local Open Scope Q_scope.

Definition Qlt_bool (a b : Q) : bool := negb (Qle_bool b a).

(** A column value as a number: integers and floats compare with the
    thresholds, text and timestamps do not. *)
Definition as_float (c : cell) : outcome float64 :=
  match c with
  | CFloat x => Ok x
  | CInt n => Ok (Some (inject_Z n))
  | CTime _ | CStr _ => Raised TypeError
  end.

(** Comparisons on a float64 column: NaN satisfies none of them. *)
Definition nan_false (p : Q -> bool) (x : float64) : bool :=
  match x with
  | Some q => p q
  | None => false
  end.

Definition col_test (p : Q -> bool) (col : list float64) : list bool :=
  map (nan_false p) col.

Definition conditions (dhw : list float64) : list (list bool) :=
  [ col_test (fun d => Qeq_bool d 0) dhw;
    col_test (fun d => Qlt_bool 0 d && Qlt_bool d 4) dhw;
    col_test (fun d => Qle_bool 4 d && Qlt_bool d 8) dhw;
    col_test (fun d => Qle_bool 8 d) dhw ].

(** [np.random.uniform(low, high, size)]: the generator is a stream of
    unit samples read from position [pos]; each is scaled to the
    interval. *)
Definition uniform (rng : nat -> Q) (pos : nat) (low high : Q) (size : nat) : list Q :=
  map (fun i => low + (high - low) * rng (pos + i)%nat) (seq 0 size).

Definition choices (rng : nat -> Q) (n : nat) : list (list Q) :=
  [ uniform rng 0 1 5 n;
    uniform rng n 10 30 n;
    uniform rng (2 * n) 30 60 n;
    uniform rng (3 * n) 60 90 n ].

Fixpoint first_true (conds : list bool) (vals : list Q) (default : Q) : Q :=
  match conds, vals with
  | c :: conds', v :: vals' => if c then v else first_true conds' vals' default
  | _, _ => default
  end.

(** [np.select(condlist, choicelist, default)], element by element. *)
Definition np_select (condlist : list (list bool)) (choicelist : list (list Q))
           (default : Q) (n : nat) : list Q :=
  map (fun i => first_true (map (fun c => nth i c false) condlist)
                           (map (fun v => nth i v 0) choicelist) default)
      (seq 0 n).

(** Nearest integer, ties to even. *)
Definition rint (x : Q) : Z :=
  let f := Qfloor x in
  match Qcompare (x - inject_Z f) (1 # 2) with
  | Lt => f
  | Gt => (f + 1)%Z
  | Eq => if Z.even f then f else (f + 1)%Z
  end.

(** [.round(2)] *)
Definition round2 (x : Q) : Q := Qred (inject_Z (rint (x * 100)) / 100).

(** [df['degree_heating_week_c_weeks']], one value. *)
Definition dhw_of (r : row) : outcome float64 :=
  try c <- getitem "degree_heating_week_c_weeks" r in
  as_float c.

Definition apply_heuristic_labels (rng : nat -> Q) (df : DataFrame) : outcome DataFrame :=
  try dhw <- omap dhw_of df in
  let n := length df in
  let risk := np_select (conditions dhw) (choices rng n) 0 n in
  let risk := map round2 risk in
  Ok (zip_with (fun (r : row) v => <["bleaching_risk_percent" := CFloat (Some v)]> r)
               df risk).

(** The ranges the labels are meant to fall in, per DHW band. *)
Definition in_band (dhw : float64) (label : Q) : Prop :=
  match dhw with
  | None => label == 0
  | Some d =>
      (d == 0 -> 1 <= label <= 5) /\
      (0 < d /\ d < 4 -> 10 <= label <= 30) /\
      (4 <= d /\ d < 8 -> 30 <= label <= 60) /\
      (8 <= d -> 60 <= label <= 90) /\
      (d < 0 -> label == 0)
  end.

End Heuristic.

(** ** Sample data: a two-day response, a small store, and remote
    services that fail in different ways *)

Module Sample.

Local Open Scope Q_scope.

Definition nl : string := String (Ascii.ascii_of_nat 10) EmptyString.

Definition t1 : Z := Calendar.noon 2024 3 1.
Definition t2 : Z := Calendar.noon 2024 3 2.
Definition now : Z := Calendar.noon 2024 3 3.

Definition good_csv : string :=
  "time,latitude,longitude,CRW_SST,CRW_HOTSPOT,CRW_DHW,CRW_SSTANOMALY,CRW_BAA,CRW_BAA_7D_MAX"
  +:+ nl +:+ "UTC,degrees_north,degrees_east,degree_C,degree_C,degree_C-weeks,degree_C,1,1"
  +:+ nl +:+ "2024-03-02T12:00:00Z,11.275,92.775,28.9,0.2,1.5,0.7,0,0"
  +:+ nl +:+ "2024-03-01T12:00:00Z,11.275,92.775,28.5,0.0,1.25,0.4,0,0"
  +:+ nl.

Definition error_csv : string := "ERROR: the dataset is not available at the moment".

Definition reading (time : string) (sst hot dhw anom : Q) : list cell :=
  [CStr time; CFloat (Some 11.275); CFloat (Some 92.775); CFloat (Some sst);
   CFloat (Some hot); CFloat (Some dhw); CFloat (Some anom); CInt 0; CInt 0].

Definition table : csv_table :=
  {| header := ["time"; "latitude"; "longitude"; "CRW_SST"; "CRW_HOTSPOT"; "CRW_DHW";
                "CRW_SSTANOMALY"; "CRW_BAA"; "CRW_BAA_7D_MAX"];
     body := [reading "2024-03-02T12:00:00Z" 28.9 0.2 1.5 0.7;
              reading "2024-03-01T12:00:00Z" 28.5 0 1.25 0.4] |}.

Definition read_csv (csv_data : string) : outcome csv_table :=
  if String.eqb csv_data good_csv then Ok table else Raised ValueError.

Definition to_datetime_scalar (c : cell) : option Z :=
  match c with
  | CStr s =>
      if String.eqb s "2024-03-01T12:00:00Z" then Some t1
      else if String.eqb s "2024-03-02T12:00:00Z" then Some t2
      else None
  | _ => None
  end.

(** A stand-in regressor: ten points per degree heating week, plus three. *)
Definition model_predict (features : list cell) : float64 :=
  match features with
  | _ :: _ :: CFloat (Some dhw) :: _ => Some (Qred (10 * dhw + 3))
  | _ => None
  end.

(** Every request times out. *)
Definition net_down (url : string) (k : nat) : response := Timeout.

(** Every request is answered. *)
Definition net_up (url : string) (k : nat) : response := Body good_csv.

(** The first server answers with an error body twice and with data from
    its third response on; the second server always answers with data. *)
Definition net_third_time (url : string) (k : nat) : response :=
  if String.prefix "https://coastwatch" url
  then (if (k <? 2)%nat then Body error_csv else Body good_csv)
  else Body good_csv.

(** An outage that ends after each server's first response. *)
Definition net_outage (url : string) (k : nat) : response :=
  match k with
  | O => Timeout
  | S _ => Body good_csv
  end.

Definition stored (location_name : string) (time : Z) (sst hot dhw anom : Q) : row :=
  list_to_map
    [("time", CTime time); ("latitude", CFloat (Some 11.275));
     ("longitude", CFloat (Some 92.775)); ("location_name", CStr location_name);
     ("sea_surface_temp_c", CFloat (Some sst)); ("hotspot_c", CFloat (Some hot));
     ("degree_heating_week_c_weeks", CFloat (Some dhw));
     ("sst_anomaly_c", CFloat (Some anom));
     ("bleaching_alert_area", CInt 0); ("bleaching_alert_area_7d_max", CInt 0)].

(** A store with two rows for the Andaman Islands, the later one first,
    one row for Lakshadweep and none for the Gulf of Kutch. *)
Definition history : DataFrame :=
  [stored "Andaman_Islands" t2 28.9 0.2 1.5 0.7;
   stored "Lakshadweep_Islands" t2 29.1 0.3 2 0.8;
   stored "Andaman_Islands" t1 28.5 0 1.25 0.4].


(** The latest Andaman row, and the ten features the model gets for it. *)
Definition live_row : row := stored "Andaman_Islands" t2 28.9 0.2 1.5 0.7.


(** The later of the two readings of [table], as the fetchers parse it. *)
Definition fetched_row : row :=
  <["time" := CTime t2]>
    (list_to_map (zip crw_columns (reading "2024-03-02T12:00:00Z" 28.9 0.2 1.5 0.7))).

(** Ten seconds after [now]. *)
Definition soon : Z := (now + 10 * 1000000000)%Z.

(** A raw dataset for the preprocessor: DHW of 0, 2.5, 4, 9.75, -1 and NaN. *)
Definition raw (time : string) (dhw : float64) : row :=
  list_to_map [("time", CStr time); ("degree_heating_week_c_weeks", CFloat dhw)].

Definition dataset : DataFrame :=
  [raw "2024-03-01T12:00:00Z" (Some 0); raw "2024-03-01T12:00:00Z" (Some 2.5);
   raw "2024-03-02T12:00:00Z" (Some 4); raw "2024-03-02T12:00:00Z" (Some 9.75);
   raw "2024-03-02T12:00:00Z" (Some (-1)); raw "2024-03-02T12:00:00Z" None].

Definition dataset_dhw : list float64 :=
  [Some 0; Some 2.5; Some 4; Some 9.75; Some (-1); None].

(** A generator stuck at one half. *)
Definition rng (i : nat) : Q := 1 # 2.

End Sample.


(** ** Python ranges, month lengths and date text for the chunked fetch *)

From stdpp Require pretty.

(** [str(n)] for an integer. *)
Definition str_int (n : Z) : string := pretty.pretty n.

(** [range(start, stop, step)]; a step of zero is refused. *)
Definition py_range (start stop step : Z) : outcome (list Z) :=
  if step =? 0 then Raised ValueError
  else
    let len := if 0 <? step
               then (stop - start + step - 1) / step
               else (start - stop - step - 1) / (- step) in
    Ok (map (fun i => start + Z.of_nat i * step) (seq 0 (Z.to_nat len))).

(** [range(start, stop)] *)
Definition py_range2 (start stop : Z) : list Z :=
  map (fun i => start + Z.of_nat i) (seq 0 (Z.to_nat (stop - start))).

(** [calendar.isleap] *)
Definition isleap (year : Z) : bool :=
  (year mod 4 =? 0) && (negb (year mod 100 =? 0) || (year mod 400 =? 0)).

(** [calendar.monthrange(year, month)[1]]: the number of days of the
    month; a month outside 1..12 is refused. *)
Definition monthrange_days (year month : Z) : outcome Z :=
  if (1 <=? month) && (month <=? 12)
  then Ok (nth (Z.to_nat month) [0; 31; 28; 31; 30; 31; 30; 31; 31; 30; 31; 30; 31] 0
           + (if (month =? 2) && isleap year then 1 else 0))
  else Raised ValueError.

(** [f"{n:02d}"] *)
Definition fmt_02d (n : Z) : string :=
  if (String.length (str_int n) <? 2)%nat then "0" +:+ str_int n else str_int n.

(** The months a chunk that starts in [month_start] covers. *)
Definition chunk_end (chunk_months month_start : Z) : Z :=
  Z.min (month_start + chunk_months - 1) 12.

Definition chunk_start_date (year month_start : Z) : string :=
  str_int year +:+ "-" +:+ fmt_02d month_start +:+ "-01".

Definition chunk_end_date (year month_end end_day : Z) : string :=
  str_int year +:+ "-" +:+ fmt_02d month_end +:+ "-" +:+ str_int end_day.

(** ** [data_preprocessor.py], [clean_data]

    [fillna(method='ffill')] is taken as pandas before 3.0 has it. Rows
    are compared cell by cell; the cells of one column have one type. *)

(** [isnull] on one cell: NaN is the missing value. *)
Definition isnull (c : cell) : bool :=
  match c with
  | CFloat None => true
  | _ => false
  end.

(** [df.isnull().sum().sum()] *)
Definition isnull_sum (df : DataFrame) : nat :=
  sum_list (map (fun r : row =>
                   length (List.filter (fun kc : string * cell => isnull (snd kc))
                                       (map_to_list r))) df).

(** Forward fill of one row from the filled row above it. *)
Definition ffill_row (above r : row) : row :=
  map_imap (fun col c => Some (if isnull c
                               then match above !! col with
                                    | Some v => v
                                    | None => c
                                    end
                               else c)) r.

Fixpoint ffill_from (above : row) (df : DataFrame) : DataFrame :=
  match df with
  | [] => []
  | r :: df' => let r' := ffill_row above r in r' :: ffill_from r' df'
  end.

(** [df.fillna(method='ffill')] *)
Definition ffill (df : DataFrame) : DataFrame := ffill_from ∅ df.

Definition cell_eqb (a b : cell) : bool :=
  match a, b with
  | CTime x, CTime y => x =? y
  | CFloat None, CFloat None => true
  | CFloat (Some x), CFloat (Some y) => Qeq_bool x y
  | CInt x, CInt y => x =? y
  | CStr x, CStr y => String.eqb x y
  | _, _ => false
  end.

Definition row_eqb (r r' : row) : bool :=
  bool_decide (map_relation (fun _ a b => cell_eqb a b = true)
                            (fun _ _ => False) (fun _ _ => False) r r').

Fixpoint duplicated_from (seen : list row) (df : DataFrame) : list bool :=
  match df with
  | [] => []
  | r :: df' => existsb (row_eqb r) seen :: duplicated_from (r :: seen) df'
  end.

Definition duplicated (df : DataFrame) : list bool := duplicated_from [] df.

(** [df[~flags]] *)
Definition drop_flagged (flags : list bool) (df : DataFrame) : DataFrame :=
  map snd (List.filter (fun p : bool * row => negb (fst p)) (combine flags df)).

Definition drop_duplicates (df : DataFrame) : DataFrame :=
  drop_flagged (duplicated df) df.

Definition clean_data (df : DataFrame) : DataFrame :=
  let df := if (0 <? isnull_sum df)%nat then ffill df else df in
  let duplicates := length (List.filter id (duplicated df)) in
  if (0 <? duplicates)%nat then drop_duplicates df else df.


(** *** Vocabulary for the statements on [clean_data] *)

(** The columns of a frame, read off its first row. *)
Definition columns (df : DataFrame) : gset string :=
  match df with
  | [] => ∅
  | r :: _ => dom r
  end.

(** Every row has the frame's columns. *)
Definition rectangular (df : DataFrame) : Prop :=
  Forall (fun r : row => dom r = columns df) df.

(** Wherever [r'] has a NaN, [r] has one too. *)
Definition gaps_within (r r' : row) : Prop :=
  forall col, r' !! col = Some (CFloat None) -> r !! col = Some (CFloat None).

Definition distinct_from (r r' : row) : Prop := row_eqb r' r = false.

(** ** More sample data *)

Module Cases.

Local Open Scope Q_scope.

(** The earlier of the two readings of [Sample.table], as the fetchers
    parse it, and the frame parsed from [Sample.good_csv]. *)
Definition earlier_row : row :=
  <["time" := CTime Sample.t1]>
    (list_to_map (zip crw_columns (Sample.reading "2024-03-01T12:00:00Z" 28.5 0 1.25 0.4))).

Definition parsed : DataFrame := [Sample.fetched_row; earlier_row].

(** The same frame as the script keeps it for the Andaman Islands. *)
Definition andaman_frame : DataFrame :=
  [<["location_name" := CStr "Andaman_Islands"]> earlier_row;
   <["location_name" := CStr "Andaman_Islands"]> Sample.fetched_row].

(** A reader that finds one column too few. *)
Definition short_table : csv_table :=
  {| header := ["time"; "latitude"; "longitude"; "CRW_SST"; "CRW_HOTSPOT"; "CRW_DHW";
                "CRW_SSTANOMALY"; "CRW_BAA"];
     body := [] |}.

Definition read_csv_short (csv_data : string) : outcome csv_table := Ok short_table.

(** [s] ends with [suffix]. *)
Fixpoint ends_with (suffix s : string) : bool :=
  String.eqb s suffix
  || match s with
     | EmptyString => false
     | String _ s' => ends_with suffix s'
     end.

(** Only requests for the longitude of the Andaman Islands are answered. *)
Definition net_andaman (url : string) (k : nat) : response :=
  if ends_with ")][(92.77):1:(92.77)]" url then Body Sample.good_csv else Timeout.

(** A downloaded frame with gaps and a repeated row. *)
Definition measured (time : string) (sst dhw : float64) : row :=
  list_to_map [("time", CStr time); ("sea_surface_temp_c", CFloat sst);
               ("degree_heating_week_c_weeks", CFloat dhw)].

Definition gappy : DataFrame :=
  [measured "2024-03-01T12:00:00Z" None (Some 1.25);
   measured "2024-03-02T12:00:00Z" None (Some 1.5);
   measured "2024-03-02T12:00:00Z" (Some 28.9) None;
   measured "2024-03-02T12:00:00Z" (Some 28.9) (Some 1.5)].

Definition cleaned : DataFrame :=
  [measured "2024-03-01T12:00:00Z" None (Some 1.25);
   measured "2024-03-02T12:00:00Z" None (Some 1.5);
   measured "2024-03-02T12:00:00Z" (Some 28.9) (Some 1.5)].

(** The two Andaman readings as the download script receives them, the
    time still text. *)
Definition downloaded : DataFrame :=
  [<["time" := CStr "2024-03-02T12:00:00Z"]>
     (Sample.stored "Andaman_Islands" Sample.t2 28.9 0.2 1.5 0.7);
   <["time" := CStr "2024-03-01T12:00:00Z"]>
     (Sample.stored "Andaman_Islands" Sample.t1 28.5 0 1.25 0.4)].

(** The value of a computation that succeeds. *)
Definition value {A : Type} (default : A) (o : outcome A) : A :=
  match o with
  | Ok a => a
  | Raised _ => default
  end.

End Cases.
Section Pipeline.

(** The remote service: the response to the [k]-th GET (from 0) of a URL. *)
Variable net : string -> nat -> response.

(** pandas' CSV reader and its conversion of a cell that is not yet a
    timestamp ([None]: the text is no date, [pd.to_datetime] raises). *)
Variable read_csv : string -> outcome csv_table.
Variable to_datetime_scalar : cell -> option Z.

(** The trained regressor, one feature vector to one risk value. *)
Variable model_predict : list cell -> float64.

Local Open Scope M_scope.

(** [requests.get(url, timeout=...)] followed by [raise_for_status()]. *)
Definition requests_get (url : string) : M response :=
  fun w => (Ok (net url (gets_of url (wire w))), log (Get url) w).

(** [pd.to_datetime] on one cell: a timestamp is left as it is. *)
Definition to_datetime (c : cell) : outcome Z :=
  match c with
  | CTime t => Ok t
  | _ => match to_datetime_scalar c with
         | Some t => Ok t
         | None => Raised ValueError
         end
  end.

(** [df['time'] = pd.to_datetime(df['time'])] *)
Definition to_datetime_time (df : DataFrame) : outcome DataFrame :=
  omap (fun r : row =>
          try c <- getitem "time" r in
          try t <- to_datetime c in
          Ok (<["time" := CTime t]> r)) df.

(** The three statements both fetchers run on an accepted body: read,
    rename the nine columns, convert [time]. *)
Definition parse_body (csv_data : string) : outcome DataFrame :=
  try tbl <- read_csv csv_data in
  try df <- set_columns crw_columns tbl in
  to_datetime_time df.

(** *** [app.py], [get_live_data]: the loop over [server_urls] *)

Definition server_urls : list string :=
  ["https://coastwatch.pfeg.noaa.gov/erddap/griddap/NOAA_DHW.csv";
   "https://oceanwatch.pifsc.noaa.gov/erddap/griddap/NOAA_DHW.csv"].

Fixpoint try_servers (query : string) (urls : list string) : M (option DataFrame) :=
  match urls with
  | [] => ret None
  | base_url :: rest =>
      do resp <- requests_get (base_url +:+ "?" +:+ query);
      match resp with
      | Timeout | RequestError => try_servers query rest
      | Body csv_data =>
          if invalid_body csv_data then try_servers query rest
          else
            do df <- lift (parse_body csv_data);
            do sorted <- lift (sort_values_time df);
            ret (Some (iloc_last sorted))
      end
  end.

(** The query for the thirty days that end yesterday; [now] is the
    reading of [datetime.utcnow()]. *)
Definition live_query (now : Z) (lat lon : string) : string :=
  let end_date := now - 1 * Calendar.ns_per_day in
  let start_date := end_date - 30 * Calendar.ns_per_day in
  build_query (strftime_Y_m_d start_date) (strftime_Y_m_d end_date) lat lon.

Definition get_live_data (now : Z) (lat lon : string) : M (option DataFrame) :=
  try_servers (live_query now lat lon) server_urls.

(** *** [noaa_data_fetcher.py], [get_coral_reef_watch_data] *)

Definition crw_base_url : string :=
  "https://coastwatch.pfeg.noaa.gov/erddap/griddap/NOAA_DHW.csv".

(** The body of [for attempt in range(max_retries)], over the attempts
    still to run. *)
Fixpoint retry_loop (request_url : string) (max_retries : Z) (todo : list Z)
  : M (option DataFrame) :=
  match todo with
  | [] => ret None
  | attempt :: todo' =>
      do resp <- requests_get request_url;
      match resp with
      | Body csv_data =>
          if invalid_body csv_data then
            if attempt <? max_retries - 1
            then (time_sleep 5 ;; retry_loop request_url max_retries todo')
            else ret None
          else
            do df <- lift (parse_body csv_data);
            ret (Some df)
      | Timeout | RequestError =>
          if attempt <? max_retries - 1
          then (time_sleep 10 ;; retry_loop request_url max_retries todo')
          else ret None
      end
  end.

(** [range(n)] *)
Definition range (n : Z) : list Z := map Z.of_nat (seq 0 (Z.to_nat n)).

Definition get_coral_reef_watch_data
           (lat lon start_date end_date : string) (max_retries : Z)
  : M (option DataFrame) :=
  retry_loop (crw_base_url +:+ "?" +:+ build_query start_date end_date lat lon)
             max_retries (range max_retries).

(** *** [@st.cache_data(ttl=3600)] around [get_live_data]

    The decorator memoises the returned value per argument tuple,
    whatever the value is; an entry older than the TTL is ignored and
    replaced. A call that raises stores nothing. *)
Definition ttl : Z := 3600 * 1000000000.

(** The entry for an argument tuple, if there is one and it is younger
    than the TTL. *)
Definition cache_lookup (now : Z) (key : string * string) (w : world)
  : option (option DataFrame) :=
  match cache w !! key with
  | Some (stored, v) => if now - stored <? ttl then Some v else None
  | None => None
  end.

Definition cached_get_live_data (now : Z) (lat lon : string) : M (option DataFrame) :=
  fun w =>
    match cache_lookup now (lat, lon) w with
    | Some v => (Ok v, w)
    | None =>
        match get_live_data now lat lon w with
        | (Ok v, w') =>
            (Ok v, {| wire := wire w';
                      cache := <[(lat, lon) := (now, v)]> (cache w');
                      screen := screen w' |})
        | (Raised e, w') => (Raised e, w')
        end
    end.

(** *** [app.py], [main]: the steps after a reef has been selected *)

Definition REEF_LOCATIONS : gmap string (string * string) :=
  list_to_map
    [("Andaman_Islands", ("11.25", "92.77"));
     ("Lakshadweep_Islands", ("10.56", "72.64"));
     ("Gulf_of_Mannar", ("8.8", "78.25"));
     ("Gulf_of_Kutch", ("22.47", "69.07"))].

(** [live_df_raw is None or live_df_raw.empty] *)
Definition live_failed (live : option DataFrame) : bool :=
  match live with
  | None => true
  | Some df => df_empty df
  end.

(** The text of the warning, without its leading sign and icon. *)
Definition stale_message (fallback_date : string) : string :=
  "Could not connect to live data servers. Displaying the most recent historical data from **"
  +:+ fallback_date +:+ "**.".

(** Lines 157-162: the most recent stored row for the location, and the
    warning that names its date. *)
Definition fall_back (historical_df : DataFrame) (location_name : string)
  : M (option DataFrame) :=
  do location_historical_df <- lift (loc_rows location_name historical_df);
  do sorted <- lift (sort_values_time location_historical_df);
  let live_df_raw := iloc_last sorted in
  do r <- lift (iloc0 live_df_raw);
  do c <- lift (getitem "time" r);
  do t <- lift (to_datetime c);
  (draw (st_warning (stale_message (strftime_B_d_Y t))) ;;
   ret (Some live_df_raw)).

(** [live_df_processed[features_for_model]] after [preprocess_live_data]:
    what the model is given. *)
Definition model_input (df : DataFrame) : outcome (list (list cell)) :=
  try processed <- preprocess_live_data df in
  select_features processed.

(** [model.predict(...)[0]] *)
Definition predict (df : DataFrame) : outcome float64 :=
  try X <- model_input df in
  iloc0 (map model_predict X).

(** Lines 205-207: the copy of the baseline with the two columns
    overwritten. *)
Definition sim_frame (df : DataFrame) (sim_sst sim_dhw : cell) : DataFrame :=
  setitem "degree_heating_week_c_weeks" sim_dhw
          (setitem "sea_surface_temp_c" sim_sst df).

Definition simulate (df : DataFrame) (sim_sst sim_dhw : cell) : outcome float64 :=
  predict (sim_frame df sim_sst sim_dhw).

(** [df[col].iloc[0]] *)
Definition first_of (col : string) (df : DataFrame) : outcome cell :=
  try r <- iloc0 df in getitem col r.

Definition tab1 (live_df_raw : option DataFrame) : M unit :=
  match live_df_raw with
  | Some df =>
      if negb (df_empty df) then
        do prediction <- lift (predict df);
        (draw (st_metric "Predicted Bleaching Risk" (CFloat prediction)) ;;
         do sst <- lift (first_of "sea_surface_temp_c" df);
         (draw (st_metric "Current Sea Surface Temp" sst) ;;
          do dhw <- lift (first_of "degree_heating_week_c_weeks" df);
          (draw (st_metric "Current Degree Heating Weeks" dhw) ;;
           draw (st_plotly_gauge prediction))))
      else draw (st_error "Could not retrieve any data to perform risk assessment.")
  | None => draw (st_error "Could not retrieve any data to perform risk assessment.")
  end.

(** [st.slider(..., value=base)]: the position the operator moved it to,
    the [value] argument while it has not been moved. *)
Definition st_slider (moved : option Q) (value : cell) : cell :=
  match moved with
  | Some q => CFloat (Some q)
  | None => value
  end.

Definition tab2 (live_df_raw : option DataFrame) (sst_moved dhw_moved : option Q) : M unit :=
  match live_df_raw with
  | Some df =>
      if negb (df_empty df) then
        do base_sst <- lift (first_of "sea_surface_temp_c" df);
        do base_dhw <- lift (first_of "degree_heating_week_c_weeks" df);
        let sim_sst := st_slider sst_moved base_sst in
        let sim_dhw := st_slider dhw_moved base_dhw in
        do sim_prediction <- lift (simulate df sim_sst sim_dhw);
        draw (st_metric "Simulated Bleaching Risk" (CFloat sim_prediction))
      else draw (st_error "Data is required for the simulator. Please try again later.")
  | None => draw (st_error "Data is required for the simulator. Please try again later.")
  end.

(** Lines 156-222, given what [get_live_data] returned. The historical
    explorer tab that follows reads only the store. *)
Definition dashboard (live : option DataFrame) (historical_df : DataFrame)
           (location_name : string) (sst_moved dhw_moved : option Q) : M unit :=
  do live_df_raw <- (if live_failed live
                     then fall_back historical_df location_name
                     else ret live);
  (tab1 live_df_raw ;; tab2 live_df_raw sst_moved dhw_moved).

Definition main (now : Z) (selected_location : option string)
           (historical_df : DataFrame) (sst_moved dhw_moved : option Q) : M unit :=
  match selected_location with
  | None => draw (st_info "Please select a reef from the map in the sidebar to begin.")
  | Some location_name =>
      do coords <- lift (match REEF_LOCATIONS !! location_name with
                         | Some c => Ok c
                         | None => Raised (KeyError location_name)
                         end);
      do live <- cached_get_live_data now (fst coords) (snd coords);
      dashboard live historical_df location_name sst_moved dhw_moved
  end.

(** *** [data_preprocessor.py], [feature_engineer] *)

Definition feature_engineer (df : DataFrame) : outcome DataFrame :=
  try df <- to_datetime_time df in
  try df <- assign_dt "year" Calendar.year df in
  try df <- assign_dt "month" Calendar.month df in
  try df <- assign_dt "day_of_year" Calendar.dayofyear df in
  try df <- assign_dt "week_of_year" Calendar.isoweek df in
  Ok df.

(** *** Vocabulary of the statements below *)

(** The four derived cells of the row of a timestamp. *)
Definition calendar_row (t : Z) (r : row) : row :=
  <["week_of_year" := CInt (Calendar.isoweek t)]>
    (<["day_of_year" := CInt (Calendar.dayofyear t)]>
       (<["month" := CInt (Calendar.month t)]>
          (<["year" := CInt (Calendar.year t)]> r))).

Definition calendar_fields (r : row) : list (option cell) :=
  [r !! "year"; r !! "month"; r !! "day_of_year"; r !! "week_of_year"].

Definition calendar_of (t : Z) : list (option cell) :=
  [Some (CInt (Calendar.year t)); Some (CInt (Calendar.month t));
   Some (CInt (Calendar.dayofyear t)); Some (CInt (Calendar.isoweek t))].

(** [pd.to_datetime(df['time'])], cell by cell. *)
Definition parsed_time (r : row) : outcome Z :=
  try c <- getitem "time" r in to_datetime c.

(** A row together with its sort key, as [sort_values_time] pairs them. *)
Definition keyed_row (r : row) : outcome (Z * row) :=
  try t <- dt r in Ok (t, r).

Definition by_time (a b : Z * row) : Prop := fst a <= fst b.

(** The read contract of the historical store, on one row: [time] is a
    timestamp and the six measured columns are present. *)
Definition raw_features : list string :=
  ["sea_surface_temp_c"; "hotspot_c"; "degree_heating_week_c_weeks";
   "sst_anomaly_c"; "bleaching_alert_area"; "bleaching_alert_area_7d_max"].


(** A response the fetchers do not accept: a request exception or a
    body that fails the validity test. *)
Definition failed (resp : response) : bool :=
  match resp with
  | Timeout | RequestError => true
  | Body csv_data => invalid_body csv_data
  end.

(** The URL [get_live_data] requests from its [i]-th server. *)
Definition live_url (now : Z) (lat lon : string) (i : nat) : string :=
  nth i server_urls "" +:+ "?" +:+ live_query now lat lon.

(** The URL [get_coral_reef_watch_data] requests. *)
Definition crw_url (lat lon start_date end_date : string) : string :=
  crw_base_url +:+ "?" +:+ build_query start_date end_date lat lon.


(** *** [fetch_missing_data.py], [get_coral_reef_watch_data]

    The copy of the fetcher in the gap-filling script. Its loop has no
    early [return None]: after a failed attempt it pauses unless the
    attempt was the last one, and goes on to the next round. *)
Fixpoint retry_loop_missing (request_url : string) (max_retries : Z) (todo : list Z)
  : M (option DataFrame) :=
  match todo with
  | [] => ret None
  | attempt :: todo' =>
      do resp <- requests_get request_url;
      match resp with
      | Body csv_data =>
          if invalid_body csv_data then
            ((if attempt <? max_retries - 1 then time_sleep 5 else ret tt) ;;
             retry_loop_missing request_url max_retries todo')
          else
            do df <- lift (parse_body csv_data);
            ret (Some df)
      | Timeout | RequestError =>
          ((if attempt <? max_retries - 1 then time_sleep 10 else ret tt) ;;
           retry_loop_missing request_url max_retries todo')
      end
  end.

Definition get_coral_reef_watch_data_missing
           (lat lon start_date end_date : string) (max_retries : Z)
  : M (option DataFrame) :=
  retry_loop_missing (crw_base_url +:+ "?" +:+ build_query start_date end_date lat lon)
                     max_retries (range max_retries).

(** Seconds spent in [time.sleep], as logged on the wire. *)
Definition slept (evs : list event) : Z :=
  fold_right (fun e acc => match e with
                           | Sleep secs => secs + acc
                           | Get _ => acc
                           end) 0 evs.

(** *** [noaa_data_fetcher.py], [fetch_data_in_chunks]

    The inner loop over the chunk starts of one year and the outer loop
    over the years; [all_dfs] is the list built so far. *)
Fixpoint chunk_loop (lat lon : string) (year chunk_months : Z) (starts : list Z)
         (all_dfs : list DataFrame) : M (list DataFrame) :=
  match starts with
  | [] => ret all_dfs
  | month_start :: rest =>
      let month_end := chunk_end chunk_months month_start in
      let start_date := chunk_start_date year month_start in
      do end_day <- lift (monthrange_days year month_end);
      let end_date := chunk_end_date year month_end end_day in
      do df <- get_coral_reef_watch_data lat lon start_date end_date 3;
      let all_dfs :=
        match df with
        | Some d => if negb (df_empty d) then all_dfs ++ [d] else all_dfs
        | None => all_dfs
        end in
      (time_sleep 2 ;; chunk_loop lat lon year chunk_months rest all_dfs)
  end.

Fixpoint year_loop (lat lon : string) (chunk_months : Z) (years : list Z)
         (all_dfs : list DataFrame) : M (list DataFrame) :=
  match years with
  | [] => ret all_dfs
  | year :: rest =>
      do starts <- lift (py_range 1 13 chunk_months);
      do all_dfs <- chunk_loop lat lon year chunk_months starts all_dfs;
      year_loop lat lon chunk_months rest all_dfs
  end.

Definition fetch_data_in_chunks (lat lon : string) (start_year end_year chunk_months : Z)
  : M (list DataFrame) :=
  year_loop lat lon chunk_months (py_range2 start_year (end_year + 1)) [].

(** The months of the chunks of one year, chunk by chunk. *)
Definition chunk_months_covered (chunk_months : Z) (starts : list Z) : list Z :=
  concat (map (fun month_start =>
                 py_range2 month_start (chunk_end chunk_months month_start + 1)) starts).

(** *** Vocabulary for what a step may do to the world *)

(** [m] only draws: it sends nothing, sleeps nothing, leaves the cache
    alone, and every element it adds to the page satisfies [P]. *)
Definition draws {A : Type} (P : ui -> Prop) (m : M A) : Prop :=
  forall w, exists us,
    snd (m w) = {| wire := wire w; cache := cache w; screen := screen w ++ us |}
    /\ Forall P us.

(** Any element but a warning box. *)
Definition no_warning (u : ui) : Prop :=
  match u with
  | st_warning _ => False
  | _ => True
  end.

Definition any_ui (u : ui) : Prop := True.

(** *** [data_preprocessor.py], the script: lines 102-104 *)

Definition preprocess_dataset (rng : nat -> Q) (raw_df : DataFrame) : outcome DataFrame :=
  let cleaned_df := clean_data raw_df in
  try engineered_df <- feature_engineer cleaned_df in
  Heuristic.apply_heuristic_labels rng engineered_df.

(** A row as the script saves it: a timestamp, the four calendar cells of
    that timestamp, the six measured columns and a label. *)
Definition processed_row (r : row) : Prop :=
  (exists t, r !! "time" = Some (CTime t) /\ calendar_row t r = r) /\
  Forall (fun col => is_Some (r !! col)) raw_features /\
  (exists label, r !! "bleaching_risk_percent" = Some (CFloat (Some label))).

(** *** [noaa_data_fetcher.py], the script: the loop over the reefs

    Lines 163-168 and 185-212. Coordinates are carried as the text Python
    prints for them; [all_location_dfs] is the list built so far. *)
Definition reef_locations : list (string * (string * string)) :=
  [("Andaman_Islands", ("11.25", "92.77"));
   ("Lakshadweep_Islands", ("10.56", "72.64"));
   ("Gulf_of_Mannar", ("8.78", "78.14"));
   ("Gulf_of_Kutch", ("22.47", "69.07"))].

Fixpoint location_loop (locations : list (string * (string * string)))
         (start_year end_year chunk_months : Z) (all_location_dfs : list DataFrame)
  : M (list DataFrame) :=
  match locations with
  | [] => ret all_location_dfs
  | (name, (lat, lon)) :: rest =>
      do location_dfs <- fetch_data_in_chunks lat lon start_year end_year chunk_months;
      match location_dfs with
      | _ :: _ =>
          let location_df := concat location_dfs in
          let location_df := setitem "location_name" (CStr name) location_df in
          do location_df <- lift (sort_values_time location_df);
          location_loop rest start_year end_year chunk_months
                        (all_location_dfs ++ [location_df])
      | [] =>
          location_loop rest start_year end_year chunk_months all_location_dfs
      end
  end.

(** Every request for these coordinates fails, whatever the dates and
    however often it is repeated. *)
Definition unreachable (lat lon : string) : Prop :=
  forall start_date end_date k, failed (net (crw_url lat lon start_date end_date) k) = true.

(** A frame of one reef: it has rows, and each carries the reef's name. *)
Definition frame_of (name : string) (df : DataFrame) : Prop :=
  df <> [] /\ Forall (fun r : row => r !! "location_name" = Some (CStr name)) df.
(** ** Properties *)

(** *** Calendar features on the live and on the historical path *)

Lemma dt_insert_ne (col : string) (v : cell) (r : row) :
  col ≠ "time" → dt (<[col := v]> r) = dt r.
Proof.
  intros Hne. unfold dt, getitem. by rewrite lookup_insert_ne.
Qed.

Lemma assign_dt_ok (col : string) (f : Z → Z) (df : DataFrame) (ts : list Z) :
  omap dt df = Ok ts →
  assign_dt col f df
  = Ok (zip_with (fun (r : row) t => <[col := CInt (f t)]> r) df ts).
Proof.
  unfold assign_dt. revert ts.
  induction df as [|r df IH]; intros ts Hts; simpl in *.
  - by inversion Hts.
  - destruct (dt r) as [t|e]; simpl in *; [|discriminate].
    destruct (omap dt df) as [ts'|e]; simpl in *; [|discriminate].
    inversion Hts; subst ts. specialize (IH ts' eq_refl).
    destruct (omap _ df) as [vals|e]; simpl in *; [|discriminate].
    inversion IH as [Heq]. simpl. by rewrite Heq.
Qed.

Lemma omap_dt_assign (col : string) (g : Z → cell) (df : DataFrame) (ts : list Z) :
  col ≠ "time" →
  omap dt df = Ok ts →
  omap dt (zip_with (fun (r : row) t => <[col := g t]> r) df ts) = Ok ts.
Proof.
  intros Hne. revert ts.
  induction df as [|r df IH]; intros ts Hts; simpl in *.
  - by inversion Hts.
  - destruct (dt r) as [t|e] eqn:Hr; simpl in *; [|discriminate].
    destruct (omap dt df) as [ts'|e]; simpl in *; [|discriminate].
    inversion Hts; subst ts. simpl.
    rewrite dt_insert_ne, Hr by done. simpl.
    by rewrite (IH ts' eq_refl).
Qed.

Lemma zip_with_zip_with_same {A B : Type} (f g : A → B → A) (l : list A) (k : list B) :
  zip_with g (zip_with f l k) k = zip_with (fun a b => g (f a b) b) l k.
Proof.
  revert k. induction l as [|a l IH]; intros [|b k]; simpl; try done.
  by rewrite IH.
Qed.

Lemma preprocess_live_data_ok (df : DataFrame) (ts : list Z) :
  omap dt df = Ok ts →
  preprocess_live_data df = Ok (zip_with (fun r t => calendar_row t r) df ts).
Proof.
  intros Hts. unfold preprocess_live_data.
  rewrite (assign_dt_ok _ _ _ _ Hts). simpl.
  pose proof (omap_dt_assign "year" (fun t => CInt (Calendar.year t)) df ts
                ltac:(done) Hts) as H1.
  rewrite (assign_dt_ok _ _ _ _ H1). simpl.
  rewrite zip_with_zip_with_same.
  pose proof (omap_dt_assign "month" (fun t => CInt (Calendar.month t)) _ ts
                ltac:(done) H1) as H2.
  rewrite zip_with_zip_with_same in H2.
  rewrite (assign_dt_ok _ _ _ _ H2). simpl.
  rewrite zip_with_zip_with_same.
  pose proof (omap_dt_assign "day_of_year" (fun t => CInt (Calendar.dayofyear t)) _ ts
                ltac:(done) H2) as H3.
  rewrite zip_with_zip_with_same in H3.
  rewrite (assign_dt_ok _ _ _ _ H3). simpl.
  by rewrite zip_with_zip_with_same.
Qed.

Lemma to_datetime_time_ok (df : DataFrame) (ts : list Z) :
  omap parsed_time df = Ok ts →
  to_datetime_time df
  = Ok (zip_with (fun (r : row) t => <["time" := CTime t]> r) df ts).
Proof.
  unfold to_datetime_time. revert ts.
  induction df as [|r df IH]; intros ts Hts; simpl in *.
  - by inversion Hts.
  - unfold parsed_time in Hts at 1.
    destruct (getitem "time" r) as [c|e]; simpl in *; [|discriminate].
    destruct (to_datetime c) as [t|e]; simpl in *; [|discriminate].
    destruct (omap parsed_time df) as [ts'|e]; simpl in *; [|discriminate].
    inversion Hts; subst ts. rewrite (IH ts' eq_refl). done.
Qed.

Lemma omap_dt_converted (df : DataFrame) (ts : list Z) :
  omap parsed_time df = Ok ts →
  omap dt (zip_with (fun (r : row) t => <["time" := CTime t]> r) df ts) = Ok ts.
Proof.
  revert ts.
  induction df as [|r df IH]; intros ts Hts; simpl in *.
  - by inversion Hts.
  - destruct (parsed_time r) as [t|e]; simpl in *; [|discriminate].
    destruct (omap parsed_time df) as [ts'|e]; simpl in *; [|discriminate].
    inversion Hts; subst ts. simpl.
    unfold dt at 1, getitem. rewrite lookup_insert_eq. simpl.
    by rewrite (IH ts' eq_refl).
Qed.

Lemma calendar_fields_row (t : Z) (r : row) :
  calendar_fields (calendar_row t r) = calendar_of t.
Proof.
  unfold calendar_fields, calendar_row, calendar_of.
  by simplify_map_eq.
Qed.

Lemma calendar_fields_zip (df : DataFrame) (ts : list Z) :
  length df = length ts →
  map calendar_fields (zip_with (fun r t => calendar_row t r) df ts)
  = map calendar_of ts.
Proof.
  revert ts. induction df as [|r df IH]; intros [|t ts] Hlen; simpl in *; try done.
  rewrite calendar_fields_row. f_equal. apply IH. lia.
Qed.

Lemma omap_length {A B : Type} (f : A → outcome B) (l : list A) (k : list B) :
  omap f l = Ok k → length l = length k.
Proof.
  revert k. induction l as [|a l IH]; intros k Hk; simpl in *.
  - by inversion Hk.
  - destruct (f a); simpl in *; [|discriminate].
    destruct (omap f l); simpl in *; [|discriminate].
    inversion Hk; subst. simpl. f_equal. by apply IH.
Qed.

(** C8. For a live frame and a historical frame whose rows carry the same
    timestamps, [preprocess_live_data] and [feature_engineer] both
    succeed and give every row the same year, month, day_of_year and
    week_of_year, namely the calendar fields of the row's [time]. *)
Theorem calendar_features_agree (live_df hist_df : DataFrame) (ts : list Z) :
  omap dt live_df = Ok ts →
  omap parsed_time hist_df = Ok ts →
  ∃ p q : DataFrame,
    preprocess_live_data live_df = Ok p ∧
    feature_engineer hist_df = Ok q ∧
    map calendar_fields p = map calendar_of ts ∧
    map calendar_fields q = map calendar_of ts.
Proof.
  intros Hlive Hhist.
  eexists _, _. split; [by apply preprocess_live_data_ok|].
  unfold feature_engineer.
  rewrite (to_datetime_time_ok _ _ Hhist). simpl.
  pose proof (omap_dt_converted _ _ Hhist) as Hdt.
  pose proof (preprocess_live_data_ok _ _ Hdt) as Hpre.
  unfold preprocess_live_data in Hpre. rewrite Hpre.
  split; [done|].
  split; apply calendar_fields_zip.
  - by apply omap_length in Hlive.
  - rewrite length_zip_with.
    apply omap_length in Hhist. lia.
Qed.

(** *** What-if simulation *)





(** C4. With both simulated values equal to the baseline row's own
    sea_surface_temp_c and degree_heating_week_c_weeks, the simulator's
    prediction is the prediction of the baseline row. *)
Theorem simulation_without_override (r : row) (base_sst base_dhw : cell) :
  first_of "sea_surface_temp_c" [r] = Ok base_sst →
  first_of "degree_heating_week_c_weeks" [r] = Ok base_dhw →
  simulate [r] (st_slider None base_sst) (st_slider None base_dhw) = predict [r].
Proof.
  unfold first_of, getitem. simpl.
  destruct (r !! "sea_surface_temp_c") as [c1|] eqn:H1; [|discriminate].
  destruct (r !! "degree_heating_week_c_weeks") as [c2|] eqn:H2; [|discriminate].
  intros [= <-] [= <-].
  unfold simulate, sim_frame, setitem. simpl.
  rewrite (insert_id r "sea_surface_temp_c" c1 H1).
  by rewrite (insert_id r "degree_heating_week_c_weeks" c2 H2).
Qed.

(** *** Sorting by time and taking the last row *)

Lemma elem_of_insert_by_time (x y : Z * row) (l : list (Z * row)) :
  y ∈ insert_by_time x l ↔ y = x ∨ y ∈ l.
Proof.
  induction l as [|z l IH]; simpl.
  - rewrite list_elem_of_singleton, elem_of_nil. tauto.
  - destruct (fst x <? fst z); rewrite !elem_of_cons; [tauto|].
    rewrite IH. tauto.
Qed.

Lemma elem_of_sort_by_time (y : Z * row) (l : list (Z * row)) :
  y ∈ sort_by_time l ↔ y ∈ l.
Proof.
  induction l as [|x l IH]; simpl; [done|].
  rewrite elem_of_insert_by_time, elem_of_cons, IH. tauto.
Qed.

Lemma insert_by_time_sorted (x : Z * row) (l : list (Z * row)) :
  StronglySorted by_time l → StronglySorted by_time (insert_by_time x l).
Proof.
  induction 1 as [|z l Hl IH Hz]; simpl.
  - repeat constructor.
  - destruct (fst x <? fst z) eqn:Hlt.
    + apply Z.ltb_lt in Hlt.
      constructor; [by constructor|].
      constructor; [unfold by_time; lia|].
      eapply Forall_impl; [exact Hz|]. unfold by_time. intros; simpl in *; lia.
    + apply Z.ltb_ge in Hlt.
      constructor; [done|].
      apply Forall_forall. intros y Hy.
      apply elem_of_insert_by_time in Hy as [->|Hy]; [done|].
      by eapply Forall_forall in Hz.
Qed.

Lemma sort_by_time_sorted (l : list (Z * row)) :
  StronglySorted by_time (sort_by_time l).
Proof.
  induction l; simpl; [constructor|by apply insert_by_time_sorted].
Qed.

Lemma sorted_last_max (l : list (Z * row)) (x : Z * row) :
  StronglySorted by_time (l ++ [x]) → ∀ y, y ∈ l ++ [x] → by_time y x.
Proof.
  induction l as [|z l IH]; simpl; intros Hs y Hy.
  - apply list_elem_of_singleton in Hy as ->. unfold by_time. lia.
  - inversion Hs as [|? ? Hl Hz]; subst.
    apply elem_of_cons in Hy as [->|Hy]; [|by apply IH].
    eapply Forall_forall in Hz; [exact Hz|]. set_solver.
Qed.

Lemma iloc_last_snoc (df : DataFrame) (r : row) : iloc_last (df ++ [r]) = [r].
Proof.
  unfold iloc_last. rewrite length_app. simpl.
  replace (length df + 1 - 1)%nat with (length df) by lia.
  by rewrite drop_app_length.
Qed.

Lemma omap_keyed (df : DataFrame) (keyed : list (Z * row)) :
  omap keyed_row df = Ok keyed →
  (∀ t r, (t, r) ∈ keyed → r ∈ df ∧ dt r = Ok t) ∧
  (∀ r, r ∈ df → ∃ t, dt r = Ok t ∧ (t, r) ∈ keyed).
Proof.
  revert keyed. induction df as [|r0 df IH]; intros keyed Hk; simpl in Hk.
  - inversion Hk; subst. split; intros; set_solver.
  - unfold keyed_row in Hk at 1.
    destruct (dt r0) as [t0|e] eqn:Ht0; simpl in Hk; [|discriminate].
    destruct (omap keyed_row df) as [keyed'|e]; simpl in Hk; [|discriminate].
    inversion Hk; subst keyed. destruct (IH keyed' eq_refl) as [IH1 IH2].
    split.
    + intros t r Hin. apply elem_of_cons in Hin as [[= -> ->]|Hin].
      * split; [left|done].
      * destruct (IH1 _ _ Hin). split; [by right|done].
    + intros r Hin. apply elem_of_cons in Hin as [->|Hin].
      * exists t0. split; [done|left].
      * destruct (IH2 _ Hin) as (t & ? & ?). exists t. split; [done|by right].
Qed.

(** The frame [df.sort_values('time').iloc[-1:]] holds one row of [df]
    whose time no other row of [df] exceeds, and no row when [df] has
    none. *)
Lemma latest_row (df sorted : DataFrame) :
  sort_values_time df = Ok sorted →
  (df = [] → iloc_last sorted = []) ∧
  (df ≠ [] →
   ∃ r t, iloc_last sorted = [r] ∧ r ∈ df ∧ dt r = Ok t ∧
          ∀ r' t', r' ∈ df → dt r' = Ok t' → t' <= t).
Proof.
  unfold sort_values_time. fold keyed_row.
  destruct (omap keyed_row df) as [keyed|e] eqn:Hk; simpl; [|discriminate].
  intros [= <-]. destruct (omap_keyed _ _ Hk) as [Hk1 Hk2].
  split.
  - intros ->. simpl in Hk. by inversion Hk.
  - intros Hne.
    destruct (sort_by_time keyed) as [|k0 ks _] eqn:Hs using rev_ind.
    { destruct df as [|r0 df]; [done|].
      destruct (Hk2 r0) as (t0 & _ & Hin); [left|].
      apply elem_of_sort_by_time in Hin. rewrite Hs in Hin. set_solver. }
    destruct k0 as [t r].
    assert (Hin : (t, r) ∈ keyed).
    { apply elem_of_sort_by_time. rewrite Hs, elem_of_app, list_elem_of_singleton. by right. }
    destruct (Hk1 _ _ Hin) as [Hr Ht].
    exists r, t. rewrite map_app. simpl. rewrite iloc_last_snoc.
    repeat split; try done.
    intros r' t' Hr' Ht'.
    destruct (Hk2 _ Hr') as (t'' & Ht'' & Hin').
    rewrite Ht' in Ht''. inversion Ht''; subst t''.
    apply elem_of_sort_by_time in Hin'. rewrite Hs in Hin'.
    pose proof (sort_by_time_sorted keyed) as Hsorted. rewrite Hs in Hsorted.
    exact (sorted_last_max _ _ Hsorted _ Hin').
Qed.

(** *** The live fetch keeps the latest row *)

Lemma try_servers_cons (query base_url : string) (rest : list string) (w : world) :
  try_servers query (base_url :: rest) w
  = match net (base_url +:+ "?" +:+ query)
              (gets_of (base_url +:+ "?" +:+ query) (wire w)) with
    | Timeout | RequestError =>
        try_servers query rest (log (Get (base_url +:+ "?" +:+ query)) w)
    | Body csv_data =>
        if invalid_body csv_data
        then try_servers query rest (log (Get (base_url +:+ "?" +:+ query)) w)
        else (try df <- parse_body csv_data in
              try sorted <- sort_values_time df in
              Ok (Some (iloc_last sorted)),
              log (Get (base_url +:+ "?" +:+ query)) w)
    end.
Proof.
  simpl. unfold bind at 1, requests_get.
  destruct (net _ _) as [| |csv_data]; try done.
  destruct (invalid_body csv_data); [done|].
  unfold bind, lift, ret.
  destruct (parse_body csv_data) as [df|e]; [|reflexivity].
  simpl. destruct (sort_values_time df); reflexivity.
Qed.

Lemma try_servers_some (query : string) (urls : list string) (w w' : world)
      (df : DataFrame) :
  try_servers query urls w = (Ok (Some df), w') →
  ∃ base_url k csv_data rows sorted,
    base_url ∈ urls ∧
    net (base_url +:+ "?" +:+ query) k = Body csv_data ∧
    invalid_body csv_data = false ∧
    parse_body csv_data = Ok rows ∧
    sort_values_time rows = Ok sorted ∧
    df = iloc_last sorted.
Proof.
  revert w. induction urls as [|base_url rest IH]; intros w.
  - simpl. unfold ret. intros [=].
  - rewrite try_servers_cons.
    assert (Hrest : ∀ w1, try_servers query rest w1 = (Ok (Some df), w') →
                    ∃ base_url0 k csv_data rows sorted,
                      base_url0 ∈ base_url :: rest ∧
                      net (base_url0 +:+ "?" +:+ query) k = Body csv_data ∧
                      invalid_body csv_data = false ∧
                      parse_body csv_data = Ok rows ∧
                      sort_values_time rows = Ok sorted ∧
                      df = iloc_last sorted).
    { intros w1 H. destruct (IH _ H) as (b & k & c & rows & sorted & Hb & Hrest).
      exists b, k, c, rows, sorted. split; [by right|done]. }
    destruct (net _ _) as [| |csv_data] eqn:Hnet; try apply Hrest.
    destruct (invalid_body csv_data) eqn:Hinv; [apply Hrest|].
    destruct (parse_body csv_data) as [rows|e] eqn:Hparse; simpl; [|intros [=]].
    destruct (sort_values_time rows) as [sorted|e] eqn:Hsort; simpl; [|intros [=]].
    intros [= <- <-].
    exists base_url, (gets_of (base_url +:+ "?" +:+ query) (wire w)), csv_data, rows, sorted.
    repeat split; try done. left.
Qed.

Lemma length_iloc_last (df : DataFrame) : (length (iloc_last df) ≤ 1)%nat.
Proof. unfold iloc_last. rewrite length_drop. lia. Qed.

(** Whatever the servers send, a frame returned by [get_live_data] has
    at most one row. *)
Lemma live_fetch_at_most_one_row (now : Z) (lat lon : string) (w w' : world)
      (df : DataFrame) :
  get_live_data now lat lon w = (Ok (Some df), w') → (length df ≤ 1)%nat.
Proof.
  unfold get_live_data. intros Hget.
  apply try_servers_some in Hget as (_ & _ & _ & _ & sorted & _ & _ & _ & _ & _ & ->).
  apply length_iloc_last.
Qed.

(** C9. When [get_live_data] returns a frame the dashboard accepts (not
    [None], not empty), the frame is a single row: a row parsed from the
    accepted response whose time no other parsed row exceeds. *)
Theorem live_fetch_keeps_latest_row (now : Z) (lat lon : string) (w w' : world)
        (live : option DataFrame) :
  get_live_data now lat lon w = (Ok live, w') →
  live_failed live = false →
  ∃ csv_data rows r t,
    (∃ url k, net url k = Body csv_data) ∧
    invalid_body csv_data = false ∧
    parse_body csv_data = Ok rows ∧
    live = Some [r] ∧ r ∈ rows ∧ dt r = Ok t ∧
    ∀ r' t', r' ∈ rows → dt r' = Ok t' → t' <= t.
Proof.
  unfold get_live_data. intros Hget Hok.
  destruct live as [df|]; [|discriminate].
  apply try_servers_some in Hget
    as (b & k & csv_data & rows & sorted & _ & Hnet & Hinv & Hparse & Hsort & ->).
  destruct (latest_row _ _ Hsort) as [Hnil Hcons].
  destruct rows as [|r0 rows].
  { rewrite Hnil in Hok by done. discriminate. }
  destruct Hcons as (r & t & Hlast & Hin & Ht & Hmax); [done|].
  exists csv_data, (r0 :: rows), r, t.
  rewrite Hlast. repeat split; eauto.
Qed.

(** *** Falling back on the historical store *)





(** C2. When the live fetch has failed and the store has no row for the
    location, the dashboard stops with an IndexError at the lookup of the
    fallback date: nothing is drawn, neither a prediction nor the
    "no data" message. *)
Theorem fallback_on_empty_store_raises
        (live : option DataFrame) (historical_df : DataFrame)
        (location_name : string) (sst_moved dhw_moved : option Q) (w : world) :
  live_failed live = true →
  loc_rows location_name historical_df = Ok [] →
  dashboard live historical_df location_name sst_moved dhw_moved w
  = (Raised IndexError, w).
Proof.
  intros Hfail Hrows.
  unfold dashboard, fall_back, bind, lift.
  by rewrite Hfail, Hrows.
Qed.


(** *** Bounded attempts *)

Lemma attempts_get (w : world) (url : string) :
  attempts (wire (log (Get url) w)) = S (attempts (wire w)).
Proof.
  unfold attempts, log. simpl. rewrite List.filter_app, length_app. simpl. lia.
Qed.

Lemma attempts_sleep (w : world) (secs : Z) :
  attempts (wire (log (Sleep secs) w)) = attempts (wire w).
Proof.
  unfold attempts, log. simpl. rewrite List.filter_app, length_app. simpl. lia.
Qed.

Lemma gets_of_get (w : world) (url : string) :
  gets_of url (wire (log (Get url) w)) = S (gets_of url (wire w)).
Proof.
  unfold gets_of, log. simpl. rewrite List.filter_app, length_app. simpl.
  rewrite String.eqb_refl. simpl. lia.
Qed.

Lemma gets_of_sleep (w : world) (url : string) (secs : Z) :
  gets_of url (wire (log (Sleep secs) w)) = gets_of url (wire w).
Proof.
  unfold gets_of, log. simpl. rewrite List.filter_app, length_app. simpl. lia.
Qed.

(** One round of [for attempt in range(max_retries)]. *)
Lemma retry_loop_cons (url : string) (max_retries attempt : Z) (todo : list Z)
      (w : world) :
  retry_loop url max_retries (attempt :: todo) w
  = match net url (gets_of url (wire w)) with
    | Timeout | RequestError =>
        if attempt <? max_retries - 1
        then retry_loop url max_retries todo (log (Sleep 10) (log (Get url) w))
        else (Ok None, log (Get url) w)
    | Body csv_data =>
        if invalid_body csv_data then
          if attempt <? max_retries - 1
          then retry_loop url max_retries todo (log (Sleep 5) (log (Get url) w))
          else (Ok None, log (Get url) w)
        else (try df <- parse_body csv_data in Ok (Some df), log (Get url) w)
    end.
Proof.
  simpl. unfold bind at 1, requests_get.
  destruct (net _ _) as [| |csv_data].
  - by destruct (attempt <? max_retries - 1).
  - by destruct (attempt <? max_retries - 1).
  - destruct (invalid_body csv_data).
    + by destruct (attempt <? max_retries - 1).
    + unfold bind, lift, ret. by destruct (parse_body csv_data).
Qed.

(** The loop over the servers sends at most one request per server. *)
Lemma try_servers_attempts (query : string) (urls : list string) (w : world) :
  (attempts (wire (snd (try_servers query urls w)))
   ≤ attempts (wire w) + length urls)%nat.
Proof.
  revert w. induction urls as [|base_url rest IH]; intros w; [simpl; lia|].
  rewrite try_servers_cons.
  pose proof (attempts_get w (base_url +:+ "?" +:+ query)) as Hw1.
  pose proof (IH (log (Get (base_url +:+ "?" +:+ query)) w)) as IH1.
  simpl length.
  destruct (net _ _) as [| |csv_data]; try lia.
  destruct (invalid_body csv_data); [lia|].
  cbn [snd]. lia.
Qed.

Lemma try_servers_total_failure (query : string) (urls : list string) (w : world) :
  (∀ url k, failed (net url k) = true) →
  fst (try_servers query urls w) = Ok None.
Proof.
  intros Hfail. revert w.
  induction urls as [|base_url rest IH]; intros w; [done|].
  rewrite try_servers_cons.
  pose proof (Hfail (base_url +:+ "?" +:+ query)
                    (gets_of (base_url +:+ "?" +:+ query) (wire w))) as H.
  destruct (net _ _) as [| |csv_data]; try apply IH.
  simpl in H. rewrite H. apply IH.
Qed.

(** The retry loop sends at most one request per scheduled attempt. *)
Lemma retry_loop_attempts (url : string) (max_retries : Z) (todo : list Z) (w : world) :
  (attempts (wire (snd (retry_loop url max_retries todo w)))
   ≤ attempts (wire w) + length todo)%nat.
Proof.
  revert w. induction todo as [|attempt todo IH]; intros w; [simpl; lia|].
  rewrite retry_loop_cons.
  pose proof (attempts_get w url) as Hw1.
  pose proof (IH (log (Sleep 10) (log (Get url) w))) as IH10.
  pose proof (IH (log (Sleep 5) (log (Get url) w))) as IH5.
  rewrite attempts_sleep in IH10, IH5.
  simpl length.
  destruct (net _ _) as [| |csv_data].
  - destruct (attempt <? max_retries - 1); cbn [snd]; lia.
  - destruct (attempt <? max_retries - 1); cbn [snd]; lia.
  - destruct (invalid_body csv_data).
    + destruct (attempt <? max_retries - 1); cbn [snd]; lia.
    + cbn [snd]. lia.
Qed.

Lemma retry_loop_total_failure (url : string) (max_retries : Z) (todo : list Z)
      (w : world) :
  (∀ url k, failed (net url k) = true) →
  fst (retry_loop url max_retries todo w) = Ok None.
Proof.
  intros Hfail. revert w.
  induction todo as [|attempt todo IH]; intros w; [done|].
  rewrite retry_loop_cons.
  pose proof (Hfail url (gets_of url (wire w))) as H.
  destruct (net _ _) as [| |csv_data].
  - destruct (attempt <? max_retries - 1); [apply IH|done].
  - destruct (attempt <? max_retries - 1); [apply IH|done].
  - simpl in H. rewrite H.
    destruct (attempt <? max_retries - 1); [apply IH|done].
Qed.

Lemma length_range (n : Z) : length (range n) = Z.to_nat n.
Proof. unfold range. by rewrite length_map, length_seq. Qed.

(** C7. When every response is a failure, both fetchers return [None]
    without raising, after at most (number of endpoints) x (attempts per
    endpoint) requests: 2 x 1 for [get_live_data], 1 x [max_retries] for
    [get_coral_reef_watch_data]. *)
Theorem total_failure_is_bounded :
  (∀ url k, failed (net url k) = true) →
  (∀ now lat lon w,
      fst (get_live_data now lat lon w) = Ok None ∧
      (attempts (wire (snd (get_live_data now lat lon w)))
       ≤ attempts (wire w) + length server_urls * 1)%nat) ∧
  (∀ lat lon start_date end_date max_retries w,
      fst (get_coral_reef_watch_data lat lon start_date end_date max_retries w) = Ok None ∧
      (attempts (wire (snd (get_coral_reef_watch_data lat lon start_date end_date
                                                      max_retries w)))
       ≤ attempts (wire w) + 1 * Z.to_nat max_retries)%nat).
Proof.
  intros Hfail. split.
  - intros now lat lon w. unfold get_live_data. split.
    + by apply try_servers_total_failure.
    + pose proof (try_servers_attempts (live_query now lat lon) server_urls w). lia.
  - intros lat lon start_date end_date max_retries w.
    unfold get_coral_reef_watch_data. split.
    + by apply retry_loop_total_failure.
    + pose proof (retry_loop_attempts
                    (crw_base_url +:+ "?" +:+ build_query start_date end_date lat lon)
                    max_retries (range max_retries) w) as H.
      rewrite length_range in H. lia.
Qed.

(** *** Where failed attempts are retried *)

Lemma retry_loop_recovers (url : string) (max_retries : Z) (k : nat) :
  ∀ (a n : nat) (w : world) (csv_data : string),
    (k < n)%nat →
    Z.of_nat (a + k) < max_retries →
    (∀ i, (i < k)%nat → failed (net url (gets_of url (wire w) + i)) = true) →
    net url (gets_of url (wire w) + k) = Body csv_data →
    invalid_body csv_data = false →
    fst (retry_loop url max_retries (map Z.of_nat (seq a n)) w)
    = (try df <- parse_body csv_data in Ok (Some df)) ∧
    attempts (wire (snd (retry_loop url max_retries (map Z.of_nat (seq a n)) w)))
    = (attempts (wire w) + k + 1)%nat ∧
    gets_of url (wire (snd (retry_loop url max_retries (map Z.of_nat (seq a n)) w)))
    = (gets_of url (wire w) + k + 1)%nat.
Proof.
  induction k as [|k IH]; intros a n w csv_data Hn Ha Hfail Hok Hvalid;
    (destruct n as [|n]; [lia|]);
    change (map Z.of_nat (seq a (S n)))
      with (Z.of_nat a :: map Z.of_nat (seq (S a) n));
    rewrite retry_loop_cons.
  - rewrite Nat.add_0_r in Hok. rewrite Hok, Hvalid. cbn [fst snd].
    rewrite attempts_get, gets_of_get. repeat split; lia.
  - pose proof (Hfail 0%nat ltac:(lia)) as H0. rewrite Nat.add_0_r in H0.
    assert (Hlt : (Z.of_nat a <? max_retries - 1) = true) by (apply Z.ltb_lt; lia).
    assert (Hnext : ∀ secs,
               let w2 := log (Sleep secs) (log (Get url) w) in
               fst (retry_loop url max_retries (map Z.of_nat (seq (S a) n)) w2)
               = (try df <- parse_body csv_data in Ok (Some df)) ∧
               attempts (wire (snd (retry_loop url max_retries
                                               (map Z.of_nat (seq (S a) n)) w2)))
               = (attempts (wire w) + S k + 1)%nat ∧
               gets_of url (wire (snd (retry_loop url max_retries
                                                  (map Z.of_nat (seq (S a) n)) w2)))
               = (gets_of url (wire w) + S k + 1)%nat).
    { intros secs w2.
      assert (Hw2a : attempts (wire w2) = S (attempts (wire w))).
      { unfold w2. by rewrite attempts_sleep, attempts_get. }
      assert (Hw2g : gets_of url (wire w2) = S (gets_of url (wire w))).
      { unfold w2. by rewrite gets_of_sleep, gets_of_get. }
      destruct (IH (S a) n w2 csv_data) as (R1 & R2 & R3).
      - lia.
      - lia.
      - intros i Hi. rewrite Hw2g.
        replace (S (gets_of url (wire w)) + i)%nat
          with (gets_of url (wire w) + S i)%nat by lia.
        apply Hfail. lia.
      - rewrite Hw2g.
        replace (S (gets_of url (wire w)) + k)%nat
          with (gets_of url (wire w) + S k)%nat by lia.
        done.
      - done.
      - rewrite R1, R2, R3, Hw2a, Hw2g. repeat split; lia. }
    destruct (net url (gets_of url (wire w))) as [| |csv0]; rewrite ?Hlt.
    + apply Hnext.
    + apply Hnext.
    + simpl in H0. rewrite H0. apply Hnext.
Qed.

Lemma try_servers_one (query b : string) (w1 : world) :
  wire (snd (try_servers query [b] w1)) = wire w1 ++ [Get (b +:+ "?" +:+ query)].
Proof.
  rewrite try_servers_cons.
  destruct (net _ _) as [| |csv0]; [reflexivity|reflexivity|].
  destruct (invalid_body csv0); reflexivity.
Qed.

Lemma try_servers_moves_on (query a b : string) (w : world) :
  failed (net (a +:+ "?" +:+ query) (gets_of (a +:+ "?" +:+ query) (wire w))) = true →
  wire (snd (try_servers query [a; b] w))
  = wire w ++ [Get (a +:+ "?" +:+ query); Get (b +:+ "?" +:+ query)].
Proof.
  intros Hfail. rewrite try_servers_cons.
  destruct (net (a +:+ "?" +:+ query) _) as [| |csv_data].
  - rewrite try_servers_one. simpl. by rewrite <- app_assoc.
  - rewrite try_servers_one. simpl. by rewrite <- app_assoc.
  - simpl in Hfail. rewrite Hfail, try_servers_one. simpl. by rewrite <- app_assoc.
Qed.

(** C6, as the code has it. The offline fetcher, which has one endpoint,
    retries a timeout, a request error or an invalid body on that
    endpoint: when the first [k] responses fail and the next one is a
    valid body, with [k] below [max_retries], it returns the parse of
    that body after [k + 1] requests, all to the same URL. The dashboard's
    [get_live_data] sends each endpoint one request: when the first
    endpoint's response fails, the next request goes to the second
    endpoint. *)
Theorem retries_stay_in_offline_fetcher :
  (∀ lat lon start_date end_date max_retries (k : nat) csv_data w,
      Z.of_nat k < max_retries →
      (∀ i, (i < k)%nat →
            failed (net (crw_url lat lon start_date end_date)
                        (gets_of (crw_url lat lon start_date end_date) (wire w) + i))
            = true) →
      net (crw_url lat lon start_date end_date)
          (gets_of (crw_url lat lon start_date end_date) (wire w) + k)
      = Body csv_data →
      invalid_body csv_data = false →
      fst (get_coral_reef_watch_data lat lon start_date end_date max_retries w)
      = (try df <- parse_body csv_data in Ok (Some df)) ∧
      attempts (wire (snd (get_coral_reef_watch_data lat lon start_date end_date
                                                     max_retries w)))
      = (attempts (wire w) + k + 1)%nat ∧
      gets_of (crw_url lat lon start_date end_date)
              (wire (snd (get_coral_reef_watch_data lat lon start_date end_date
                                                    max_retries w)))
      = (gets_of (crw_url lat lon start_date end_date) (wire w) + k + 1)%nat) ∧
  (∀ now lat lon w,
      failed (net (live_url now lat lon 0)
                  (gets_of (live_url now lat lon 0) (wire w))) = true →
      wire (snd (get_live_data now lat lon w))
      = wire w ++ [Get (live_url now lat lon 0); Get (live_url now lat lon 1)]).
Proof.
  split.
  - intros lat lon start_date end_date max_retries k csv_data w Hk Hfail Hok Hvalid.
    unfold get_coral_reef_watch_data, range.
    apply (retry_loop_recovers _ max_retries k 0 (Z.to_nat max_retries) w csv_data);
      try done; lia.
  - intros now lat lon w Hfail.
    unfold get_live_data, server_urls.
    by apply try_servers_moves_on.
Qed.

(** *** What the result cache stores *)

(** C3, as the code has it. Whatever value a fetch returns, [None]
    included, is stored under the coordinates with the time of the call,
    and a call for the same coordinates less than the TTL later returns
    that value without touching the network or the cache. *)
Theorem every_returned_value_is_cached (now now' : Z) (lat lon : string)
        (w w1 : world) (v : option DataFrame) :
  cache_lookup now (lat, lon) w = None →
  cached_get_live_data now lat lon w = (Ok v, w1) →
  now' - now < ttl →
  fst (get_live_data now lat lon w) = Ok v ∧
  cache w1 !! (lat, lon) = Some (now, v) ∧
  cached_get_live_data now' lat lon w1 = (Ok v, w1).
Proof.
  intros Hmiss Hcall Hyoung.
  unfold cached_get_live_data in Hcall. rewrite Hmiss in Hcall.
  destruct (get_live_data now lat lon w) as [[v0|e] w0] eqn:Hget; [|discriminate].
  inversion Hcall; subst v0 w1. clear Hcall.
  split; [done|]. split; [apply lookup_insert_eq|].
  unfold cached_get_live_data, cache_lookup. simpl.
  rewrite lookup_insert_eq.
  by apply Z.ltb_lt in Hyoung as ->.
Qed.


(** ** Further properties of the fetchers *)

Lemma to_datetime_time_times (df rows : DataFrame) :
  to_datetime_time df = Ok rows →
  Forall (fun r : row => ∃ t, dt r = Ok t) rows.
Proof.
  unfold to_datetime_time. revert rows.
  induction df as [|r df IH]; intros rows Hrows; simpl in Hrows.
  - inversion Hrows. constructor.
  - destruct (getitem "time" r) as [c|e]; simpl in Hrows; [|discriminate].
    destruct (to_datetime c) as [t|e]; simpl in Hrows; [|discriminate].
    destruct (omap _ df) as [rows'|e]; simpl in Hrows; [|discriminate].
    inversion Hrows; subst rows. constructor; [|by apply IH].
    exists t. unfold dt, getitem. by rewrite lookup_insert_eq.
Qed.

Lemma parse_body_times (csv_data : string) (rows : DataFrame) :
  parse_body csv_data = Ok rows →
  Forall (fun r : row => ∃ t, dt r = Ok t) rows.
Proof.
  unfold parse_body.
  destruct (read_csv csv_data) as [tbl|e]; simpl; [|discriminate].
  destruct (set_columns crw_columns tbl) as [df|e]; simpl; [|discriminate].
  apply to_datetime_time_times.
Qed.

Lemma sort_values_time_of_times (df : DataFrame) :
  Forall (fun r : row => ∃ t, dt r = Ok t) df →
  ∃ sorted, sort_values_time df = Ok sorted.
Proof.
  intros Hdf. unfold sort_values_time. fold keyed_row.
  assert (∃ keyed, omap keyed_row df = Ok keyed) as [keyed ->]; [|by eexists].
  induction Hdf as [|r df [t Ht] _ [keyed IH]]; simpl; [by eexists|].
  unfold keyed_row at 1. rewrite Ht, IH. simpl. by eexists.
Qed.

(** X1. A first server whose response passes the validity test and parses
    ends the fetch: the result is the last row of its rows sorted by time,
    one request has been sent, and the second server is not contacted. *)
Theorem live_fetch_stops_at_first_success (now : Z) (lat lon : string) (w : world)
        (csv_data : string) (rows : DataFrame) :
  net (live_url now lat lon 0) (gets_of (live_url now lat lon 0) (wire w)) = Body csv_data →
  invalid_body csv_data = false →
  parse_body csv_data = Ok rows →
  ∃ sorted,
    sort_values_time rows = Ok sorted ∧
    get_live_data now lat lon w
    = (Ok (Some (iloc_last sorted)), log (Get (live_url now lat lon 0)) w).
Proof.
  intros Hnet Hvalid Hparse.
  destruct (sort_values_time_of_times rows (parse_body_times _ _ Hparse))
    as [sorted Hsort].
  exists sorted. split; [done|].
  unfold get_live_data, server_urls. rewrite try_servers_cons.
  unfold live_url, server_urls in Hnet. simpl nth in Hnet.
  rewrite Hnet, Hvalid, Hparse. simpl. by rewrite Hsort.
Qed.

Lemma live_urls_differ (now : Z) (lat lon : string) :
  live_url now lat lon 0 ≠ live_url now lat lon 1.
Proof. unfold live_url, server_urls. simpl. discriminate. Qed.

(** X2. Whatever the servers answer, one call of [get_live_data] sends a
    request to the first server and then at most one to the second, and
    nothing else: no server is asked twice, nothing is slept, the cache
    and the page are left as they were. *)
Theorem live_fetch_asks_each_server_once (now : Z) (lat lon : string) (w : world) :
  ∃ evs,
    snd (get_live_data now lat lon w)
    = {| wire := wire w ++ evs; cache := cache w; screen := screen w |} ∧
    (evs = [Get (live_url now lat lon 0)] ∨
     evs = [Get (live_url now lat lon 0); Get (live_url now lat lon 1)]).
Proof.
  unfold get_live_data, server_urls, live_url. simpl nth.
  set (q := live_query now lat lon).
  set (a := "https://coastwatch.pfeg.noaa.gov/erddap/griddap/NOAA_DHW.csv").
  set (b := "https://oceanwatch.pifsc.noaa.gov/erddap/griddap/NOAA_DHW.csv").
  assert (Hb : ∀ w1, snd (try_servers q [b] w1) = log (Get (b +:+ "?" +:+ q)) w1).
  { intros w1. rewrite try_servers_cons.
    destruct (net (b +:+ "?" +:+ q) _) as [| |csv0]; [reflexivity|reflexivity|].
    destruct (invalid_body csv0); reflexivity. }
  rewrite try_servers_cons.
  destruct (net (a +:+ "?" +:+ q) _) as [| |csv_data].
  - eexists. split; [|by right]. rewrite Hb. unfold log. simpl.
    by rewrite <- app_assoc.
  - eexists. split; [|by right]. rewrite Hb. unfold log. simpl.
    by rewrite <- app_assoc.
  - destruct (invalid_body csv_data).
    + eexists. split; [|by right]. rewrite Hb. unfold log. simpl.
      by rewrite <- app_assoc.
    + eexists. split; [|by left]. reflexivity.
Qed.

(** X3. A body that passes the validity test but does not have nine
    columns is not treated as a failed attempt: [get_live_data] raises
    ValueError after its first request and never asks the second server. *)
Theorem live_fetch_raises_on_column_mismatch (now : Z) (lat lon : string) (w : world)
        (csv_data : string) (tbl : csv_table) :
  net (live_url now lat lon 0) (gets_of (live_url now lat lon 0) (wire w)) = Body csv_data →
  invalid_body csv_data = false →
  read_csv csv_data = Ok tbl →
  length (header tbl) ≠ 9%nat →
  get_live_data now lat lon w = (Raised ValueError, log (Get (live_url now lat lon 0)) w).
Proof.
  intros Hnet Hvalid Hread Hcols.
  unfold get_live_data, server_urls. rewrite try_servers_cons.
  unfold live_url, server_urls in Hnet. simpl nth in Hnet.
  rewrite Hnet, Hvalid. unfold parse_body, set_columns. rewrite Hread.
  cbn [obind].
  replace (length crw_columns =? length (header tbl))%nat with false; [reflexivity|].
  symmetry. apply Nat.eqb_neq. simpl. congruence.
Qed.

(** X4. With [max_retries] zero or negative the offline fetcher sends no
    request at all and returns [None]. *)
Theorem offline_fetch_without_attempts (lat lon start_date end_date : string)
        (max_retries : Z) (w : world) :
  max_retries <= 0 →
  get_coral_reef_watch_data lat lon start_date end_date max_retries w = (Ok None, w).
Proof.
  intros Hmax. unfold get_coral_reef_watch_data, range.
  replace (Z.to_nat max_retries) with 0%nat by lia. reflexivity.
Qed.

Lemma slept_get (w : world) (url : string) :
  slept (wire (log (Get url) w)) = slept (wire w).
Proof.
  unfold log. simpl. induction (wire w) as [|[u|s] evs IH]; simpl; [done|done|].
  by rewrite IH.
Qed.

Lemma slept_sleep (w : world) (secs : Z) :
  slept (wire (log (Sleep secs) w)) = slept (wire w) + secs.
Proof.
  unfold log. simpl. induction (wire w) as [|[u|s] evs IH]; simpl; [lia|done|].
  rewrite IH. lia.
Qed.

Lemma retry_loop_failure_cost (url : string) (max_retries : Z) (n : nat) :
  (∀ url k, failed (net url k) = true) →
  ∀ (a : nat) (w : world),
    Z.of_nat (a + S n) = max_retries →
    attempts (wire (snd (retry_loop url max_retries (map Z.of_nat (seq a (S n))) w)))
    = (attempts (wire w) + S n)%nat ∧
    5 * Z.of_nat n
    <= slept (wire (snd (retry_loop url max_retries (map Z.of_nat (seq a (S n))) w)))
       - slept (wire w)
    <= 10 * Z.of_nat n.
Proof.
  intros Hfail. induction n as [|n IH]; intros a w Ha;
    change (map Z.of_nat (seq a (S ?m))) with (Z.of_nat a :: map Z.of_nat (seq (S a) m));
    rewrite retry_loop_cons;
    pose proof (Hfail url (gets_of url (wire w))) as Hresp;
    pose proof (attempts_get w url) as Hget;
    pose proof (slept_get w url) as Hsl.
  - assert (Hlast : (Z.of_nat a <? max_retries - 1) = false) by (apply Z.ltb_ge; lia).
    destruct (net url (gets_of url (wire w))) as [| |csv_data]; rewrite ?Hlast.
    + cbn [snd]. lia.
    + cbn [snd]. lia.
    + simpl in Hresp. rewrite Hresp. cbn [snd]. lia.
  - assert (Hmore : (Z.of_nat a <? max_retries - 1) = true) by (apply Z.ltb_lt; lia).
    pose proof (IH (S a) (log (Sleep 10) (log (Get url) w)) ltac:(lia)) as [A10 S10].
    pose proof (IH (S a) (log (Sleep 5) (log (Get url) w)) ltac:(lia)) as [A5 S5].
    rewrite attempts_sleep in A10, A5. rewrite slept_sleep in S10, S5.
    destruct (net url (gets_of url (wire w))) as [| |csv_data]; rewrite ?Hmore.
    + split; lia.
    + split; lia.
    + simpl in Hresp. rewrite Hresp. split; lia.
Qed.

(** X5. When every response is a failure and [max_retries] is positive,
    the offline fetcher sends exactly [max_retries] requests and pauses
    only between them: in all it sleeps at least 5 and at most 10 seconds
    per attempt but the last. *)
Theorem offline_fetch_total_failure_cost (lat lon start_date end_date : string)
        (max_retries : Z) (w : world) :
  (∀ url k, failed (net url k) = true) →
  0 < max_retries →
  attempts (wire (snd (get_coral_reef_watch_data lat lon start_date end_date
                                                 max_retries w)))
  = (attempts (wire w) + Z.to_nat max_retries)%nat ∧
  5 * (max_retries - 1)
  <= slept (wire (snd (get_coral_reef_watch_data lat lon start_date end_date
                                                 max_retries w)))
     - slept (wire w)
  <= 10 * (max_retries - 1).
Proof.
  intros Hfail Hpos. unfold get_coral_reef_watch_data, range.
  destruct (Z.to_nat max_retries) as [|n] eqn:Hn; [lia|].
  pose proof (retry_loop_failure_cost
                (crw_base_url +:+ "?" +:+ build_query start_date end_date lat lon)
                max_retries n Hfail 0%nat w ltac:(lia)) as [HA HS].
  split; [exact HA|]. lia.
Qed.

Lemma retry_loop_missing_same (url : string) (max_retries : Z) (n : nat) :
  ∀ (a : nat) (w : world),
    (n = 0%nat ∨ Z.of_nat (a + n) = max_retries) →
    retry_loop_missing url max_retries (map Z.of_nat (seq a n)) w
    = retry_loop url max_retries (map Z.of_nat (seq a n)) w.
Proof.
  induction n as [|n IH]; intros a w Ha; [reflexivity|].
  destruct Ha as [Ha|Ha]; [discriminate|].
  change (map Z.of_nat (seq a (S n))) with (Z.of_nat a :: map Z.of_nat (seq (S a) n)).
  rewrite retry_loop_cons. simpl retry_loop_missing.
  unfold bind at 1, requests_get.
  assert (Hnext : ∀ w1, retry_loop_missing url max_retries (map Z.of_nat (seq (S a) n)) w1
                        = retry_loop url max_retries (map Z.of_nat (seq (S a) n)) w1).
  { intros w1. apply IH. destruct n; [by left|right; lia]. }
  assert (Hlast : (Z.of_nat a <? max_retries - 1) = false → n = 0%nat).
  { intros H. apply Z.ltb_ge in H. lia. }
  destruct (net url (gets_of url (wire w))) as [| |csv_data].
  - destruct (Z.of_nat a <? max_retries - 1) eqn:Hlt.
    + unfold bind, time_sleep. apply Hnext.
    + rewrite (Hlast eq_refl). reflexivity.
  - destruct (Z.of_nat a <? max_retries - 1) eqn:Hlt.
    + unfold bind, time_sleep. apply Hnext.
    + rewrite (Hlast eq_refl). reflexivity.
  - destruct (invalid_body csv_data).
    + destruct (Z.of_nat a <? max_retries - 1) eqn:Hlt.
      * unfold bind, time_sleep. apply Hnext.
      * rewrite (Hlast eq_refl). reflexivity.
    + unfold bind, lift, ret. by destruct (parse_body csv_data).
Qed.

(** X6. The fetcher copied into [fetch_missing_data.py] behaves as the one
    in [noaa_data_fetcher.py]: for every service, arguments and starting
    world both return the same value and leave the same requests and
    pauses behind. *)
Theorem offline_fetchers_agree (lat lon start_date end_date : string)
        (max_retries : Z) (w : world) :
  get_coral_reef_watch_data_missing lat lon start_date end_date max_retries w
  = get_coral_reef_watch_data lat lon start_date end_date max_retries w.
Proof.
  unfold get_coral_reef_watch_data_missing, get_coral_reef_watch_data, range.
  apply retry_loop_missing_same.
  destruct (Z.to_nat max_retries) eqn:Hn; [by left|right; lia].
Qed.

(** ** The chunked fetch *)

Lemma py_range_months_long (chunk_months : Z) :
  12 <= chunk_months → py_range 1 13 chunk_months = Ok [1].
Proof.
  intros Hc. unfold py_range.
  replace (chunk_months =? 0) with false by (symmetry; apply Z.eqb_neq; lia).
  replace (0 <? chunk_months) with true by (symmetry; apply Z.ltb_lt; lia).
  replace ((13 - 1 + chunk_months - 1) / chunk_months) with 1.
  - reflexivity.
  - apply (Z.div_unique_pos _ _ 1 11); lia.
Qed.

(** X7. For every chunk size of at least one month, the chunks of a year
    start in January, end in December and follow one another without gap
    or overlap: month by month they cover 1, 2, ..., 12. *)
Theorem chunks_cover_each_month_once (chunk_months : Z) :
  1 <= chunk_months →
  ∃ starts,
    py_range 1 13 chunk_months = Ok starts ∧
    chunk_months_covered chunk_months starts = [1; 2; 3; 4; 5; 6; 7; 8; 9; 10; 11; 12].
Proof.
  intros Hc.
  assert (Hcases : chunk_months = 1 ∨ chunk_months = 2 ∨ chunk_months = 3
                   ∨ chunk_months = 4 ∨ chunk_months = 5 ∨ chunk_months = 6
                   ∨ chunk_months = 7 ∨ chunk_months = 8 ∨ chunk_months = 9
                   ∨ chunk_months = 10 ∨ chunk_months = 11 ∨ 12 <= chunk_months) by lia.
  destruct Hcases as [->|[->|[->|[->|[->|[->|[->|[->|[->|[->|[->| Hlong]]]]]]]]]]];
    try (eexists; split; reflexivity).
  exists [1]. split; [by apply py_range_months_long|].
  unfold chunk_months_covered, chunk_end. simpl.
  replace (Z.min (1 + chunk_months - 1) 12) with 12 by lia.
  reflexivity.
Qed.

(** X8. The day a chunk ends on is the last day of its month in every
    year, leap years included: the day after it is the first day of the
    next month, or the first of January of the next year after December. *)
Theorem chunk_ends_on_last_day_of_month (year month end_day : Z) :
  monthrange_days year month = Ok end_day →
  Calendar.days_from_civil year month end_day + 1
  = if month =? 12 then Calendar.days_from_civil (year + 1) 1 1
    else Calendar.days_from_civil year (month + 1) 1.
Proof.
  unfold monthrange_days.
  destruct ((1 <=? month) && (month <=? 12)) eqn:Hm; [|discriminate].
  apply andb_true_iff in Hm as [H1 H2]. apply Z.leb_le in H1, H2.
  intros [= <-].
  assert (Hcases : month = 1 ∨ month = 2 ∨ month = 3 ∨ month = 4 ∨ month = 5
                   ∨ month = 6 ∨ month = 7 ∨ month = 8 ∨ month = 9 ∨ month = 10
                   ∨ month = 11 ∨ month = 12) by lia.
  destruct Hcases as [->|[->|[->|[->|[->|[->|[->|[->|[->|[->|[->| ->]]]]]]]]]]];
    unfold Calendar.days_from_civil, isleap; simpl.
  all: try (replace (year + 1 - 1) with year by lia); try lia.
  all: destruct (year mod 4 =? 0) eqn:E4; destruct (year mod 100 =? 0) eqn:E100;
    destruct (year mod 400 =? 0) eqn:E400; simpl;
    rewrite ?Z.eqb_eq, ?Z.eqb_neq in *; Z.to_euclidean_division_equations; lia.
Qed.

Lemma chunks_months_exist (chunk_months : Z) :
  1 <= chunk_months → ∃ starts, py_range 1 13 chunk_months = Ok starts.
Proof.
  intros Hc. unfold py_range.
  replace (chunk_months =? 0) with false by (symmetry; apply Z.eqb_neq; lia).
  by eexists.
Qed.

Lemma py_range_months_bounds (chunk_months : Z) (starts : list Z) :
  1 <= chunk_months →
  py_range 1 13 chunk_months = Ok starts →
  length starts = Z.to_nat ((11 + chunk_months) / chunk_months) ∧
  Forall (fun s => 1 <= s) starts.
Proof.
  intros Hc. unfold py_range.
  replace (chunk_months =? 0) with false by (symmetry; apply Z.eqb_neq; lia).
  replace (0 <? chunk_months) with true by (symmetry; apply Z.ltb_lt; lia).
  intros [= <-]. split.
  - rewrite length_map, length_seq. f_equal. f_equal. lia.
  - apply Forall_forall. intros s Hs.
    apply list_elem_of_In, in_map_iff in Hs as (i & <- & _). nia.
Qed.

Lemma monthrange_days_chunk_end (year chunk_months month_start : Z) :
  1 <= chunk_months → 1 <= month_start →
  ∃ end_day, monthrange_days year (chunk_end chunk_months month_start) = Ok end_day.
Proof.
  intros Hc Hs. unfold monthrange_days, chunk_end.
  replace ((1 <=? Z.min (month_start + chunk_months - 1) 12)
           && (Z.min (month_start + chunk_months - 1) 12 <=? 12)) with true;
    [by eexists|].
  symmetry. apply andb_true_iff. split; apply Z.leb_le; lia.
Qed.

Lemma retry_loop_three_failures (url : string) (w : world) :
  (∀ url k, failed (net url k) = true) →
  ∃ w', retry_loop url 3 (range 3) w = (Ok None, w') ∧
        attempts (wire w') = (attempts (wire w) + 3)%nat.
Proof.
  intros Hfail.
  pose proof (retry_loop_total_failure url 3 (range 3) w Hfail) as Hres.
  pose proof (retry_loop_failure_cost url 3 2 Hfail 0%nat w eq_refl) as [Hatt _].
  change (map Z.of_nat (seq 0 3)) with (range 3) in Hatt.
  destruct (retry_loop url 3 (range 3) w) as [res w']. simpl in *. subst res.
  by exists w'.
Qed.

Lemma chunk_loop_total_failure (lat lon : string) (year chunk_months : Z)
      (starts : list Z) :
  (∀ url k, failed (net url k) = true) →
  1 <= chunk_months →
  Forall (fun s => 1 <= s) starts →
  ∀ (all_dfs : list DataFrame) (w : world),
  ∃ w', chunk_loop lat lon year chunk_months starts all_dfs w = (Ok all_dfs, w') ∧
        attempts (wire w') = (attempts (wire w) + 3 * length starts)%nat.
Proof.
  intros Hfail Hc Hstarts.
  induction Hstarts as [|s starts Hs _ IH]; intros all_dfs w.
  - exists w. split; [reflexivity|simpl; lia].
  - destruct (monthrange_days_chunk_end year chunk_months s Hc Hs) as [end_day Hday].
    simpl chunk_loop. unfold bind at 1, lift. rewrite Hday.
    unfold bind at 1, get_coral_reef_watch_data.
    destruct (retry_loop_three_failures
                (crw_base_url +:+ "?"
                 +:+ build_query (chunk_start_date year s)
                       (chunk_end_date year (chunk_end chunk_months s) end_day) lat lon)
                w Hfail) as (w1 & -> & Hw1).
    unfold bind at 1, time_sleep.
    destruct (IH all_dfs (log (Sleep 2) w1)) as (w' & -> & Hw').
    exists w'. split; [reflexivity|].
    rewrite attempts_sleep in Hw'. simpl length. lia.
Qed.

Lemma year_loop_total_failure (lat lon : string) (chunk_months : Z) (starts : list Z)
      (years : list Z) :
  (∀ url k, failed (net url k) = true) →
  1 <= chunk_months →
  py_range 1 13 chunk_months = Ok starts →
  ∀ (all_dfs : list DataFrame) (w : world),
  ∃ w', year_loop lat lon chunk_months years all_dfs w = (Ok all_dfs, w') ∧
        attempts (wire w')
        = (attempts (wire w) + 3 * (length years * length starts))%nat.
Proof.
  intros Hfail Hc Hstarts.
  destruct (py_range_months_bounds _ _ Hc Hstarts) as [_ Hpos].
  induction years as [|year years IH]; intros all_dfs w.
  - exists w. split; [reflexivity|simpl; lia].
  - simpl year_loop. unfold bind at 1, lift. rewrite Hstarts.
    unfold bind at 1.
    destruct (chunk_loop_total_failure lat lon year chunk_months starts
                                       Hfail Hc Hpos all_dfs w) as (w1 & -> & Hw1).
    destruct (IH all_dfs w1) as (w' & -> & Hw').
    exists w'. split; [reflexivity|]. simpl length. lia.
Qed.

(** X9. When every response is a failure, the chunked fetch with a chunk
    size of at least one month does not raise: it returns the empty list
    after three requests for each chunk of each year, which is
    3 x (years) x ceil(12 / chunk_months) requests. *)
Theorem chunked_fetch_total_failure (lat lon : string)
        (start_year end_year chunk_months : Z) (w : world) :
  (∀ url k, failed (net url k) = true) →
  1 <= chunk_months →
  fst (fetch_data_in_chunks lat lon start_year end_year chunk_months w) = Ok [] ∧
  attempts (wire (snd (fetch_data_in_chunks lat lon start_year end_year chunk_months w)))
  = (attempts (wire w)
     + 3 * (Z.to_nat (end_year + 1 - start_year)
            * Z.to_nat ((11 + chunk_months) / chunk_months)))%nat.
Proof.
  intros Hfail Hc.
  destruct (chunks_months_exist chunk_months Hc) as [starts Hstarts].
  destruct (py_range_months_bounds _ _ Hc Hstarts) as [Hlen _].
  unfold fetch_data_in_chunks.
  destruct (year_loop_total_failure lat lon chunk_months starts
              (py_range2 start_year (end_year + 1)) Hfail Hc Hstarts [] w)
    as (w' & -> & Hw').
  split; [reflexivity|]. simpl snd. rewrite Hw'.
  unfold py_range2. by rewrite length_map, length_seq, Hlen.
Qed.

Lemma py_range_months_negative (chunk_months : Z) :
  chunk_months < 0 → py_range 1 13 chunk_months = Ok [].
Proof.
  intros Hc. unfold py_range.
  replace (chunk_months =? 0) with false by (symmetry; apply Z.eqb_neq; lia).
  replace (0 <? chunk_months) with false by (symmetry; apply Z.ltb_ge; lia).
  replace (Z.to_nat ((1 - 13 - chunk_months - 1) / - chunk_months)) with 0%nat;
    [reflexivity|].
  assert ((1 - 13 - chunk_months - 1) / - chunk_months <= 0); [|lia].
  Z.to_euclidean_division_equations. nia.
Qed.

(** X10. The chunked fetch asks for nothing when there is no year to
    fetch or when the chunk size is negative: it returns the empty list
    and sends no request. With a chunk size of zero and at least one year
    it raises ValueError before any request is sent. *)
Theorem chunked_fetch_degenerate_sizes (lat lon : string)
        (start_year end_year chunk_months : Z) (w : world) :
  (end_year < start_year ∨ chunk_months < 0 →
   fetch_data_in_chunks lat lon start_year end_year chunk_months w = (Ok [], w)) ∧
  (start_year <= end_year → chunk_months = 0 →
   fetch_data_in_chunks lat lon start_year end_year chunk_months w
   = (Raised ValueError, w)).
Proof.
  unfold fetch_data_in_chunks, py_range2. split.
  - intros [Hyears|Hc].
    + replace (Z.to_nat (end_year + 1 - start_year)) with 0%nat by lia. reflexivity.
    + induction (map _ (seq 0 (Z.to_nat (end_year + 1 - start_year)))) as [|y ys IH];
        [reflexivity|].
      simpl year_loop. unfold bind at 1, lift.
      rewrite (py_range_months_negative _ Hc). unfold bind at 1. simpl chunk_loop.
      unfold ret at 1. exact IH.
  - intros Hyears ->.
    destruct (Z.to_nat (end_year + 1 - start_year)) as [|n] eqn:Hn; [lia|].
    reflexivity.
Qed.

Lemma chunk_loop_keeps_nonempty (lat lon : string) (year chunk_months : Z)
      (starts : list Z) :
  ∀ (all_dfs dfs : list DataFrame) (w w' : world),
    Forall (fun d : DataFrame => d ≠ []) all_dfs →
    chunk_loop lat lon year chunk_months starts all_dfs w = (Ok dfs, w') →
    Forall (fun d : DataFrame => d ≠ []) dfs.
Proof.
  induction starts as [|s starts IH]; intros all_dfs dfs w w' Hacc Hrun.
  - inversion Hrun. by subst.
  - simpl chunk_loop in Hrun. unfold bind at 1, lift in Hrun.
    destruct (monthrange_days year (chunk_end chunk_months s)) as [end_day|e];
      [|discriminate].
    unfold bind at 1 in Hrun.
    destruct (get_coral_reef_watch_data _ _ _ _ _ w) as [[df|e] w1]; [|discriminate].
    unfold bind at 1, time_sleep in Hrun.
    eapply IH; [|exact Hrun].
    destruct df as [[|r d]|]; simpl; try done.
    apply Forall_app. split; [done|]. by repeat constructor.
Qed.

Lemma year_loop_keeps_nonempty (lat lon : string) (chunk_months : Z) (years : list Z) :
  ∀ (all_dfs dfs : list DataFrame) (w w' : world),
    Forall (fun d : DataFrame => d ≠ []) all_dfs →
    year_loop lat lon chunk_months years all_dfs w = (Ok dfs, w') →
    Forall (fun d : DataFrame => d ≠ []) dfs.
Proof.
  induction years as [|year years IH]; intros all_dfs dfs w w' Hacc Hrun.
  - inversion Hrun. by subst.
  - simpl year_loop in Hrun. unfold bind at 1, lift in Hrun.
    destruct (py_range 1 13 chunk_months) as [starts|e]; [|discriminate].
    unfold bind at 1 in Hrun.
    destruct (chunk_loop lat lon year chunk_months starts all_dfs w)
      as [[dfs1|e] w1] eqn:Hchunk; [|discriminate].
    eapply IH; [|exact Hrun].
    by eapply chunk_loop_keeps_nonempty.
Qed.

(** X11. Whatever the service answers, every frame in the list the chunked
    fetch returns has at least one row: chunks that came back as [None] or
    empty are left out. *)
Theorem chunked_fetch_returns_no_empty_frame (lat lon : string)
        (start_year end_year chunk_months : Z) (w w' : world) (dfs : list DataFrame) :
  fetch_data_in_chunks lat lon start_year end_year chunk_months w = (Ok dfs, w') →
  Forall (fun d : DataFrame => d ≠ []) dfs.
Proof.
  unfold fetch_data_in_chunks. apply year_loop_keeps_nonempty. constructor.
Qed.

(** ** The dashboard *)

Lemma omap_dt_raised (g : Z → cell) (df : DataFrame) (e : exn) :
  omap dt df = Raised e →
  omap (fun r : row => try t <- dt r in Ok (g t)) df = Raised e.
Proof.
  induction df as [|r df IH]; cbn [omap]; [discriminate|].
  destruct (dt r) as [t|e']; cbn [obind]; [|by intros [= ->]].
  destruct (omap dt df) as [ts|e']; cbn [obind]; [discriminate|].
  intros [= ->]. by rewrite IH.
Qed.

(** [preprocess_live_data], row by row. *)
Lemma preprocess_live_data_rows (df : DataFrame) :
  preprocess_live_data df
  = (try ts <- omap dt df in Ok (zip_with (fun r t => calendar_row t r) df ts)).
Proof.
  destruct (omap dt df) as [ts|e] eqn:Hts; simpl.
  - by apply preprocess_live_data_ok.
  - unfold preprocess_live_data, assign_dt.
    by rewrite (omap_dt_raised _ _ _ Hts).
Qed.

Lemma calendar_row_other (t : Z) (r : row) (col : string) :
  col ∉ ["year"; "month"; "day_of_year"; "week_of_year"] →
  calendar_row t r !! col = r !! col.
Proof.
  intros Hcol. unfold calendar_row.
  rewrite !lookup_insert_ne; [done|..]; intros <-; apply Hcol; set_solver.
Qed.

(** X12. When [preprocess_live_data] succeeds it keeps the number of rows
    and changes nothing but the four calendar columns: every other column
    of every row holds the cell it held before. *)
Theorem preprocess_changes_only_calendar_columns (df p : DataFrame) :
  preprocess_live_data df = Ok p →
  length p = length df ∧
  ∀ (i : nat) (r r' : row) (col : string),
    df !! i = Some r → p !! i = Some r' →
    col ∉ ["year"; "month"; "day_of_year"; "week_of_year"] →
    r' !! col = r !! col.
Proof.
  rewrite preprocess_live_data_rows.
  destruct (omap dt df) as [ts|e] eqn:Hts; simpl; [|discriminate].
  intros [= <-]. pose proof (omap_length _ _ _ Hts) as Hlen.
  split.
  - rewrite length_zip_with. lia.
  - intros i r r' col Hr Hr' Hcol.
    apply lookup_zip_with_Some in Hr' as (r0 & t & -> & Hr0 & _).
    rewrite Hr in Hr0. inversion Hr0; subst r0.
    by apply calendar_row_other.
Qed.

Lemma calendar_row_twice (t : Z) (r : row) :
  calendar_row t (calendar_row t r) = calendar_row t r.
Proof.
  apply map_eq. intros col. unfold calendar_row.
  destruct (decide (col = "week_of_year")) as [->|H1]; [by rewrite !lookup_insert_eq|].
  rewrite !(lookup_insert_ne _ "week_of_year") by done.
  destruct (decide (col = "day_of_year")) as [->|H2]; [by rewrite !lookup_insert_eq|].
  rewrite !(lookup_insert_ne _ "day_of_year") by done.
  destruct (decide (col = "month")) as [->|H3]; [by rewrite !lookup_insert_eq|].
  rewrite !(lookup_insert_ne _ "month") by done.
  destruct (decide (col = "year")) as [->|H4]; [by rewrite !lookup_insert_eq|].
  rewrite !(lookup_insert_ne _ "year") by done.
  rewrite !lookup_insert_ne; done.
Qed.

Lemma dt_calendar_row (t : Z) (r : row) : dt (calendar_row t r) = dt r.
Proof. unfold calendar_row. by rewrite !dt_insert_ne. Qed.

Lemma omap_dt_calendar (df : DataFrame) (ts : list Z) :
  omap dt df = Ok ts →
  omap dt (zip_with (fun r t => calendar_row t r) df ts) = Ok ts.
Proof.
  revert ts. induction df as [|r df IH]; intros ts; cbn [omap].
  - by intros [= <-].
  - destruct (dt r) as [t|e] eqn:Hr; cbn [obind]; [|discriminate].
    destruct (omap dt df) as [ts'|e]; cbn [obind]; [|discriminate].
    intros [= <-]. cbn [zip_with omap].
    by rewrite dt_calendar_row, Hr, (IH ts' eq_refl).
Qed.

(** X13. [preprocess_live_data] is idempotent: run on its own result, for
    instance on a stored row that already has the calendar columns, it
    returns that result unchanged. *)
Theorem preprocess_is_idempotent (df p : DataFrame) :
  preprocess_live_data df = Ok p → preprocess_live_data p = Ok p.
Proof.
  rewrite !preprocess_live_data_rows.
  destruct (omap dt df) as [ts|e] eqn:Hts; simpl; [|discriminate].
  intros [= <-]. rewrite (omap_dt_calendar _ _ Hts). simpl. f_equal.
  clear Hts. revert ts. induction df as [|r df IH]; intros [|t ts]; simpl; try done.
  by rewrite calendar_row_twice, IH.
Qed.

Lemma draws_ret {A : Type} (P : ui → Prop) (a : A) : draws P (ret a).
Proof. intros [wi ca sc]. exists []. simpl. by rewrite app_nil_r. Qed.

Lemma draws_lift {A : Type} (P : ui → Prop) (o : outcome A) : draws P (lift o).
Proof. intros [wi ca sc]. exists []. simpl. by rewrite app_nil_r. Qed.

Lemma draws_draw (P : ui → Prop) (u : ui) : P u → draws P (draw u).
Proof. intros Hu w. exists [u]. split; [done|]. by constructor. Qed.

Lemma draws_bind {A B : Type} (P : ui → Prop) (m : M A) (k : A → M B) :
  draws P m → (∀ a, draws P (k a)) → draws P (bind m k).
Proof.
  intros Hm Hk w. unfold bind.
  destruct (Hm w) as (us & Hs & HP).
  destruct (m w) as [[a|e] w1]; simpl in Hs; subst w1.
  - destruct (Hk a {| wire := wire w; cache := cache w; screen := screen w ++ us |})
      as (us' & Hs' & HP').
    exists (us ++ us'). rewrite Hs'. simpl. rewrite app_assoc.
    split; [done|]. by apply Forall_app.
  - by exists us.
Qed.

Lemma draws_weaken {A : Type} (P Q : ui → Prop) (m : M A) :
  (∀ u, P u → Q u) → draws P m → draws Q m.
Proof.
  intros HPQ Hm w. destruct (Hm w) as (us & Hs & HP).
  exists us. split; [done|]. eapply Forall_impl; eauto.
Qed.

Ltac draws_steps :=
  repeat first
    [ apply draws_ret | apply draws_lift
    | apply draws_draw; exact I
    | apply draws_bind; [|intros ?] ].

Lemma draws_tab1 (live_df_raw : option DataFrame) : draws no_warning (tab1 live_df_raw).
Proof.
  unfold tab1. destruct live_df_raw as [df|]; [destruct (negb (df_empty df))|];
    draws_steps.
Qed.

Lemma draws_tab2 (live_df_raw : option DataFrame) (s d : option Q) :
  draws no_warning (tab2 live_df_raw s d).
Proof.
  unfold tab2. destruct live_df_raw as [df|]; [destruct (negb (df_empty df))|];
    draws_steps.
Qed.

Lemma draws_fall_back (historical_df : DataFrame) (location_name : string) :
  draws any_ui (fall_back historical_df location_name).
Proof. unfold fall_back. draws_steps. Qed.

Lemma draws_dashboard (live : option DataFrame) (historical_df : DataFrame)
      (location_name : string) (s d : option Q) :
  draws any_ui (dashboard live historical_df location_name s d).
Proof.
  unfold dashboard. apply draws_bind.
  - destruct (live_failed live); [apply draws_fall_back|apply draws_ret].
  - intros raw. apply draws_bind.
    + eapply draws_weaken; [|apply draws_tab1]. done.
    + intros _. eapply draws_weaken; [|apply draws_tab2]. done.
Qed.

(** X14. Whatever [get_live_data] returned and whatever the store holds,
    the steps of [main] after the fetch (fallback, the two tabs) send no
    request, take no pause and leave the result cache as it is: they only
    add elements to the page, also when they raise. *)
Theorem dashboard_touches_only_the_page (live : option DataFrame)
        (historical_df : DataFrame) (location_name : string)
        (sst_moved dhw_moved : option Q) (w : world) :
  let w' := snd (dashboard live historical_df location_name sst_moved dhw_moved w) in
  wire w' = wire w ∧ cache w' = cache w ∧ ∃ us, screen w' = screen w ++ us.
Proof.
  destruct (draws_dashboard live historical_df location_name sst_moved dhw_moved w)
    as (us & Hs & _).
  cbv zeta. rewrite Hs. simpl. eauto.
Qed.

(** X15. When [get_live_data] returned a non-empty frame, lines 156-222
    draw from it alone: the store is not read (any two stores give the
    same run) and no warning box is drawn, so a live result is never
    presented as stale. *)
Theorem live_result_is_shown_without_warning (live : option DataFrame)
        (historical_df : DataFrame) (location_name : string)
        (sst_moved dhw_moved : option Q) (w : world) :
  live_failed live = false →
  (∀ other_df,
     dashboard live other_df location_name sst_moved dhw_moved w
     = dashboard live historical_df location_name sst_moved dhw_moved w) ∧
  ∃ us,
    screen (snd (dashboard live historical_df location_name sst_moved dhw_moved w))
    = screen w ++ us
    ∧ Forall no_warning us.
Proof.
  intros Hlive. split.
  - intros other_df. unfold dashboard. by rewrite Hlive.
  - assert (Hd : draws no_warning
                   (dashboard live historical_df location_name sst_moved dhw_moved)).
    { unfold dashboard. rewrite Hlive. apply draws_bind; [apply draws_ret|].
      intros raw. apply draws_bind; [apply draws_tab1|].
      intros _. apply draws_tab2. }
    destruct (Hd w) as (us & Hs & HP). exists us. rewrite Hs. done.
Qed.

(** The run of the server loop when every response fails: one request per
    server, in order, and [None]. *)
Lemma try_servers_total_failure_run (query : string) (urls : list string) (w : world) :
  (∀ url k, failed (net url k) = true) →
  try_servers query urls w
  = (Ok None, fold_left (fun w u => log (Get (u +:+ "?" +:+ query)) w) urls w).
Proof.
  intros Hfail. revert w.
  induction urls as [|base_url rest IH]; intros w; [done|].
  rewrite try_servers_cons. cbn [fold_left].
  pose proof (Hfail (base_url +:+ "?" +:+ query)
                    (gets_of (base_url +:+ "?" +:+ query) (wire w))) as H.
  destruct (net _ _) as [| |csv_data]; try apply IH.
  simpl in H. rewrite H. apply IH.
Qed.

(** X16. A run of [main] for a known reef, with no fresh cache entry,
    while every response fails: it sends one request to each of the two
    servers, stores [None] in the cache under the reef's coordinates, and
    then draws the page as for a failed fetch. *)
Theorem main_under_outage (now : Z) (location_name lat lon : string)
        (historical_df : DataFrame) (sst_moved dhw_moved : option Q) (w : world) :
  REEF_LOCATIONS !! location_name = Some (lat, lon) →
  cache_lookup now (lat, lon) w = None →
  (∀ url k, failed (net url k) = true) →
  main now (Some location_name) historical_df sst_moved dhw_moved w
  = dashboard None historical_df location_name sst_moved dhw_moved
      {| wire := wire w ++ [Get (live_url now lat lon 0); Get (live_url now lat lon 1)];
         cache := <[(lat, lon) := (now, None)]> (cache w);
         screen := screen w |}.
Proof.
  intros Hloc Hmiss Hfail. unfold main. rewrite Hloc.
  unfold bind at 1. unfold lift. cbn [fst snd].
  unfold bind at 1. unfold cached_get_live_data. rewrite Hmiss.
  unfold get_live_data. rewrite (try_servers_total_failure_run _ _ _ Hfail).
  unfold server_urls, log. cbn [fold_left wire cache screen].
  rewrite <- app_assoc. reflexivity.
Qed.

(** X17. After a run of [main] whose fetch was a cache miss and returned
    [v] (a frame or [None]), a rerun for the same reef less than the TTL
    later, whatever the sliders and the store, is drawn from [v] and sends
    no request. *)
Theorem rerun_within_ttl_sends_nothing (now now' : Z) (location_name lat lon : string)
        (historical_df historical_df' : DataFrame)
        (sst_moved dhw_moved sst_moved' dhw_moved' : option Q)
        (v : option DataFrame) (w : world) :
  REEF_LOCATIONS !! location_name = Some (lat, lon) →
  cache_lookup now (lat, lon) w = None →
  fst (get_live_data now lat lon w) = Ok v →
  now' - now < ttl →
  let w1 := snd (main now (Some location_name) historical_df sst_moved dhw_moved w) in
  main now' (Some location_name) historical_df' sst_moved' dhw_moved' w1
  = dashboard v historical_df' location_name sst_moved' dhw_moved' w1
  ∧ wire (snd (main now' (Some location_name) historical_df' sst_moved' dhw_moved' w1))
    = wire w1.
Proof.
  intros Hloc Hmiss Hv Hfresh. cbv zeta.
  assert (Hcache : cache (snd (main now (Some location_name) historical_df
                                    sst_moved dhw_moved w)) !! (lat, lon)
                   = Some (now, v)).
  { unfold main. rewrite Hloc.
    unfold bind at 1. unfold lift. cbn [fst snd].
    unfold bind at 1. unfold cached_get_live_data. rewrite Hmiss.
    destruct (get_live_data now lat lon w) as [[v0|e] w0]; simpl in Hv; [|discriminate].
    inversion Hv; subst v0.
    destruct (draws_dashboard v historical_df location_name sst_moved dhw_moved
                {| wire := wire w0; cache := <[(lat, lon) := (now, v)]> (cache w0);
                   screen := screen w0 |}) as (us & Hs & _).
    rewrite Hs. simpl. apply lookup_insert_eq. }
  set (w1 := snd (main now (Some location_name) historical_df sst_moved dhw_moved w))
    in *.
  assert (Hrun : main now' (Some location_name) historical_df' sst_moved' dhw_moved' w1
                 = dashboard v historical_df' location_name sst_moved' dhw_moved' w1).
  { unfold main. rewrite Hloc.
    unfold bind at 1. unfold lift. cbn [fst snd].
    unfold bind at 1. unfold cached_get_live_data, cache_lookup. rewrite Hcache.
    replace (now' - now <? ttl) with true by (symmetry; apply Z.ltb_lt; lia).
    reflexivity. }
  split; [exact Hrun|]. rewrite Hrun.
  destruct (draws_dashboard v historical_df' location_name sst_moved' dhw_moved' w1)
    as (us & Hs & _).
  rewrite Hs. reflexivity.
Qed.

(** ** Cleaning the downloaded data *)


Lemma isnull_nan (c : cell) : isnull c = true ↔ c = CFloat None.
Proof. destruct c as [| [q|] | |]; simpl; split; (done || discriminate). Qed.

Lemma lookup_ffill_row (above r : row) (col : string) :
  ffill_row above r !! col
  = match r !! col with
    | Some c => Some (if isnull c then default c (above !! col) else c)
    | None => None
    end.
Proof.
  unfold ffill_row. rewrite map_lookup_imap.
  destruct (r !! col) as [c|]; simpl; [|done].
  by destruct (isnull c), (above !! col).
Qed.

Lemma ffill_row_dom (above r : row) : dom (ffill_row above r) = dom r.
Proof.
  apply set_eq. intros col. rewrite !elem_of_dom, lookup_ffill_row.
  destruct (r !! col); simpl; split; intros [? ?]; eauto; discriminate.
Qed.

Lemma ffill_row_fix (above r : row) :
  (∀ col, r !! col = Some (CFloat None) →
          above !! col = Some (CFloat None) ∨ above !! col = None) →
  ffill_row above r = r.
Proof.
  intros H. apply map_eq. intros col. rewrite lookup_ffill_row.
  destruct (r !! col) as [c|] eqn:Hc; [|done].
  destruct (isnull c) eqn:Hn; [|done].
  apply isnull_nan in Hn. subst c.
  destruct (H col Hc) as [-> | ->]; done.
Qed.

Lemma gaps_within_trans (a b c : row) : gaps_within a b → gaps_within b c → gaps_within a c.
Proof. intros Hab Hbc col Hc. eauto. Qed.

Lemma gaps_within_ffill_row (above r : row) :
  dom r = dom above → gaps_within above (ffill_row above r).
Proof.
  intros Hdom col. rewrite lookup_ffill_row.
  destruct (r !! col) as [c|] eqn:Hc; [|discriminate].
  assert (Ha : is_Some (above !! col)).
  { apply elem_of_dom. rewrite <- Hdom. apply elem_of_dom. eauto. }
  destruct Ha as [v Hv]. rewrite Hv. simpl.
  destruct (isnull c) eqn:Hn; [congruence|].
  intros [= ->]. discriminate.
Qed.

Lemma ffill_from_gaps (above : row) (df : DataFrame) :
  Forall (fun r : row => dom r = dom above) df →
  StronglySorted gaps_within (above :: ffill_from above df).
Proof.
  revert above. induction df as [|r df IH]; intros above Hdom; simpl.
  - repeat constructor.
  - inversion Hdom as [|? ? Hr Hdf]; subst.
    assert (Hdom' : Forall (fun r' : row => dom r' = dom (ffill_row above r)) df).
    { eapply Forall_impl; [exact Hdf|]. intros r' Hr'. simpl in Hr'.
      rewrite ffill_row_dom. congruence. }
    specialize (IH _ Hdom').
    pose proof (gaps_within_ffill_row above r Hr) as Hstep.
    constructor; [exact IH|].
    constructor; [exact Hstep|].
    apply StronglySorted_inv in IH as [_ Hall].
    eapply Forall_impl; [exact Hall|].
    intros x Hx. simpl in Hx. eapply gaps_within_trans; eauto.
Qed.

Lemma ffill_row_empty (r : row) : ffill_row ∅ r = r.
Proof. apply ffill_row_fix. intros col _. right. apply lookup_empty. Qed.

Lemma ffill_gaps (df : DataFrame) :
  rectangular df → StronglySorted gaps_within (ffill df).
Proof.
  unfold rectangular, ffill. destruct df as [|r df]; simpl; [constructor|].
  rewrite ffill_row_empty. intros H. inversion H; subst.
  by apply ffill_from_gaps.
Qed.

Lemma ffill_from_fix (above : row) (df : DataFrame) :
  StronglySorted gaps_within (above :: df) → ffill_from above df = df.
Proof.
  revert above. induction df as [|r df IH]; intros above Hs; simpl; [done|].
  apply StronglySorted_inv in Hs as [Hs Hall].
  inversion Hall as [|? ? Hr _]; subst.
  rewrite ffill_row_fix by (intros col Hc; left; by apply Hr).
  by rewrite IH.
Qed.

Lemma ffill_fix (df : DataFrame) : StronglySorted gaps_within df → ffill df = df.
Proof.
  unfold ffill. destruct df as [|r df]; simpl; [done|].
  rewrite ffill_row_empty. intros Hs. by rewrite ffill_from_fix.
Qed.

Lemma isnull_sum_zero (df : DataFrame) :
  isnull_sum df = 0%nat →
  Forall (fun r : row => ∀ col, r !! col ≠ Some (CFloat None)) df.
Proof.
  unfold isnull_sum. induction df as [|r df IH]; simpl; [constructor|].
  intros Hsum. constructor; [|apply IH; lia].
  intros col Hc.
  assert (Hin : In (col, CFloat None)
                   (List.filter (fun kc : string * cell => isnull (snd kc))
                                (map_to_list r))).
  { apply filter_In. split; [|done].
    apply list_elem_of_In, elem_of_map_to_list, Hc. }
  destruct (List.filter _ (map_to_list r)); [done|simpl in Hsum; lia].
Qed.

Lemma no_gaps_sorted (df : DataFrame) :
  Forall (fun r : row => ∀ col, r !! col ≠ Some (CFloat None)) df →
  StronglySorted gaps_within df.
Proof.
  induction 1 as [|r df Hr Hdf IH]; constructor; [done|].
  eapply Forall_impl; [exact Hdf|]. intros r' Hr' col Hc. by destruct (Hr' col).
Qed.

(** The frame after the first step of [clean_data]. *)
Lemma filled_gaps (df : DataFrame) :
  rectangular df →
  StronglySorted gaps_within (if (0 <? isnull_sum df)%nat then ffill df else df).
Proof.
  intros Hrect. destruct (0 <? isnull_sum df)%nat eqn:Hn.
  - by apply ffill_gaps.
  - apply no_gaps_sorted, isnull_sum_zero. apply Nat.ltb_ge in Hn. lia.
Qed.

Lemma drop_flagged_cons (seen : list row) (r : row) (df : DataFrame) :
  drop_flagged (duplicated_from seen (r :: df)) (r :: df)
  = if existsb (row_eqb r) seen
    then drop_flagged (duplicated_from (r :: seen) df) df
    else r :: drop_flagged (duplicated_from (r :: seen) df) df.
Proof. unfold drop_flagged. simpl. by destruct (existsb _ seen). Qed.

Lemma drop_flagged_none (seen : list row) (df : DataFrame) :
  length (List.filter id (duplicated_from seen df)) = 0%nat →
  drop_flagged (duplicated_from seen df) df = df.
Proof.
  revert seen. induction df as [|r df IH]; intros seen; [done|].
  rewrite drop_flagged_cons. simpl.
  destruct (existsb (row_eqb r) seen); simpl; [discriminate|].
  intros H. by rewrite IH.
Qed.

(** The [if duplicates > 0] test changes nothing. *)
Lemma clean_data_unfold (df : DataFrame) :
  clean_data df
  = drop_duplicates (if (0 <? isnull_sum df)%nat then ffill df else df).
Proof.
  unfold clean_data. cbv zeta.
  set (f := if (0 <? isnull_sum df)%nat then ffill df else df).
  destruct (0 <? length (List.filter id (duplicated f)))%nat eqn:Hd; [done|].
  symmetry. apply drop_flagged_none. fold (duplicated f).
  apply Nat.ltb_ge in Hd. lia.
Qed.

Lemma drop_flagged_sublist (P : row → Prop) (R : row → row → Prop)
      (seen : list row) (df : DataFrame) :
  (Forall P df → Forall P (drop_flagged (duplicated_from seen df) df)) ∧
  (StronglySorted R df → StronglySorted R (drop_flagged (duplicated_from seen df) df)).
Proof.
  revert seen. induction df as [|r df IH]; intros seen; [done|].
  rewrite drop_flagged_cons.
  destruct (IH (r :: seen)) as [IHP IHR].
  split.
  - intros H. inversion H; subst.
    destruct (existsb _ seen); [|constructor]; auto.
  - intros H. apply StronglySorted_inv in H as [Hs Hall].
    destruct (existsb _ seen); [auto|].
    constructor; [auto|].
    clear IHP IHR. revert Hall. generalize (r :: seen) as seen'.
    clear IH Hs. induction df as [|r' df IH']; intros seen' Hall; [constructor|].
    rewrite drop_flagged_cons. inversion Hall; subst.
    destruct (existsb _ seen'); [|constructor]; auto.
Qed.

Lemma drop_flagged_distinct (seen : list row) (df : DataFrame) :
  let out := drop_flagged (duplicated_from seen df) df in
  StronglySorted distinct_from out ∧
  Forall (fun r' : row => Forall (fun s => row_eqb r' s = false) seen) out.
Proof.
  revert seen. induction df as [|r df IH]; intros seen; cbv zeta.
  - split; constructor.
  - rewrite drop_flagged_cons.
    destruct (IH (r :: seen)) as [IHs IHall].
    destruct (existsb (row_eqb r) seen) eqn:He.
    + split; [done|].
      eapply Forall_impl; [exact IHall|]. intros r' Hr'. simpl in Hr'.
      by inversion Hr'.
    + split.
      * constructor; [done|].
        eapply Forall_impl; [exact IHall|]. intros r' Hr'. simpl in Hr'.
        by inversion Hr'.
      * constructor.
        -- apply Forall_forall. intros s Hs.
           destruct (row_eqb r s) eqn:Hrs; [|done].
           assert (existsb (row_eqb r) seen = true); [|congruence].
           apply existsb_exists. exists s. split; [|done].
           by apply list_elem_of_In.
        -- eapply Forall_impl; [exact IHall|]. intros r' Hr'. simpl in Hr'.
           by inversion Hr'.
Qed.

Lemma drop_flagged_fix (seen : list row) (df : DataFrame) :
  StronglySorted distinct_from df →
  Forall (fun r' : row => Forall (fun s => row_eqb r' s = false) seen) df →
  drop_flagged (duplicated_from seen df) df = df.
Proof.
  revert seen. induction df as [|r df IH]; intros seen Hs Hall; [done|].
  rewrite drop_flagged_cons.
  apply StronglySorted_inv in Hs as [Hs Hr].
  inversion Hall as [|? ? Hrseen Hdf]; subst.
  replace (existsb (row_eqb r) seen) with false.
  - f_equal. apply IH; [done|].
    apply Forall_forall. intros r' Hr'. constructor.
    + rewrite Forall_forall in Hr. by apply Hr.
    + rewrite Forall_forall in Hdf. by apply Hdf.
  - symmetry. apply not_true_is_false. intros He.
    apply existsb_exists in He as (s & Hs1 & Hs2).
    rewrite Forall_forall in Hrseen.
    apply list_elem_of_In in Hs1. specialize (Hrseen s Hs1). congruence.
Qed.

Lemma StronglySorted_lookup {A : Type} (R : A → A → Prop) (l : list A)
      (i j : nat) (x y : A) :
  StronglySorted R l → (i < j)%nat → l !! i = Some x → l !! j = Some y → R x y.
Proof.
  intros Hs. revert i j. induction Hs as [|a l Hs IH Hall]; intros i j Hij Hi Hj.
  - done.
  - destruct j as [|j]; [lia|]. simpl in Hj.
    destruct i as [|i]; simpl in Hi.
    + inversion Hi; subst. rewrite Forall_forall in Hall. apply Hall.
      eapply list_elem_of_lookup_2; eauto.
    + apply (IH i j); [lia|done|done].
Qed.

(** X18. The frame [clean_data] returns has no duplicate rows: a row is
    never equal, column by column, to a row above it (NaN counting as
    equal to NaN, as [duplicated] does). *)
Theorem clean_data_has_no_duplicate_rows (df : DataFrame) (i j : nat) (r r' : row) :
  (i < j)%nat →
  clean_data df !! i = Some r → clean_data df !! j = Some r' →
  row_eqb r' r = false.
Proof.
  rewrite clean_data_unfold. intros Hij Hi Hj.
  eapply (StronglySorted_lookup distinct_from); eauto.
  apply (drop_flagged_distinct []).
Qed.

(** X19. Forward filling cannot fill a gap that has no value above it:
    in the frame [clean_data] returns for a rectangular frame, a NaN in
    some column of a row means that every row above it has NaN in that
    column too. So the only missing values left are leading ones. *)
Theorem clean_data_leaves_only_leading_gaps (df : DataFrame) (i j : nat)
        (r r' : row) (col : string) :
  rectangular df →
  (i < j)%nat →
  clean_data df !! i = Some r → clean_data df !! j = Some r' →
  r' !! col = Some (CFloat None) → r !! col = Some (CFloat None).
Proof.
  rewrite clean_data_unfold. intros Hrect Hij Hi Hj.
  eapply (StronglySorted_lookup gaps_within); eauto.
  apply drop_flagged_sublist with (P := fun _ => True). by apply filled_gaps.
Qed.

(** X20. [clean_data] is idempotent on rectangular frames: cleaning a
    cleaned frame changes nothing. *)
Theorem clean_data_is_idempotent (df : DataFrame) :
  rectangular df → clean_data (clean_data df) = clean_data df.
Proof.
  intros Hrect.
  assert (Hgaps : StronglySorted gaps_within (clean_data df)).
  { rewrite clean_data_unfold.
    apply drop_flagged_sublist with (P := fun _ => True). by apply filled_gaps. }
  assert (Hdist : StronglySorted distinct_from (clean_data df)).
  { rewrite clean_data_unfold. apply (drop_flagged_distinct []). }
  rewrite (clean_data_unfold (clean_data df)).
  replace (if (0 <? isnull_sum (clean_data df))%nat
           then ffill (clean_data df) else clean_data df) with (clean_data df)
    by (destruct (0 <? _)%nat; [by rewrite ffill_fix|done]).
  apply drop_flagged_fix; [done|].
  apply Forall_forall. intros; constructor.
Qed.

(** ** From the preprocessing script to the dashboard *)

Lemma feature_engineer_steps (df : DataFrame) :
  feature_engineer df = (try d <- to_datetime_time df in preprocess_live_data d).
Proof. reflexivity. Qed.

Lemma to_datetime_time_parsed (df d : DataFrame) :
  to_datetime_time df = Ok d → ∃ ts, omap parsed_time df = Ok ts.
Proof.
  unfold to_datetime_time. revert d.
  induction df as [|r df IH]; intros d; cbn [omap]; [by eexists|].
  unfold parsed_time at 1.
  destruct (getitem "time" r) as [c|e]; cbn [obind]; [|discriminate].
  destruct (to_datetime c) as [t|e]; cbn [obind]; [|discriminate].
  destruct (omap _ df) as [d'|e] eqn:Hd; cbn [obind]; [|discriminate].
  intros _. destruct (IH d' eq_refl) as [ts ->]. by eexists.
Qed.

(** [feature_engineer], row by row. *)
Lemma feature_engineer_rows (df e : DataFrame) :
  feature_engineer df = Ok e →
  ∃ ts, length ts = length df ∧
        e = zip_with (fun r t => calendar_row t (<["time" := CTime t]> r)) df ts.
Proof.
  rewrite feature_engineer_steps.
  destruct (to_datetime_time df) as [d|err] eqn:Hd; cbn [obind]; [|discriminate].
  destruct (to_datetime_time_parsed _ _ Hd) as [ts Hts].
  rewrite (to_datetime_time_ok _ _ Hts) in Hd. inversion Hd; subst d.
  rewrite (preprocess_live_data_ok _ ts (omap_dt_converted _ _ Hts)).
  intros [= <-]. exists ts. split; [symmetry; by eapply omap_length|].
  by rewrite zip_with_zip_with_same.
Qed.

Lemma apply_heuristic_labels_rows (rng : nat → Q) (df out : DataFrame) :
  Heuristic.apply_heuristic_labels rng df = Ok out →
  ∃ risk, length risk = length df ∧
          out = zip_with (fun (r : row) v =>
                            <["bleaching_risk_percent" := CFloat (Some v)]> r) df risk.
Proof.
  unfold Heuristic.apply_heuristic_labels.
  destruct (omap Heuristic.dhw_of df) as [dhw|e]; cbn [obind]; [|discriminate].
  intros [= <-]. eexists. split; [|reflexivity].
  unfold Heuristic.np_select. by rewrite !length_map, length_seq.
Qed.

Lemma ffill_from_columns (cols : list string) (above : row) (df : DataFrame) :
  Forall (fun r : row => Forall (fun col => is_Some (r !! col)) cols) df →
  Forall (fun r : row => Forall (fun col => is_Some (r !! col)) cols)
         (ffill_from above df).
Proof.
  revert above. induction df as [|r df IH]; intros above H; simpl; [constructor|].
  inversion H as [|? ? Hr Hdf]; subst. constructor; [|by apply IH].
  eapply Forall_impl; [exact Hr|]. intros col Hcol. simpl in Hcol.
  apply elem_of_dom. rewrite ffill_row_dom. by apply elem_of_dom.
Qed.

Lemma clean_data_columns (cols : list string) (df : DataFrame) :
  Forall (fun r : row => Forall (fun col => is_Some (r !! col)) cols) df →
  Forall (fun r : row => Forall (fun col => is_Some (r !! col)) cols) (clean_data df).
Proof.
  intros H. rewrite clean_data_unfold.
  apply drop_flagged_sublist with (R := fun _ _ => True).
  destruct (0 <? isnull_sum df)%nat; [|done].
  by apply ffill_from_columns.
Qed.

Lemma calendar_row_raw (t : Z) (v : cell) (r : row) (col : string) :
  col ∈ raw_features →
  <["bleaching_risk_percent" := v]> (calendar_row t (<["time" := CTime t]> r)) !! col
  = r !! col.
Proof.
  unfold raw_features, calendar_row. intros Hcol.
  repeat (apply elem_of_cons in Hcol as [-> | Hcol]; [by simplify_map_eq|]).
  by apply elem_of_nil in Hcol.
Qed.

Lemma calendar_row_lookups (t : Z) (r : row) :
  calendar_row t r !! "year" = Some (CInt (Calendar.year t)) ∧
  calendar_row t r !! "month" = Some (CInt (Calendar.month t)) ∧
  calendar_row t r !! "day_of_year" = Some (CInt (Calendar.dayofyear t)) ∧
  calendar_row t r !! "week_of_year" = Some (CInt (Calendar.isoweek t)).
Proof. unfold calendar_row. repeat split; by simplify_map_eq. Qed.

Lemma processed_row_model_input (r : row) :
  processed_row r →
  ∃ t, dt r = Ok t ∧ calendar_row t r = r ∧
       ∃ x, omap (fun col => getitem col r) features_for_model = Ok x.
Proof.
  intros ((t & Ht & Hcal) & Hraw & _). exists t.
  split; [unfold dt, getitem; by rewrite Ht|]. split; [done|].
  destruct (calendar_row_lookups t r) as (Hy & Hm & Hd & Hw).
  rewrite Hcal in Hy, Hm, Hd, Hw.
  unfold raw_features in Hraw.
  repeat (apply Forall_cons in Hraw as [[? ?] Hraw]).
  unfold features_for_model, getitem. cbn [omap].
  repeat match goal with H : r !! _ = Some _ |- _ => rewrite H; clear H end.
  cbn [obind]. by eexists.
Qed.

Lemma processed_frame (df : DataFrame) :
  Forall processed_row df →
  ∃ ts X, omap dt df = Ok ts ∧
          zip_with (fun r t => calendar_row t r) df ts = df ∧
          select_features df = Ok X ∧ length X = length df.
Proof.
  unfold select_features.
  induction 1 as [|r df Hr _ (ts & X & Hts & Hzip & HX & Hlen)].
  - by exists [], [].
  - destruct (processed_row_model_input r Hr) as (t & Ht & Hcal & x & Hx).
    exists (t :: ts), (x :: X). cbn [omap zip_with].
    rewrite Ht, Hts, Hx, HX, Hcal, Hzip. cbn [obind length]. by rewrite Hlen.
Qed.

(** X21. The frame the preprocessing script produces (clean, derive the
    calendar columns, label) is ready for the dashboard's model path as it
    is, provided the downloaded rows carry the six measured columns: every
    row is a [processed_row], [preprocess_live_data] leaves the frame
    unchanged, and the ten model features can be selected from every row. *)
Theorem preprocessed_frame_meets_model_contract (rng : nat → Q)
        (raw_df final_df : DataFrame) :
  Forall (fun r : row => Forall (fun col => is_Some (r !! col)) raw_features) raw_df →
  preprocess_dataset rng raw_df = Ok final_df →
  Forall processed_row final_df ∧
  preprocess_live_data final_df = Ok final_df ∧
  ∃ X, model_input final_df = Ok X ∧ length X = length final_df.
Proof.
  intros Hraw. unfold preprocess_dataset. cbv zeta.
  apply clean_data_columns in Hraw.
  destruct (feature_engineer (clean_data raw_df)) as [e|err] eqn:He;
    cbn [obind]; [|discriminate].
  destruct (feature_engineer_rows _ _ He) as (ts & Hlen & ->).
  intros Hlab. destruct (apply_heuristic_labels_rows _ _ _ Hlab) as (risk & _ & ->).
  assert (Hrows : Forall processed_row
            (zip_with (fun (r : row) v =>
                         <["bleaching_risk_percent" := CFloat (Some v)]> r)
               (zip_with (fun r t => calendar_row t (<["time" := CTime t]> r))
                         (clean_data raw_df) ts) risk)).
  { apply Forall_lookup. intros i r' Hi.
    apply lookup_zip_with_Some in Hi as (r1 & v & -> & Hr1 & _).
    apply lookup_zip_with_Some in Hr1 as (r & t & -> & Hr & _).
    rewrite Forall_lookup in Hraw. specialize (Hraw i r Hr).
    split; [|split].
    - exists t. split; [unfold calendar_row; by simplify_map_eq|].
      apply map_eq. intros col. unfold calendar_row.
      destruct (decide (col = "week_of_year")) as [->|H1]; [by simplify_map_eq|].
      destruct (decide (col = "day_of_year")) as [->|H2]; [by simplify_map_eq|].
      destruct (decide (col = "month")) as [->|H3]; [by simplify_map_eq|].
      destruct (decide (col = "year")) as [->|H4]; [by simplify_map_eq|].
      by rewrite !(lookup_insert_ne _ _ col) by done.
    - apply Forall_forall. intros col Hcol.
      rewrite calendar_row_raw by done.
      rewrite Forall_forall in Hraw. by apply Hraw.
    - exists v. by rewrite lookup_insert_eq. }
  split; [exact Hrows|].
  destruct (processed_frame _ Hrows) as (ts' & X & Hts' & Hzip & HX & HlenX).
  assert (Hpre : preprocess_live_data
                   (zip_with (fun (r : row) v =>
                                <["bleaching_risk_percent" := CFloat (Some v)]> r)
                      (zip_with (fun r t => calendar_row t (<["time" := CTime t]> r))
                                (clean_data raw_df) ts) risk)
                 = Ok (zip_with (fun (r : row) v =>
                                <["bleaching_risk_percent" := CFloat (Some v)]> r)
                      (zip_with (fun r t => calendar_row t (<["time" := CTime t]> r))
                                (clean_data raw_df) ts) risk)).
  { rewrite (preprocess_live_data_ok _ _ Hts'). by rewrite Hzip. }
  split; [exact Hpre|].
  exists X. unfold model_input. rewrite Hpre. cbn [obind]. by split.
Qed.

(** ** The calendar columns *)

Lemma civil_from_days_fields (z : Z) :
  ∃ y m d, Calendar.civil_from_days z = (y, m, d) ∧
           1 <= m <= 12 ∧ 1 <= d <= 31 ∧
           Calendar.days_from_civil y m d = z.
Proof.
  unfold Calendar.civil_from_days, Calendar.days_from_civil. cbv zeta.
  set (z1 := z + 719468).
  set (era := z1 / 146097).
  set (doe := z1 - era * 146097).
  set (yoe := (doe - doe / 1460 + doe / 36524 - doe / 146096) / 365).
  set (doy := doe - (365 * yoe + yoe / 4 - yoe / 100)).
  set (mp := (5 * doy + 2) / 153).
  assert (Hdoe : 0 <= doe <= 146096)
    by (subst doe era; Z.to_euclidean_division_equations; lia).
  assert (Hyoe : 0 <= yoe <= 399)
    by (subst yoe; Z.to_euclidean_division_equations; lia).
  assert (Hdoy : 0 <= doy <= 365)
    by (subst doy yoe; Z.to_euclidean_division_equations; lia).
  assert (Hmp : 0 <= mp <= 11)
    by (subst mp; Z.to_euclidean_division_equations; lia).
  assert (Hd : 1 <= doy - (153 * mp + 2) / 5 + 1 <= 31)
    by (subst mp; Z.to_euclidean_division_equations; lia).
  assert (Hera : (yoe + era * 400) / 400 = era)
    by (Z.to_euclidean_division_equations; lia).
  eexists _, _, _. split; [reflexivity|].
  destruct (mp <? 10) eqn:H; [apply Z.ltb_lt in H|apply Z.ltb_ge in H].
  - replace (mp + 3 <=? 2) with false by (symmetry; apply Z.leb_gt; lia).
    replace (2 <? mp + 3) with true by (symmetry; apply Z.ltb_lt; lia).
    rewrite Hera.
    replace (mp + 3 - 3) with mp by lia.
    replace (yoe + era * 400 - era * 400) with yoe by lia.
    repeat split; lia.
  - replace (mp - 9 <=? 2) with true by (symmetry; apply Z.leb_le; lia).
    replace (2 <? mp - 9) with false by (symmetry; apply Z.ltb_ge; lia).
    replace (mp - 9 + 9) with mp by lia.
    replace (yoe + era * 400 + 1 - 1) with (yoe + era * 400) by lia.
    rewrite Hera.
    replace (yoe + era * 400 - era * 400) with yoe by lia.
    repeat split; lia.
Qed.

Lemma jan1_of_year (z : Z) :
  let y := fst (fst (Calendar.civil_from_days z)) in
  Calendar.days_from_civil y 1 1 <= z < Calendar.days_from_civil (y + 1) 1 1.
Proof.
  unfold Calendar.civil_from_days, Calendar.days_from_civil. cbv zeta. cbn [fst snd].
  change (1 <=? 2) with true. change (2 <? 1) with false. cbv iota.
  set (z1 := z + 719468).
  set (era := z1 / 146097).
  set (doe := z1 - era * 146097).
  set (yoe := (doe - doe / 1460 + doe / 36524 - doe / 146096) / 365).
  set (doy := doe - (365 * yoe + yoe / 4 - yoe / 100)).
  set (mp := (5 * doy + 2) / 153).
  assert (Hdoe : 0 <= doe <= 146096)
    by (subst doe era; Z.to_euclidean_division_equations; lia).
  assert (Hyoe : 0 <= yoe <= 399)
    by (subst yoe; Z.to_euclidean_division_equations; lia).
  assert (Hdoy : 0 <= doy <= 365)
    by (subst doy yoe; Z.to_euclidean_division_equations; lia).
  assert (Hmp : 0 <= mp <= 11)
    by (subst mp; Z.to_euclidean_division_equations; lia).
  destruct (mp <? 10) eqn:H; [apply Z.ltb_lt in H|apply Z.ltb_ge in H].
  - replace (mp + 3 <=? 2) with false by (symmetry; apply Z.leb_gt; lia).
    subst mp doy yoe doe era z1.
    Z.to_euclidean_division_equations; lia.
  - replace (mp - 9 <=? 2) with true by (symmetry; apply Z.leb_le; lia).
    subst mp doy yoe doe era z1.
    Z.to_euclidean_division_equations; lia.
Qed.

Lemma jan1_step (a : Z) :
  365 <= Calendar.days_from_civil (a + 1) 1 1 - Calendar.days_from_civil a 1 1 <= 366.
Proof.
  unfold Calendar.days_from_civil. cbv zeta.
  change (1 <=? 2) with true. change (2 <? 1) with false. cbv iota.
  Z.to_euclidean_division_equations; lia.
Qed.

Lemma jan1_mono (a b : Z) :
  a <= b →
  Calendar.days_from_civil a 1 1 + 365 * (b - a) <= Calendar.days_from_civil b 1 1.
Proof.
  intros Hab.
  replace b with (a + Z.of_nat (Z.to_nat (b - a))) by lia.
  generalize (Z.to_nat (b - a)). clear. intros n.
  induction n as [|n IH]; [replace (a + Z.of_nat 0) with a by lia; lia|].
  replace (a + Z.of_nat (S n)) with (a + Z.of_nat n + 1) by lia.
  pose proof (jan1_step (a + Z.of_nat n)). lia.
Qed.

(** A day lies in one year only. *)
Lemma year_unique (z y : Z) :
  Calendar.days_from_civil y 1 1 <= z < Calendar.days_from_civil (y + 1) 1 1 →
  fst (fst (Calendar.civil_from_days z)) = y.
Proof.
  intros Hy. pose proof (jan1_of_year z) as Hz. cbv zeta in Hz.
  set (y' := fst (fst (Calendar.civil_from_days z))) in *.
  destruct (Z.lt_trichotomy y' y) as [Hlt|[Heq|Hgt]]; [|done|].
  - pose proof (jan1_mono (y' + 1) y ltac:(lia)). lia.
  - pose proof (jan1_mono (y + 1) y' ltac:(lia)). lia.
Qed.

Lemma week1_near (y : Z) :
  Calendar.days_from_civil y 1 1 - 3 <= Calendar.isoweek1monday y
  <= Calendar.days_from_civil y 1 1 + 3
  ∧ (Calendar.isoweek1monday y + 3) mod 7 = 0.
Proof.
  unfold Calendar.isoweek1monday, Calendar.weekday_of_days. cbv zeta.
  generalize (Calendar.days_from_civil y 1 1). intros f.
  destruct (3 <? (f + 3) mod 7) eqn:H; [apply Z.ltb_lt in H|apply Z.ltb_ge in H];
    Z.to_euclidean_division_equations; lia.
Qed.

Lemma dayofyear_range (t : Z) : 1 <= Calendar.dayofyear t <= 366.
Proof.
  unfold Calendar.dayofyear, Calendar.year.
  pose proof (jan1_of_year (Calendar.epoch_days t)) as H. cbv zeta in H.
  pose proof (jan1_step (fst (fst (Calendar.civil_from_days (Calendar.epoch_days t))))).
  lia.
Qed.

Lemma isoweek_range (t : Z) : 1 <= Calendar.isoweek t <= 53.
Proof.
  unfold Calendar.isoweek, Calendar.year. cbv zeta.
  pose proof (jan1_of_year (Calendar.epoch_days t)) as H. cbv zeta in H.
  set (y := fst (fst (Calendar.civil_from_days (Calendar.epoch_days t)))) in *.
  set (z := Calendar.epoch_days t) in *.
  pose proof (jan1_step y) as L0.
  pose proof (jan1_step (y - 1)) as L1.
  replace (y - 1 + 1) with y in L1 by lia.
  destruct (week1_near y) as [A0 B0].
  destruct (week1_near (y - 1)) as [A1 B1].
  destruct (week1_near (y + 1)) as [A2 B2].
  generalize dependent (Calendar.isoweek1monday y). intros m0 ? ?.
  generalize dependent (Calendar.isoweek1monday (y - 1)). intros m1 ? ?.
  generalize dependent (Calendar.isoweek1monday (y + 1)). intros m2 ? ?.
  generalize dependent (Calendar.days_from_civil y 1 1). intros f0 ? ? ? ?.
  generalize dependent (Calendar.days_from_civil (y - 1) 1 1). intros f1 ? ?.
  generalize dependent (Calendar.days_from_civil (y + 1) 1 1). intros f2 ? ? ?.
  destruct ((z - m0) / 7 <? 0) eqn:Hw; [apply Z.ltb_lt in Hw|apply Z.ltb_ge in Hw].
  - Z.to_euclidean_division_equations; lia.
  - destruct (52 <=? (z - m0) / 7) eqn:H52;
      [apply Z.leb_le in H52|apply Z.leb_gt in H52]; cbn [andb].
    + destruct (m2 <=? z) eqn:Hm2; [apply Z.leb_le in Hm2|apply Z.leb_gt in Hm2].
      * lia.
      * Z.to_euclidean_division_equations; lia.
    + lia.
Qed.

(** ISO 8601: the week of a day is counted in the year of that week's
    Thursday, from that year's first of January. *)
Lemma isoweek_thursday (t : Z) :
  let z := Calendar.epoch_days t in
  let thursday := z - Calendar.weekday_of_days z + 3 in
  let Y := fst (fst (Calendar.civil_from_days thursday)) in
  Calendar.isoweek t = (thursday - Calendar.days_from_civil Y 1 1) / 7 + 1.
Proof.
  cbv zeta. unfold Calendar.isoweek, Calendar.year. cbv zeta.
  set (z := Calendar.epoch_days t).
  pose proof (jan1_of_year z) as H. cbv zeta in H.
  set (y := fst (fst (Calendar.civil_from_days z))) in *.
  set (th := z - Calendar.weekday_of_days z + 3).
  assert (Hth : z - 3 <= th <= z + 3 ∧ th mod 7 = 0).
  { subst th. unfold Calendar.weekday_of_days.
    Z.to_euclidean_division_equations; lia. }
  pose proof (jan1_step y) as L0.
  pose proof (jan1_step (y - 1)) as L1.
  replace (y - 1 + 1) with y in L1 by lia.
  pose proof (jan1_step (y + 1)) as L2.
  destruct (week1_near y) as [A0 B0].
  destruct (week1_near (y - 1)) as [A1 B1].
  destruct (week1_near (y + 1)) as [A2 B2].
  assert (HY : (th < Calendar.days_from_civil y 1 1
                ∧ fst (fst (Calendar.civil_from_days th)) = y - 1)
               ∨ (Calendar.days_from_civil y 1 1 <= th
                  < Calendar.days_from_civil (y + 1) 1 1
                  ∧ fst (fst (Calendar.civil_from_days th)) = y)
               ∨ (Calendar.days_from_civil (y + 1) 1 1 <= th
                  ∧ fst (fst (Calendar.civil_from_days th)) = y + 1)).
  { destruct (Z_lt_le_dec th (Calendar.days_from_civil y 1 1)) as [Hlo|Hlo].
    - left. split; [done|]. apply year_unique.
      replace (y - 1 + 1) with y by lia. lia.
    - destruct (Z_lt_le_dec th (Calendar.days_from_civil (y + 1) 1 1)) as [Hhi|Hhi].
      + right; left. split; [lia|]. apply year_unique. lia.
      + right; right. split; [done|]. apply year_unique. lia. }
  clearbody th.
  generalize dependent (fst (fst (Calendar.civil_from_days th))). intros Y HY.
  destruct HY as [[Hc ->]|[[Hc ->]|[Hc ->]]].
  all: generalize dependent (Calendar.isoweek1monday y); intros m0 ? ?.
  all: generalize dependent (Calendar.isoweek1monday (y - 1)); intros m1 ? ?.
  all: generalize dependent (Calendar.isoweek1monday (y + 1)); intros m2 ? ?.
  all: generalize dependent (Calendar.days_from_civil (y + 1 + 1) 1 1); intros f3 ?.
  all: generalize dependent (Calendar.days_from_civil (y + 1) 1 1); intros f2.
  all: generalize dependent (Calendar.days_from_civil (y - 1) 1 1); intros f1.
  all: generalize dependent (Calendar.days_from_civil y 1 1); intros f0.
  all: intros.
  all: destruct ((z - m0) / 7 <? 0) eqn:Hw; [apply Z.ltb_lt in Hw|apply Z.ltb_ge in Hw].
  all: try (destruct (52 <=? (z - m0) / 7) eqn:H52;
            [apply Z.leb_le in H52|apply Z.leb_gt in H52]; cbn [andb]).
  all: try (destruct (m2 <=? z) eqn:Hm2; [apply Z.leb_le in Hm2|apply Z.leb_gt in Hm2]).
  all: Z.to_euclidean_division_equations; lia.
Qed.

Lemma month_start (y m d : Z) :
  Calendar.days_from_civil y m d = Calendar.days_from_civil y m 1 + d - 1.
Proof. unfold Calendar.days_from_civil. cbv zeta. lia. Qed.

Lemma dt_time (r : row) (t : Z) : dt r = Ok t → r !! "time" = Some (CTime t).
Proof.
  unfold dt, getitem. destruct (r !! "time") as [[t'| | |]|]; simpl; try discriminate.
  by intros [= ->].
Qed.

Lemma calendar_row_time (t : Z) (r : row) :
  calendar_row t r !! "time" = r !! "time".
Proof. unfold calendar_row. by rewrite !lookup_insert_ne. Qed.

(** The rows [preprocess_live_data] and [feature_engineer] return. *)
Lemma calendar_rows (df p : DataFrame) :
  preprocess_live_data df = Ok p ∨ feature_engineer df = Ok p →
  Forall (fun r' : row =>
            ∃ t r, r' = calendar_row t r ∧ r !! "time" = Some (CTime t)) p.
Proof.
  assert (Hpre : ∀ d q, preprocess_live_data d = Ok q →
            Forall (fun r' : row =>
                      ∃ t r, r' = calendar_row t r ∧ r !! "time" = Some (CTime t)) q).
  { intros d q. rewrite preprocess_live_data_rows.
    destruct (omap dt d) as [ts|e] eqn:Hts; cbn [obind]; [|discriminate].
    intros [= <-]. apply Forall_lookup. intros i r' Hi.
    apply lookup_zip_with_Some in Hi as (r & t & -> & Hr & Ht).
    exists t, r. split; [done|]. apply dt_time.
    clear -Hts Hr Ht. revert i ts Hts Hr Ht.
    induction d as [|r0 d IH]; intros i ts; cbn [omap]; [done|].
    destruct (dt r0) as [t0|e] eqn:H0; cbn [obind]; [|discriminate].
    destruct (omap dt d) as [ts'|e]; cbn [obind]; [|discriminate].
    intros [= <-]. destruct i as [|i]; simpl.
    - by intros [= <-] [= <-].
    - by apply IH. }
  intros [H|H]; [by eapply Hpre|].
  rewrite feature_engineer_steps in H.
  destruct (to_datetime_time df) as [d|e]; cbn [obind] in H; [|discriminate].
  by eapply Hpre.
Qed.

(** X22. The calendar columns that [preprocess_live_data] and
    [feature_engineer] write describe the day of the row's timestamp and
    are in range: month 1..12, day_of_year 1..366, week_of_year 1..53; the
    day numbered day_of_year in the year is the timestamp's day, and it
    falls in the month given. *)
Theorem calendar_columns_are_a_date (df p : DataFrame) :
  preprocess_live_data df = Ok p ∨ feature_engineer df = Ok p →
  Forall (fun r : row =>
            ∃ t y m doy w,
              r !! "time" = Some (CTime t) ∧
              r !! "year" = Some (CInt y) ∧ r !! "month" = Some (CInt m) ∧
              r !! "day_of_year" = Some (CInt doy) ∧
              r !! "week_of_year" = Some (CInt w) ∧
              1 <= m <= 12 ∧ 1 <= doy <= 366 ∧ 1 <= w <= 53 ∧
              Calendar.days_from_civil y 1 1 + doy - 1 = Calendar.epoch_days t ∧
              Calendar.days_from_civil y m 1 <= Calendar.epoch_days t
              <= Calendar.days_from_civil y m 1 + 30) p.
Proof.
  intros H. eapply Forall_impl; [exact (calendar_rows _ _ H)|].
  intros r' (t & r & -> & Ht). simpl.
  destruct (calendar_row_lookups t r) as (Hy & Hm & Hd & Hw).
  exists t, (Calendar.year t), (Calendar.month t), (Calendar.dayofyear t),
         (Calendar.isoweek t).
  split; [by rewrite calendar_row_time|].
  do 4 (split; [done|]).
  destruct (civil_from_days_fields (Calendar.epoch_days t))
    as (y & m & d & Hciv & Hmr & Hdr & Hback).
  assert (Hyear : Calendar.year t = y) by (unfold Calendar.year; by rewrite Hciv).
  assert (Hmonth : Calendar.month t = m) by (unfold Calendar.month; by rewrite Hciv).
  rewrite Hmonth. split; [done|].
  split; [apply dayofyear_range|]. split; [apply isoweek_range|].
  split; [unfold Calendar.dayofyear; lia|].
  rewrite Hyear. rewrite month_start in Hback. lia.
Qed.

(** X23. The week_of_year column holds the ISO 8601 week number of the
    timestamp's day: with Thursday the Thursday of that day's week
    (weeks run Monday to Sunday) and Y the year Thursday falls in, it is
    one more than the number of whole weeks from the first of January of
    Y to Thursday. *)
Theorem week_of_year_is_iso_week (df p : DataFrame) :
  preprocess_live_data df = Ok p ∨ feature_engineer df = Ok p →
  Forall (fun r : row =>
            ∃ t Y,
              r !! "time" = Some (CTime t) ∧
              let day := Calendar.epoch_days t in
              let thursday := day - Calendar.weekday_of_days day + 3 in
              Calendar.days_from_civil Y 1 1 <= thursday
              < Calendar.days_from_civil (Y + 1) 1 1 ∧
              r !! "week_of_year"
              = Some (CInt ((thursday - Calendar.days_from_civil Y 1 1) / 7 + 1))) p.
Proof.
  intros H. eapply Forall_impl; [exact (calendar_rows _ _ H)|].
  intros r' (t & r & -> & Ht). simpl.
  destruct (calendar_row_lookups t r) as (_ & _ & _ & Hw).
  exists t. eexists.
  split; [by rewrite calendar_row_time|].
  split; [apply jan1_of_year|].
  rewrite Hw. do 2 f_equal. apply isoweek_thursday.
Qed.

Lemma epoch_days_shift (t n : Z) :
  Calendar.epoch_days (t - n * Calendar.ns_per_day) = Calendar.epoch_days t - n.
Proof.
  unfold Calendar.epoch_days, Calendar.ns_per_day.
  Z.to_euclidean_division_equations; lia.
Qed.

Lemma civil_day (t : Z) :
  Calendar.days_from_civil (Calendar.year t) (Calendar.month t) (Calendar.day t)
  = Calendar.epoch_days t.
Proof.
  unfold Calendar.year, Calendar.month, Calendar.day.
  destruct (civil_from_days_fields (Calendar.epoch_days t))
    as (y & m & d & -> & _ & _ & Hback). done.
Qed.

(** X24. The live query asks for the thirty-one days that end yesterday:
    the two dates printed into the query are those of two instants whose
    civil days are the day before [now]'s and the day thirty days before
    that. *)
Theorem live_query_spans_31_days (now : Z) (lat lon : string) :
  ∃ start_date end_date,
    live_query now lat lon
    = build_query (strftime_Y_m_d start_date) (strftime_Y_m_d end_date) lat lon ∧
    Calendar.days_from_civil (Calendar.year end_date) (Calendar.month end_date)
                             (Calendar.day end_date)
    = Calendar.epoch_days now - 1 ∧
    Calendar.days_from_civil (Calendar.year start_date) (Calendar.month start_date)
                             (Calendar.day start_date)
    = Calendar.epoch_days now - 31.
Proof.
  eexists _, _. split; [reflexivity|].
  rewrite !civil_day, !epoch_days_shift. lia.
Qed.

(** ** What the chunked download costs, and what the script keeps *)

Lemma retry_loop_grows (url : string) (max_retries : Z) (todo : list Z) (w : world) :
  (attempts (wire w) ≤ attempts (wire (snd (retry_loop url max_retries todo w))))%nat ∧
  slept (wire w) <= slept (wire (snd (retry_loop url max_retries todo w))).
Proof.
  revert w. induction todo as [|attempt todo IH]; intros w; [simpl; lia|].
  rewrite retry_loop_cons.
  pose proof (attempts_get w url) as Hget.
  pose proof (slept_get w url) as Hsl.
  pose proof (IH (log (Sleep 10) (log (Get url) w))) as [A10 S10].
  pose proof (IH (log (Sleep 5) (log (Get url) w))) as [A5 S5].
  rewrite attempts_sleep in A10, A5. rewrite slept_sleep in S10, S5.
  destruct (net _ _) as [| |csv_data];
    [| |destruct (invalid_body csv_data)];
    try destruct (attempt <? max_retries - 1); cbn [snd]; lia.
Qed.

Lemma retry_loop_first_request (url : string) (max_retries attempt : Z)
      (todo : list Z) (w : world) :
  (attempts (wire w) + 1
   ≤ attempts (wire (snd (retry_loop url max_retries (attempt :: todo) w))))%nat.
Proof.
  rewrite retry_loop_cons.
  pose proof (attempts_get w url) as Hget.
  pose proof (retry_loop_grows url max_retries todo
                (log (Sleep 10) (log (Get url) w))) as [A10 _].
  pose proof (retry_loop_grows url max_retries todo
                (log (Sleep 5) (log (Get url) w))) as [A5 _].
  rewrite attempts_sleep in A10, A5.
  destruct (net _ _) as [| |csv_data];
    [| |destruct (invalid_body csv_data)];
    try destruct (attempt <? max_retries - 1); cbn [snd]; lia.
Qed.

Lemma chunk_loop_bounds (lat lon : string) (year chunk_months : Z) (starts : list Z) :
  ∀ (all_dfs dfs : list DataFrame) (w w' : world),
    chunk_loop lat lon year chunk_months starts all_dfs w = (Ok dfs, w') →
    (attempts (wire w) + length starts ≤ attempts (wire w')
     ≤ attempts (wire w) + 3 * length starts)%nat ∧
    slept (wire w) + 2 * Z.of_nat (length starts) <= slept (wire w').
Proof.
  induction starts as [|s starts IH]; intros all_dfs dfs w w' Hrun.
  - inversion Hrun; subst. simpl. lia.
  - simpl chunk_loop in Hrun. unfold bind at 1, lift in Hrun.
    destruct (monthrange_days year (chunk_end chunk_months s)) as [end_day|e];
      [|discriminate].
    unfold bind at 1, get_coral_reef_watch_data in Hrun.
    match type of Hrun with
    | context [retry_loop ?u 3 (range 3) w] =>
        pose proof (retry_loop_first_request u 3 0 [1; 2] w) as Hlo;
        pose proof (retry_loop_attempts u 3 (range 3) w) as Hhi;
        pose proof (retry_loop_grows u 3 (range 3) w) as [_ Hsl];
        change (0 :: [1; 2]) with (range 3) in Hlo;
        destruct (retry_loop u 3 (range 3) w) as [[df|e] w1]; [|discriminate]
    end.
    unfold bind at 1, time_sleep in Hrun.
    apply IH in Hrun. rewrite attempts_sleep, slept_sleep in Hrun.
    cbn [snd] in Hlo, Hhi, Hsl. change (length (range 3)) with 3%nat in Hhi.
    simpl length. lia.
Qed.

Lemma year_loop_bounds (lat lon : string) (chunk_months : Z) (starts : list Z)
      (years : list Z) :
  py_range 1 13 chunk_months = Ok starts →
  ∀ (all_dfs dfs : list DataFrame) (w w' : world),
    year_loop lat lon chunk_months years all_dfs w = (Ok dfs, w') →
    (attempts (wire w) + length years * length starts ≤ attempts (wire w')
     ≤ attempts (wire w) + 3 * (length years * length starts))%nat ∧
    slept (wire w) + 2 * Z.of_nat (length years * length starts) <= slept (wire w').
Proof.
  intros Hstarts.
  induction years as [|year years IH]; intros all_dfs dfs w w' Hrun.
  - inversion Hrun; subst. simpl. lia.
  - simpl year_loop in Hrun. unfold bind at 1, lift in Hrun.
    rewrite Hstarts in Hrun. unfold bind at 1 in Hrun.
    destruct (chunk_loop lat lon year chunk_months starts all_dfs w)
      as [[dfs1|e] w1] eqn:Hchunk; [|discriminate].
    apply chunk_loop_bounds in Hchunk. apply IH in Hrun.
    simpl length. lia.
Qed.

(** X25. A chunked download that returns has sent at least one and at most
    three requests for each chunk of each year, and has paused at least
    two seconds per chunk; the number of chunks is
    (years) x ceil(12 / chunk_months). *)
Theorem chunked_fetch_request_bounds (lat lon : string)
        (start_year end_year chunk_months : Z) (w w' : world) (dfs : list DataFrame) :
  1 <= chunk_months →
  fetch_data_in_chunks lat lon start_year end_year chunk_months w = (Ok dfs, w') →
  let chunks := (Z.to_nat (end_year + 1 - start_year)
                 * Z.to_nat ((11 + chunk_months) / chunk_months))%nat in
  (attempts (wire w) + chunks ≤ attempts (wire w')
   ≤ attempts (wire w) + 3 * chunks)%nat ∧
  slept (wire w) + 2 * Z.of_nat chunks <= slept (wire w').
Proof.
  intros Hc Hrun. cbv zeta.
  destruct (chunks_months_exist chunk_months Hc) as [starts Hstarts].
  destruct (py_range_months_bounds _ _ Hc Hstarts) as [Hlen _].
  unfold fetch_data_in_chunks in Hrun.
  apply (year_loop_bounds _ _ _ _ _ Hstarts) in Hrun.
  unfold py_range2 in Hrun. rewrite length_map, length_seq, Hlen in Hrun.
  exact Hrun.
Qed.

Lemma retry_loop_unreachable (url : string) (max_retries : Z) (todo : list Z)
      (w : world) :
  (∀ k, failed (net url k) = true) →
  fst (retry_loop url max_retries todo w) = Ok None.
Proof.
  intros Hfail. revert w.
  induction todo as [|attempt todo IH]; intros w; [done|].
  rewrite retry_loop_cons.
  pose proof (Hfail (gets_of url (wire w))) as H.
  destruct (net _ _) as [| |csv_data].
  - destruct (attempt <? max_retries - 1); [apply IH|done].
  - destruct (attempt <? max_retries - 1); [apply IH|done].
  - simpl in H. rewrite H.
    destruct (attempt <? max_retries - 1); [apply IH|done].
Qed.

Lemma chunk_loop_unreachable (lat lon : string) (year chunk_months : Z)
      (starts : list Z) :
  unreachable lat lon →
  ∀ (all_dfs dfs : list DataFrame) (w w' : world),
    chunk_loop lat lon year chunk_months starts all_dfs w = (Ok dfs, w') →
    dfs = all_dfs.
Proof.
  intros Hdead.
  induction starts as [|s starts IH]; intros all_dfs dfs w w' Hrun.
  - by inversion Hrun.
  - simpl chunk_loop in Hrun. unfold bind at 1, lift in Hrun.
    destruct (monthrange_days year (chunk_end chunk_months s)) as [end_day|e];
      [|discriminate].
    unfold bind at 1, get_coral_reef_watch_data in Hrun.
    match type of Hrun with
    | context [retry_loop ?u 3 (range 3) w] =>
        pose proof (retry_loop_unreachable u 3 (range 3) w
                      (Hdead _ _)) as Hnone;
        destruct (retry_loop u 3 (range 3) w) as [res w1]
    end.
    simpl in Hnone. subst res.
    unfold bind at 1, time_sleep in Hrun.
    by apply IH in Hrun.
Qed.

Lemma year_loop_unreachable (lat lon : string) (chunk_months : Z) (years : list Z) :
  unreachable lat lon →
  ∀ (all_dfs dfs : list DataFrame) (w w' : world),
    year_loop lat lon chunk_months years all_dfs w = (Ok dfs, w') →
    dfs = all_dfs.
Proof.
  intros Hdead.
  induction years as [|year years IH]; intros all_dfs dfs w w' Hrun.
  - by inversion Hrun.
  - simpl year_loop in Hrun. unfold bind at 1, lift in Hrun.
    destruct (py_range 1 13 chunk_months) as [starts|e]; [|discriminate].
    unfold bind at 1 in Hrun.
    destruct (chunk_loop lat lon year chunk_months starts all_dfs w)
      as [[dfs1|e] w1] eqn:Hchunk; [|discriminate].
    apply (chunk_loop_unreachable _ _ _ _ _ Hdead) in Hchunk. subst dfs1.
    by apply IH in Hrun.
Qed.

Lemma sort_values_time_rows (df sorted : DataFrame) :
  sort_values_time df = Ok sorted → ∀ r, r ∈ sorted ↔ r ∈ df.
Proof.
  unfold sort_values_time. fold keyed_row.
  destruct (omap keyed_row df) as [keyed|e] eqn:Hk; cbn [obind]; [|discriminate].
  intros [= <-] r. destruct (omap_keyed _ _ Hk) as [H1 H2].
  rewrite list_elem_of_fmap. split.
  - intros ([t r'] & -> & Hin).
    apply (proj1 (elem_of_sort_by_time _ _)) in Hin.
    by destruct (H1 _ _ Hin).
  - intros Hin. destruct (H2 _ Hin) as (t & _ & Hk').
    exists (t, r). split; [done|]. by apply elem_of_sort_by_time.
Qed.

Lemma location_loop_frames (locations : list (string * (string * string)))
      (start_year end_year chunk_months : Z) (all : list (string * (string * string))) :
  (∀ entry, entry ∈ locations → entry ∈ all) →
  ∀ (acc frames : list DataFrame) (w w' : world),
    Forall (fun df => ∃ name lat lon, (name, (lat, lon)) ∈ all ∧
                        ¬ unreachable lat lon ∧ frame_of name df) acc →
    location_loop locations start_year end_year chunk_months acc w = (Ok frames, w') →
    Forall (fun df => ∃ name lat lon, (name, (lat, lon)) ∈ all ∧
                        ¬ unreachable lat lon ∧ frame_of name df) frames.
Proof.
  induction locations as [|[name [lat lon]] rest IH];
    intros Hall acc frames w w' Hacc Hrun.
  - inversion Hrun. by subst.
  - simpl location_loop in Hrun. unfold bind at 1 in Hrun.
    destruct (fetch_data_in_chunks lat lon start_year end_year chunk_months w)
      as [[location_dfs|e] w1] eqn:Hfetch; [|discriminate].
    assert (Hrest : ∀ entry, entry ∈ rest → entry ∈ all)
      by (intros entry Hin; apply Hall; by right).
    destruct location_dfs as [|d ds].
    + eapply (IH Hrest); [exact Hacc|exact Hrun].
    + unfold bind at 1, lift in Hrun.
      destruct (sort_values_time
                  (setitem "location_name" (CStr name) (concat (d :: ds))))
        as [location_df|e] eqn:Hsort; [|discriminate].
      eapply (IH Hrest); [|exact Hrun].
      apply Forall_app. split; [exact Hacc|]. constructor; [|constructor].
      exists name, lat, lon. split; [apply Hall; by left|]. split.
      * intros Hdead. unfold fetch_data_in_chunks in Hfetch.
        by apply (year_loop_unreachable _ _ _ _ Hdead) in Hfetch.
      * pose proof (sort_values_time_rows _ _ Hsort) as Hrows.
        assert (Hd : d ≠ []).
        { unfold fetch_data_in_chunks in Hfetch.
          apply year_loop_keeps_nonempty in Hfetch; [|constructor].
          by inversion Hfetch. }
        split.
        -- destruct d as [|r d]; [done|].
           intros ->. specialize (Hrows (<["location_name" := CStr name]> r)).
           simpl in Hrows. destruct Hrows as [_ Hrows].
           specialize (Hrows ltac:(left)). by apply elem_of_nil in Hrows.
        -- apply Forall_forall. intros r Hr. apply Hrows in Hr.
           unfold setitem in Hr. apply list_elem_of_fmap in Hr as (r0 & -> & _).
           apply lookup_insert_eq.
Qed.

(** X26. Every frame the script's loop over the reefs keeps has rows, all
    carrying the name of one reef of the list, and that reef is not one
    whose requests all fail. *)
Theorem collected_frames_are_tagged (locations : list (string * (string * string)))
        (start_year end_year chunk_months : Z) (frames : list DataFrame)
        (w w' : world) :
  location_loop locations start_year end_year chunk_months [] w = (Ok frames, w') →
  Forall (fun df => ∃ name lat lon, (name, (lat, lon)) ∈ locations ∧
                      ¬ unreachable lat lon ∧ frame_of name df) frames.
Proof.
  intros Hrun.
  eapply (location_loop_frames locations _ _ _ locations); [done|constructor|exact Hrun].
Qed.

(** X27. A reef whose requests all fail is left out without any notice in
    the data: when the loop returns, no row of any frame it kept carries
    that reef's name. The master file can therefore hold rows of other
    reefs and none of this one. *)
Theorem failed_reef_is_left_out (locations : list (string * (string * string)))
        (start_year end_year chunk_months : Z) (frames : list DataFrame)
        (w w' : world) (name : string) :
  (∀ lat lon, (name, (lat, lon)) ∈ locations → unreachable lat lon) →
  location_loop locations start_year end_year chunk_months [] w = (Ok frames, w') →
  ∀ df r, df ∈ frames → r ∈ df → r !! "location_name" ≠ Some (CStr name).
Proof.
  intros Hdead Hrun df r Hdf Hr.
  pose proof (location_loop_frames locations _ _ _ locations
                ltac:(done) [] frames w w' ltac:(constructor) Hrun) as Hframes.
  rewrite Forall_forall in Hframes.
  destruct (Hframes df Hdf) as (n & lat & lon & Hin & Hlive & _ & Htag).
  rewrite Forall_forall in Htag. rewrite (Htag r Hr).
  intros [= ->]. apply Hlive. by apply Hdead.
Qed.

(** ** The labelling step, as a frame operation *)

Lemma omap_ok_iff {A B : Type} (f : A → outcome B) (l : list A) :
  (∃ k, omap f l = Ok k) ↔ Forall (fun a => ∃ b, f a = Ok b) l.
Proof.
  induction l as [|a l IH]; cbn [omap].
  - split; [intros _; constructor|intros _; by eexists].
  - split.
    + intros [k Hk].
      destruct (f a) as [b|e] eqn:Hb; cbn [obind] in Hk; [|discriminate].
      destruct (omap f l) as [k'|e]; cbn [obind] in Hk; [|discriminate].
      constructor; [by exists b|]. apply IH. by eexists.
    + intros H. inversion H as [|? ? [b Hb] Hl]; subst.
      apply IH in Hl as [k' Hk']. rewrite Hb, Hk'. cbn [obind]. by eexists.
Qed.

(** X28. [apply_heuristic_labels] succeeds exactly when every row has a
    numeric degree_heating_week_c_weeks cell. It then keeps the number of
    rows, gives every row a numeric bleaching_risk_percent and leaves
    every other column of every row as it was. *)
Theorem labels_change_only_the_label_column (rng : nat → Q) (df : DataFrame) :
  ((∃ out, Heuristic.apply_heuristic_labels rng df = Ok out)
   ↔ Forall (fun r : row => ∃ x, Heuristic.dhw_of r = Ok x) df) ∧
  ∀ out, Heuristic.apply_heuristic_labels rng df = Ok out →
    length out = length df ∧
    ∀ (i : nat) (r r' : row),
      df !! i = Some r → out !! i = Some r' →
      (∃ v, r' !! "bleaching_risk_percent" = Some (CFloat (Some v))) ∧
      ∀ col, col ≠ "bleaching_risk_percent" → r' !! col = r !! col.
Proof.
  split.
  - rewrite <- omap_ok_iff. unfold Heuristic.apply_heuristic_labels.
    destruct (omap Heuristic.dhw_of df) as [dhw|e]; cbn [obind].
    + split; intros _; by eexists.
    + split; intros [? ?]; discriminate.
  - intros out Hout.
    destruct (apply_heuristic_labels_rows _ _ _ Hout) as (risk & Hlen & ->).
    split; [rewrite length_zip_with; lia|].
    intros i r r' Hr Hr'.
    apply lookup_zip_with_Some in Hr' as (r0 & v & -> & Hr0 & _).
    rewrite Hr in Hr0. inversion Hr0; subst r0.
    split; [exists v; apply lookup_insert_eq|].
    intros col Hcol. by rewrite lookup_insert_ne.
Qed.
End Pipeline.

(** ** The labelling heuristic stays in its bands *)

Section Labels.

Import Heuristic.
Local Open Scope Q_scope.

Lemma rint_lower (z : Z) (x : Q) : inject_Z z <= x → (z <= rint x)%Z.
Proof.
  intros Hz. apply Qfloor_resp_le in Hz. rewrite Qfloor_Z in Hz.
  unfold rint. destruct (Qcompare _ _); [destruct (Z.even _)| |]; lia.
Qed.

Lemma rint_upper (z : Z) (x : Q) : x <= inject_Z z → (rint x <= z)%Z.
Proof.
  intros Hz.
  pose proof (Qfloor_le x) as Hf.
  assert (Hfz : (Qfloor x <= z)%Z).
  { rewrite Zle_Qle. lra. }
  assert (Hstep : 0 < x - inject_Z (Qfloor x) → (Qfloor x + 1 <= z)%Z).
  { intros Hpos. assert (Hlt : inject_Z (Qfloor x) < inject_Z z) by lra.
    rewrite <- Zlt_Qlt in Hlt. lia. }
  unfold rint.
  destruct (Qcompare (x - inject_Z (Qfloor x)) (1 # 2)) eqn:Hc.
  - apply Qeq_alt in Hc. destruct (Z.even _); [done|]. apply Hstep. lra.
  - done.
  - apply Qgt_alt in Hc. apply Hstep. lra.
Qed.

Lemma round2_value (x : Q) : round2 x == inject_Z (rint (x * 100)) / 100.
Proof. unfold round2. apply Qred_correct. Qed.

(** Rounding to two decimals does not leave an interval whose ends are
    whole numbers. *)
Lemma round2_between (lo hi : Z) (x : Q) :
  inject_Z lo <= x <= inject_Z hi → inject_Z lo <= round2 x <= inject_Z hi.
Proof.
  intros [Hlo Hhi]. rewrite round2_value.
  assert (H1 : (lo * 100 <= rint (x * 100))%Z).
  { apply rint_lower. rewrite inject_Z_mult. change (inject_Z 100) with 100. lra. }
  assert (H2 : (rint (x * 100) <= hi * 100)%Z).
  { apply rint_upper. rewrite inject_Z_mult. change (inject_Z 100) with 100. lra. }
  rewrite Zle_Qle, inject_Z_mult in H1, H2.
  change (inject_Z 100) with 100 in H1, H2.
  unfold Qdiv. change (/ 100) with (1 # 100).
  split; lra.
Qed.

Lemma round2_zero : round2 0 = 0.
Proof. reflexivity. Qed.

Lemma Qlt_bool_true (a b : Q) : Qlt_bool a b = true → a < b.
Proof.
  unfold Qlt_bool. intros H. apply negb_true_iff in H.
  apply Qnot_le_lt. intros Hle. apply Qle_bool_iff in Hle. congruence.
Qed.

Lemma Qlt_bool_false (a b : Q) : Qlt_bool a b = false → b <= a.
Proof.
  unfold Qlt_bool. intros H. apply negb_false_iff in H. by apply Qle_bool_iff.
Qed.

Lemma Qle_bool_false (a b : Q) : Qle_bool a b = false → b < a.
Proof.
  intros H. apply Qnot_le_lt. intros Hle. apply Qle_bool_iff in Hle. congruence.
Qed.

(** One row: the label chosen for a DHW value from four draws that lie
    in their intervals. *)
Lemma label_in_band (d : float64) (u1 u2 u3 u4 : Q) :
  1 <= u1 <= 5 → 10 <= u2 <= 30 → 30 <= u3 <= 60 → 60 <= u4 <= 90 →
  0 <= round2 (first_true
                 [nan_false (fun d => Qeq_bool d 0) d;
                  nan_false (fun d => Qlt_bool 0 d && Qlt_bool d 4) d;
                  nan_false (fun d => Qle_bool 4 d && Qlt_bool d 8) d;
                  nan_false (fun d => Qle_bool 8 d) d]
                 [u1; u2; u3; u4] 0) <= 90 ∧
  in_band d (round2 (first_true
                 [nan_false (fun d => Qeq_bool d 0) d;
                  nan_false (fun d => Qlt_bool 0 d && Qlt_bool d 4) d;
                  nan_false (fun d => Qle_bool 4 d && Qlt_bool d 8) d;
                  nan_false (fun d => Qle_bool 8 d) d]
                 [u1; u2; u3; u4] 0)).
Proof.
  intros H1 H2 H3 H4.
  assert (B1 : 1 <= round2 u1 <= 5) by (apply (round2_between 1 5); exact H1).
  assert (B2 : 10 <= round2 u2 <= 30) by (apply (round2_between 10 30); exact H2).
  assert (B3 : 30 <= round2 u3 <= 60) by (apply (round2_between 30 60); exact H3).
  assert (B4 : 60 <= round2 u4 <= 90) by (apply (round2_between 60 90); exact H4).
  destruct d as [q|]; unfold in_band, nan_false; cbn [first_true].
  2: { rewrite round2_zero. split; [lra|reflexivity]. }
  destruct (Qeq_bool q 0) eqn:E1.
  { apply Qeq_bool_iff in E1. repeat split; intros; lra. }
  apply Qeq_bool_neq in E1.
  destruct (Qlt_bool 0 q) eqn:E2;
    [apply Qlt_bool_true in E2|apply Qlt_bool_false in E2];
    (destruct (Qlt_bool q 4) eqn:E3;
     [apply Qlt_bool_true in E3|apply Qlt_bool_false in E3]);
    (destruct (Qle_bool 4 q) eqn:E4;
     [apply Qle_bool_iff in E4|apply Qle_bool_false in E4]);
    (destruct (Qlt_bool q 8) eqn:E5;
     [apply Qlt_bool_true in E5|apply Qlt_bool_false in E5]);
    (destruct (Qle_bool 8 q) eqn:E6;
     [apply Qle_bool_iff in E6|apply Qle_bool_false in E6]);
    cbn [andb]; rewrite ?round2_zero;
    repeat split; intros; lra.
Qed.

Lemma lookup_map {A B : Type} (f : A → B) (l : list A) (i : nat) :
  map f l !! i = f <$> (l !! i).
Proof. change (map f l) with (f <$> l). apply list_lookup_fmap. Qed.

Lemma nth_col_test (p : Q → bool) (dhw : list float64) (i : nat) (d : float64) :
  dhw !! i = Some d → nth i (col_test p dhw) false = nan_false p d.
Proof.
  intros Hd. apply nth_lookup_Some. unfold col_test.
  by rewrite lookup_map, Hd.
Qed.

Lemma nth_uniform (rng : nat → Q) (pos : nat) (low high : Q) (n i : nat) :
  (i < n)%nat →
  nth i (uniform rng pos low high n) 0 = low + (high - low) * rng (pos + i)%nat.
Proof.
  intros Hi. apply nth_lookup_Some. unfold uniform.
  by rewrite lookup_map, lookup_seq_lt.
Qed.

Lemma np_select_lookup (condlist : list (list bool)) (choicelist : list (list Q))
      (default : Q) (n i : nat) :
  (i < n)%nat →
  np_select condlist choicelist default n !! i
  = Some (first_true (map (fun c => nth i c false) condlist)
                     (map (fun v => nth i v 0) choicelist) default).
Proof.
  intros Hi. unfold np_select. by rewrite lookup_map, lookup_seq_lt.
Qed.

Lemma length_np_select (condlist : list (list bool)) (choicelist : list (list Q))
      (default : Q) (n : nat) :
  length (np_select condlist choicelist default n) = n.
Proof. unfold np_select. by rewrite length_map, length_seq. Qed.

(** C10. For a dataset whose DHW column is numeric (NaN allowed) and a
    generator whose unit samples lie in [0, 1], the labelling succeeds,
    keeps the number of rows, and gives every row a
    bleaching_risk_percent in [0, 90] that lies in the band of the row's
    DHW: [1, 5] for 0, [10, 30] strictly between 0 and 4, [30, 60] from 4
    up to 8, [60, 90] from 8 on, and 0 for a negative or missing DHW. *)
Theorem heuristic_labels_in_band (rng : nat → Q) (df : DataFrame)
        (dhw : list float64) :
  (∀ i, 0 <= rng i <= 1) →
  omap dhw_of df = Ok dhw →
  ∃ df' : DataFrame,
    apply_heuristic_labels rng df = Ok df' ∧
    length df' = length df ∧
    ∀ (i : nat) (r' : row) (d : float64),
      df' !! i = Some r' → dhw !! i = Some d →
      ∃ label : Q,
        r' !! "bleaching_risk_percent" = Some (CFloat (Some label)) ∧
        0 <= label <= 90 ∧
        in_band d label.
Proof.
  intros Hrng Hdhw. unfold apply_heuristic_labels. rewrite Hdhw. simpl.
  eexists. split; [reflexivity|].
  split.
  { rewrite length_zip_with, length_map, length_np_select. lia. }
  intros i r' d Hr' Hd.
  apply lookup_zip_with_Some in Hr' as (r & v & -> & Hr & Hv).
  pose proof (lookup_lt_Some _ _ _ Hr) as Hi.
  rewrite lookup_map, np_select_lookup in Hv by done.
  simpl in Hv. inversion Hv as [Hlabel]. clear Hv.
  rewrite !(nth_col_test _ _ _ _ Hd).
  rewrite !nth_uniform by done.
  eexists. split; [apply lookup_insert_eq|].
  apply label_in_band;
    match goal with
    | |- _ <= _ + _ * rng ?k <= _ => pose proof (Hrng k); lra
    end.
Qed.

End Labels.

(** ** The statements above at the sample data *)


Lemma fallback_on_empty_store_raises_witness :
  live_failed None = true ∧
  loc_rows "Gulf_of_Kutch" Sample.history = Ok [] ∧
  dashboard Sample.to_datetime_scalar Sample.model_predict None Sample.history "Gulf_of_Kutch"
            None None fresh_world
  = (Raised IndexError, fresh_world).
Proof.
  assert (H1 : live_failed None = true) by reflexivity.
  assert (H2 : loc_rows "Gulf_of_Kutch" Sample.history = Ok []) by reflexivity.
  repeat (split; [assumption|]).
  exact (fallback_on_empty_store_raises
           Sample.to_datetime_scalar Sample.model_predict None Sample.history "Gulf_of_Kutch"
           None None fresh_world H1 H2).
Defined.

Lemma simulation_without_override_witness :
  first_of "sea_surface_temp_c" [Sample.live_row] = Ok (CFloat (Some 28.9%Q)) ∧
  first_of "degree_heating_week_c_weeks" [Sample.live_row] = Ok (CFloat (Some 1.5%Q)) ∧
  simulate Sample.model_predict [Sample.live_row]
           (st_slider None (CFloat (Some 28.9%Q)))
           (st_slider None (CFloat (Some 1.5%Q)))
  = predict Sample.model_predict [Sample.live_row].
Proof.
  assert (H1 : first_of "sea_surface_temp_c" [Sample.live_row] = Ok (CFloat (Some 28.9%Q)))
    by reflexivity.
  assert (H2 : first_of "degree_heating_week_c_weeks" [Sample.live_row]
               = Ok (CFloat (Some 1.5%Q)))
    by reflexivity.
  repeat (split; [assumption|]).
  exact (simulation_without_override Sample.model_predict Sample.live_row _ _ H1 H2).
Defined.


Lemma every_returned_value_is_cached_witness :
  cache_lookup Sample.now ("11.25", "92.77") fresh_world = None ∧
  cached_get_live_data Sample.net_outage Sample.read_csv Sample.to_datetime_scalar
                       Sample.now "11.25" "92.77" fresh_world
  = (Ok None,
     snd (cached_get_live_data Sample.net_outage Sample.read_csv Sample.to_datetime_scalar
                               Sample.now "11.25" "92.77" fresh_world)) ∧
  Sample.soon - Sample.now < ttl ∧
  fst (get_live_data Sample.net_outage Sample.read_csv Sample.to_datetime_scalar
                     Sample.now "11.25" "92.77" fresh_world) = Ok None ∧
  cache (snd (cached_get_live_data Sample.net_outage Sample.read_csv
                                   Sample.to_datetime_scalar
                                   Sample.now "11.25" "92.77" fresh_world))
  !! ("11.25", "92.77") = Some (Sample.now, None) ∧
  cached_get_live_data Sample.net_outage Sample.read_csv Sample.to_datetime_scalar
                       Sample.soon "11.25" "92.77"
                       (snd (cached_get_live_data Sample.net_outage Sample.read_csv
                                                  Sample.to_datetime_scalar
                                                  Sample.now "11.25" "92.77" fresh_world))
  = (Ok None,
     snd (cached_get_live_data Sample.net_outage Sample.read_csv Sample.to_datetime_scalar
                               Sample.now "11.25" "92.77" fresh_world)).
Proof.
  assert (H1 : cache_lookup Sample.now ("11.25", "92.77") fresh_world = None)
    by reflexivity.
  assert (H2 : cached_get_live_data Sample.net_outage Sample.read_csv
                                    Sample.to_datetime_scalar
                                    Sample.now "11.25" "92.77" fresh_world
               = (Ok None,
                  snd (cached_get_live_data Sample.net_outage Sample.read_csv
                                            Sample.to_datetime_scalar
                                            Sample.now "11.25" "92.77" fresh_world)))
    by reflexivity.
  assert (H3 : Sample.soon - Sample.now < ttl) by reflexivity.
  repeat (split; [assumption|]).
  exact (every_returned_value_is_cached
           Sample.net_outage Sample.read_csv Sample.to_datetime_scalar
           Sample.now Sample.soon "11.25" "92.77" fresh_world _ None H1 H2 H3).
Defined.

(** C3, the claim as stated fails. Both servers time out once; the failed
    fetch is stored, and ten seconds later, when a fetch would succeed, the
    cached call still returns [None] and sends nothing. *)
Lemma failed_fetch_is_cached :
  cache (snd (cached_get_live_data Sample.net_outage Sample.read_csv
                                   Sample.to_datetime_scalar
                                   Sample.now "11.25" "92.77" fresh_world))
  !! ("11.25", "92.77") = Some (Sample.now, None) ∧
  fst (get_live_data Sample.net_outage Sample.read_csv Sample.to_datetime_scalar
                     Sample.soon "11.25" "92.77"
                     (snd (cached_get_live_data Sample.net_outage Sample.read_csv
                                                Sample.to_datetime_scalar
                                                Sample.now "11.25" "92.77" fresh_world)))
  = Ok (Some [Sample.fetched_row]) ∧
  fst (cached_get_live_data Sample.net_outage Sample.read_csv Sample.to_datetime_scalar
                            Sample.soon "11.25" "92.77"
                            (snd (cached_get_live_data Sample.net_outage Sample.read_csv
                                                       Sample.to_datetime_scalar
                                                       Sample.now "11.25" "92.77"
                                                       fresh_world)))
  = Ok None ∧
  wire (snd (cached_get_live_data Sample.net_outage Sample.read_csv
                                  Sample.to_datetime_scalar
                                  Sample.soon "11.25" "92.77"
                                  (snd (cached_get_live_data Sample.net_outage
                                                             Sample.read_csv
                                                             Sample.to_datetime_scalar
                                                             Sample.now "11.25" "92.77"
                                                             fresh_world))))
  = wire (snd (cached_get_live_data Sample.net_outage Sample.read_csv
                                    Sample.to_datetime_scalar
                                    Sample.now "11.25" "92.77" fresh_world)).
Proof. repeat apply conj; reflexivity. Qed.

Lemma total_failure_is_bounded_witness :
  (∀ url k, failed (Sample.net_down url k) = true) ∧
  (fst (get_live_data Sample.net_down Sample.read_csv Sample.to_datetime_scalar
                      Sample.now "11.25" "92.77" fresh_world) = Ok None ∧
   (attempts (wire (snd (get_live_data Sample.net_down Sample.read_csv
                                       Sample.to_datetime_scalar
                                       Sample.now "11.25" "92.77" fresh_world)))
    ≤ attempts (wire fresh_world) + length server_urls * 1)%nat) ∧
  (fst (get_coral_reef_watch_data Sample.net_down Sample.read_csv
                                  Sample.to_datetime_scalar
                                  "11.25" "92.77" "2024-01-01" "2024-03-31" 3
                                  fresh_world) = Ok None ∧
   (attempts (wire (snd (get_coral_reef_watch_data Sample.net_down Sample.read_csv
                                                   Sample.to_datetime_scalar
                                                   "11.25" "92.77" "2024-01-01"
                                                   "2024-03-31" 3 fresh_world)))
    ≤ attempts (wire fresh_world) + 1 * Z.to_nat 3)%nat).
Proof.
  assert (H : ∀ url k, failed (Sample.net_down url k) = true)
    by (intros url k; reflexivity).
  split; [assumption|].
  destruct (total_failure_is_bounded Sample.net_down Sample.read_csv
                                     Sample.to_datetime_scalar H) as [Hlive Hcrw].
  split.
  - exact (Hlive Sample.now "11.25" "92.77" fresh_world).
  - exact (Hcrw "11.25" "92.77" "2024-01-01" "2024-03-31" 3 fresh_world).
Defined.

Lemma retries_stay_in_offline_fetcher_witness :
  (fst (get_coral_reef_watch_data Sample.net_third_time Sample.read_csv
                                  Sample.to_datetime_scalar
                                  "11.25" "92.77" "2024-01-01" "2024-03-31" 3
                                  fresh_world)
   = (try df <- parse_body Sample.read_csv Sample.to_datetime_scalar Sample.good_csv in
      Ok (Some df)) ∧
   attempts (wire (snd (get_coral_reef_watch_data Sample.net_third_time Sample.read_csv
                                                  Sample.to_datetime_scalar
                                                  "11.25" "92.77" "2024-01-01"
                                                  "2024-03-31" 3 fresh_world)))
   = (attempts (wire fresh_world) + 2 + 1)%nat ∧
   gets_of (crw_url "11.25" "92.77" "2024-01-01" "2024-03-31")
           (wire (snd (get_coral_reef_watch_data Sample.net_third_time Sample.read_csv
                                                 Sample.to_datetime_scalar
                                                 "11.25" "92.77" "2024-01-01"
                                                 "2024-03-31" 3 fresh_world)))
   = (gets_of (crw_url "11.25" "92.77" "2024-01-01" "2024-03-31") (wire fresh_world)
      + 2 + 1)%nat) ∧
  wire (snd (get_live_data Sample.net_third_time Sample.read_csv
                           Sample.to_datetime_scalar
                           Sample.now "11.25" "92.77" fresh_world))
  = wire fresh_world ++ [Get (live_url Sample.now "11.25" "92.77" 0);
                         Get (live_url Sample.now "11.25" "92.77" 1)].
Proof.
  destruct (retries_stay_in_offline_fetcher Sample.net_third_time Sample.read_csv
                                            Sample.to_datetime_scalar) as [Hcrw Hlive].
  split.
  - apply (Hcrw "11.25" "92.77" "2024-01-01" "2024-03-31" 3 2%nat Sample.good_csv
                fresh_world).
    + lia.
    + intros [|[|i]] Hi; [reflexivity|reflexivity|lia].
    + reflexivity.
    + reflexivity.
  - apply (Hlive Sample.now "11.25" "92.77" fresh_world). reflexivity.
Defined.

(** C6, the claim as stated fails for the dashboard's fetch. The first
    server answers with an "ERROR" body twice and would answer with data
    the third time; [get_live_data] asks it once, then asks the second
    server and returns what that one sent. *)
Lemma live_fetch_does_not_retry :
  Sample.net_third_time (live_url Sample.now "11.25" "92.77" 0) 0 = Body Sample.error_csv ∧
  Sample.net_third_time (live_url Sample.now "11.25" "92.77" 0) 1 = Body Sample.error_csv ∧
  Sample.net_third_time (live_url Sample.now "11.25" "92.77" 0) 2 = Body Sample.good_csv ∧
  invalid_body Sample.error_csv = true ∧
  invalid_body Sample.good_csv = false ∧
  fst (get_live_data Sample.net_third_time Sample.read_csv Sample.to_datetime_scalar
                     Sample.now "11.25" "92.77" fresh_world)
  = Ok (Some [Sample.fetched_row]) ∧
  wire (snd (get_live_data Sample.net_third_time Sample.read_csv
                           Sample.to_datetime_scalar
                           Sample.now "11.25" "92.77" fresh_world))
  = [Get (live_url Sample.now "11.25" "92.77" 0);
     Get (live_url Sample.now "11.25" "92.77" 1)] ∧
  gets_of (live_url Sample.now "11.25" "92.77" 0)
          (wire (snd (get_live_data Sample.net_third_time Sample.read_csv
                                    Sample.to_datetime_scalar
                                    Sample.now "11.25" "92.77" fresh_world)))
  = 1%nat.
Proof. repeat apply conj; reflexivity. Qed.

Lemma calendar_features_agree_witness :
  omap dt [Sample.live_row] = Ok [Sample.t2] ∧
  omap (parsed_time Sample.to_datetime_scalar)
       [Sample.raw "2024-03-02T12:00:00Z" (Some 4%Q)] = Ok [Sample.t2] ∧
  ∃ p q : DataFrame,
    preprocess_live_data [Sample.live_row] = Ok p ∧
    feature_engineer Sample.to_datetime_scalar
                     [Sample.raw "2024-03-02T12:00:00Z" (Some 4%Q)] = Ok q ∧
    map calendar_fields p = map calendar_of [Sample.t2] ∧
    map calendar_fields q = map calendar_of [Sample.t2].
Proof.
  assert (H1 : omap dt [Sample.live_row] = Ok [Sample.t2]) by reflexivity.
  assert (H2 : omap (parsed_time Sample.to_datetime_scalar)
                    [Sample.raw "2024-03-02T12:00:00Z" (Some 4%Q)] = Ok [Sample.t2])
    by reflexivity.
  repeat (split; [assumption|]).
  exact (calendar_features_agree Sample.to_datetime_scalar _ _ _ H1 H2).
Defined.

Lemma live_fetch_keeps_latest_row_witness :
  get_live_data Sample.net_up Sample.read_csv Sample.to_datetime_scalar
                Sample.now "11.25" "92.77" fresh_world
  = (Ok (Some [Sample.fetched_row]),
     snd (get_live_data Sample.net_up Sample.read_csv Sample.to_datetime_scalar
                        Sample.now "11.25" "92.77" fresh_world)) ∧
  live_failed (Some [Sample.fetched_row]) = false ∧
  ∃ csv_data rows r t,
    (∃ url k, Sample.net_up url k = Body csv_data) ∧
    invalid_body csv_data = false ∧
    parse_body Sample.read_csv Sample.to_datetime_scalar csv_data = Ok rows ∧
    Some [Sample.fetched_row] = Some [r] ∧ r ∈ rows ∧ dt r = Ok t ∧
    ∀ r' t', r' ∈ rows → dt r' = Ok t' → t' <= t.
Proof.
  assert (H1 : get_live_data Sample.net_up Sample.read_csv Sample.to_datetime_scalar
                             Sample.now "11.25" "92.77" fresh_world
               = (Ok (Some [Sample.fetched_row]),
                  snd (get_live_data Sample.net_up Sample.read_csv
                                     Sample.to_datetime_scalar
                                     Sample.now "11.25" "92.77" fresh_world)))
    by reflexivity.
  assert (H2 : live_failed (Some [Sample.fetched_row]) = false) by reflexivity.
  repeat (split; [assumption|]).
  exact (live_fetch_keeps_latest_row Sample.net_up Sample.read_csv
                                     Sample.to_datetime_scalar
                                     Sample.now "11.25" "92.77" fresh_world _ _ H1 H2).
Defined.

Lemma heuristic_labels_in_band_witness :
  (∀ i, (0 <= Sample.rng i <= 1)%Q) ∧
  omap Heuristic.dhw_of Sample.dataset = Ok Sample.dataset_dhw ∧
  ∃ df' : DataFrame,
    Heuristic.apply_heuristic_labels Sample.rng Sample.dataset = Ok df' ∧
    length df' = length Sample.dataset ∧
    ∀ (i : nat) (r' : row) (d : float64),
      df' !! i = Some r' → Sample.dataset_dhw !! i = Some d →
      ∃ label : Q,
        r' !! "bleaching_risk_percent" = Some (CFloat (Some label)) ∧
        (0 <= label <= 90)%Q ∧
        Heuristic.in_band d label.
Proof.
  assert (H1 : ∀ i, (0 <= Sample.rng i <= 1)%Q)
    by (intros i; unfold Sample.rng, Qle; simpl; lia).
  assert (H2 : omap Heuristic.dhw_of Sample.dataset = Ok Sample.dataset_dhw)
    by reflexivity.
  repeat (split; [assumption|]).
  exact (heuristic_labels_in_band Sample.rng Sample.dataset Sample.dataset_dhw H1 H2).
Defined.

(** ** Worked examples *)

Example calendar_2024_12_30 :
  (Calendar.year (Calendar.noon 2024 12 30), Calendar.month (Calendar.noon 2024 12 30),
   Calendar.day (Calendar.noon 2024 12 30), Calendar.dayofyear (Calendar.noon 2024 12 30),
   Calendar.isoweek (Calendar.noon 2024 12 30)) = (2024, 12, 30, 365, 1).
Proof. reflexivity. Qed.

Example calendar_2021_01_03 :
  (Calendar.year (Calendar.noon 2021 1 3), Calendar.month (Calendar.noon 2021 1 3),
   Calendar.day (Calendar.noon 2021 1 3), Calendar.dayofyear (Calendar.noon 2021 1 3),
   Calendar.isoweek (Calendar.noon 2021 1 3)) = (2021, 1, 3, 3, 53).
Proof. reflexivity. Qed.

Example calendar_1969_12_31 :
  (Calendar.year (-1), Calendar.month (-1), Calendar.day (-1),
   Calendar.dayofyear (-1), Calendar.isoweek (-1)) = (1969, 12, 31, 365, 1).
Proof. reflexivity. Qed.

Example strftime_sample :
  (strftime_Y_m_d Sample.t2, strftime_B_d_Y Sample.t2) = ("2024-03-02", "March 02, 2024").
Proof. reflexivity. Qed.

Example live_query_window :
  String.prefix "CRW_SST[(2024-02-01T12:00:00Z):1:(2024-03-02T12:00:00Z)][(11.25):1:(11.25)][(92.77):1:(92.77)],CRW_HOTSPOT"
                (live_query Sample.now "11.25" "92.77") = true.
Proof. reflexivity. Qed.

Example invalid_bodies :
  (invalid_body Sample.error_csv, invalid_body "time,latitude", invalid_body Sample.good_csv)
  = (true, true, false).
Proof. reflexivity. Qed.

Example sample_labels :
  (try df <- Heuristic.apply_heuristic_labels Sample.rng Sample.dataset in
   Ok (map (fun r : row => r !! "bleaching_risk_percent") df))
  = Ok [Some (CFloat (Some 3%Q)); Some (CFloat (Some 20%Q)); Some (CFloat (Some 45%Q));
        Some (CFloat (Some 75%Q)); Some (CFloat (Some 0%Q)); Some (CFloat (Some 0%Q))].
Proof. reflexivity. Qed.

Example round2_ties_to_even :
  (Heuristic.round2 (1.005)%Q, Heuristic.round2 (1.015)%Q, Heuristic.round2 (2.3449)%Q)
  = ((1 # 1)%Q, (51 # 50)%Q, (117 # 50)%Q).
Proof. reflexivity. Qed.

Example sample_fallback_screen :
  screen (snd (dashboard Sample.to_datetime_scalar Sample.model_predict None Sample.history
                         "Andaman_Islands" None (Some 6%Q) fresh_world))
  = [st_warning (stale_message "March 02, 2024");
     st_metric "Predicted Bleaching Risk" (CFloat (Some 18%Q));
     st_metric "Current Sea Surface Temp" (CFloat (Some 28.9%Q));
     st_metric "Current Degree Heating Weeks" (CFloat (Some 1.5%Q));
     st_plotly_gauge (Some 18%Q);
     st_metric "Simulated Bleaching Risk" (CFloat (Some 63%Q))].
Proof. reflexivity. Qed.


(** ** The added statements at the sample data *)

Lemma live_fetch_stops_at_first_success_witness :
  Sample.net_up (live_url Sample.now "11.25" "92.77" 0)
                (gets_of (live_url Sample.now "11.25" "92.77" 0) (wire fresh_world))
  = Body Sample.good_csv ∧
  invalid_body Sample.good_csv = false ∧
  parse_body Sample.read_csv Sample.to_datetime_scalar Sample.good_csv = Ok Cases.parsed ∧
  ∃ sorted,
    sort_values_time Cases.parsed = Ok sorted ∧
    get_live_data Sample.net_up Sample.read_csv Sample.to_datetime_scalar
                  Sample.now "11.25" "92.77" fresh_world
    = (Ok (Some (iloc_last sorted)),
       log (Get (live_url Sample.now "11.25" "92.77" 0)) fresh_world).
Proof.
  assert (H1 : Sample.net_up (live_url Sample.now "11.25" "92.77" 0)
                 (gets_of (live_url Sample.now "11.25" "92.77" 0) (wire fresh_world))
               = Body Sample.good_csv) by reflexivity.
  assert (H2 : invalid_body Sample.good_csv = false) by reflexivity.
  assert (H3 : parse_body Sample.read_csv Sample.to_datetime_scalar Sample.good_csv
               = Ok Cases.parsed) by reflexivity.
  repeat (split; [assumption|]).
  exact (live_fetch_stops_at_first_success
           Sample.net_up Sample.read_csv Sample.to_datetime_scalar
           Sample.now "11.25" "92.77" fresh_world _ _ H1 H2 H3).
Defined.

Lemma live_fetch_raises_on_column_mismatch_witness :
  Sample.net_up (live_url Sample.now "11.25" "92.77" 0)
                (gets_of (live_url Sample.now "11.25" "92.77" 0) (wire fresh_world))
  = Body Sample.good_csv ∧
  invalid_body Sample.good_csv = false ∧
  Cases.read_csv_short Sample.good_csv = Ok Cases.short_table ∧
  length (header Cases.short_table) ≠ 9%nat ∧
  get_live_data Sample.net_up Cases.read_csv_short Sample.to_datetime_scalar
                Sample.now "11.25" "92.77" fresh_world
  = (Raised ValueError, log (Get (live_url Sample.now "11.25" "92.77" 0)) fresh_world).
Proof.
  assert (H1 : Sample.net_up (live_url Sample.now "11.25" "92.77" 0)
                 (gets_of (live_url Sample.now "11.25" "92.77" 0) (wire fresh_world))
               = Body Sample.good_csv) by reflexivity.
  assert (H2 : invalid_body Sample.good_csv = false) by reflexivity.
  assert (H3 : Cases.read_csv_short Sample.good_csv = Ok Cases.short_table)
    by reflexivity.
  assert (H4 : length (header Cases.short_table) ≠ 9%nat) by (simpl; lia).
  repeat (split; [assumption|]).
  exact (live_fetch_raises_on_column_mismatch
           Sample.net_up Cases.read_csv_short Sample.to_datetime_scalar
           Sample.now "11.25" "92.77" fresh_world _ _ H1 H2 H3 H4).
Defined.

Lemma offline_fetch_without_attempts_witness :
  0 <= 0 ∧
  get_coral_reef_watch_data Sample.net_up Sample.read_csv Sample.to_datetime_scalar
                            "11.25" "92.77" "2024-01-01" "2024-03-31" 0 fresh_world
  = (Ok None, fresh_world).
Proof.
  assert (H : 0 <= 0) by lia.
  split; [assumption|].
  exact (offline_fetch_without_attempts
           Sample.net_up Sample.read_csv Sample.to_datetime_scalar
           "11.25" "92.77" "2024-01-01" "2024-03-31" 0 fresh_world H).
Defined.

Lemma offline_fetch_total_failure_cost_witness :
  (∀ url k, failed (Sample.net_down url k) = true) ∧
  0 < 3 ∧
  attempts (wire (snd (get_coral_reef_watch_data
                         Sample.net_down Sample.read_csv Sample.to_datetime_scalar
                         "11.25" "92.77" "2024-01-01" "2024-03-31" 3 fresh_world)))
  = (attempts (wire fresh_world) + Z.to_nat 3)%nat ∧
  5 * (3 - 1)
  <= slept (wire (snd (get_coral_reef_watch_data
                         Sample.net_down Sample.read_csv Sample.to_datetime_scalar
                         "11.25" "92.77" "2024-01-01" "2024-03-31" 3 fresh_world)))
     - slept (wire fresh_world)
  <= 10 * (3 - 1).
Proof.
  assert (H1 : ∀ url k, failed (Sample.net_down url k) = true)
    by (intros url k; reflexivity).
  assert (H2 : 0 < 3) by lia.
  repeat (split; [assumption|]).
  exact (offline_fetch_total_failure_cost
           Sample.net_down Sample.read_csv Sample.to_datetime_scalar
           "11.25" "92.77" "2024-01-01" "2024-03-31" 3 fresh_world H1 H2).
Defined.

Lemma chunks_cover_each_month_once_witness :
  1 <= 5 ∧
  ∃ starts,
    py_range 1 13 5 = Ok starts ∧
    chunk_months_covered 5 starts = [1; 2; 3; 4; 5; 6; 7; 8; 9; 10; 11; 12].
Proof.
  assert (H : 1 <= 5) by lia.
  split; [assumption|].
  exact (chunks_cover_each_month_once 5 H).
Defined.

Lemma chunk_ends_on_last_day_of_month_witness :
  monthrange_days 2024 2 = Ok 29 ∧
  Calendar.days_from_civil 2024 2 29 + 1
  = if 2 =? 12 then Calendar.days_from_civil (2024 + 1) 1 1
    else Calendar.days_from_civil 2024 (2 + 1) 1.
Proof.
  assert (H : monthrange_days 2024 2 = Ok 29) by reflexivity.
  split; [assumption|].
  exact (chunk_ends_on_last_day_of_month 2024 2 29 H).
Defined.

Lemma chunked_fetch_total_failure_witness :
  (∀ url k, failed (Sample.net_down url k) = true) ∧
  1 <= 5 ∧
  fst (fetch_data_in_chunks Sample.net_down Sample.read_csv Sample.to_datetime_scalar
                            "11.25" "92.77" 2023 2024 5 fresh_world) = Ok [] ∧
  attempts (wire (snd (fetch_data_in_chunks
                         Sample.net_down Sample.read_csv Sample.to_datetime_scalar
                         "11.25" "92.77" 2023 2024 5 fresh_world)))
  = (attempts (wire fresh_world)
     + 3 * (Z.to_nat (2024 + 1 - 2023) * Z.to_nat ((11 + 5) / 5)))%nat.
Proof.
  assert (H1 : ∀ url k, failed (Sample.net_down url k) = true)
    by (intros url k; reflexivity).
  assert (H2 : 1 <= 5) by lia.
  repeat (split; [assumption|]).
  exact (chunked_fetch_total_failure
           Sample.net_down Sample.read_csv Sample.to_datetime_scalar
           "11.25" "92.77" 2023 2024 5 fresh_world H1 H2).
Defined.

Lemma chunked_fetch_degenerate_sizes_witness :
  (2024 < 2025 ∨ 3 < 0) ∧
  fetch_data_in_chunks Sample.net_up Sample.read_csv Sample.to_datetime_scalar
                       "11.25" "92.77" 2025 2024 3 fresh_world = (Ok [], fresh_world) ∧
  2024 <= 2024 ∧
  fetch_data_in_chunks Sample.net_up Sample.read_csv Sample.to_datetime_scalar
                       "11.25" "92.77" 2024 2024 0 fresh_world
  = (Raised ValueError, fresh_world).
Proof.
  assert (H1 : 2024 < 2025 ∨ 3 < 0) by (left; lia).
  assert (H2 : 2024 <= 2024) by lia.
  split; [assumption|]. split.
  - exact (proj1 (chunked_fetch_degenerate_sizes
                    Sample.net_up Sample.read_csv Sample.to_datetime_scalar
                    "11.25" "92.77" 2025 2024 3 fresh_world) H1).
  - split; [assumption|].
    exact (proj2 (chunked_fetch_degenerate_sizes
                    Sample.net_up Sample.read_csv Sample.to_datetime_scalar
                    "11.25" "92.77" 2024 2024 0 fresh_world) H2 eq_refl).
Defined.

Lemma chunked_fetch_returns_no_empty_frame_witness :
  fetch_data_in_chunks Sample.net_up Sample.read_csv Sample.to_datetime_scalar
                       "11.25" "92.77" 2024 2024 12 fresh_world
  = (Ok [Cases.parsed],
     snd (fetch_data_in_chunks Sample.net_up Sample.read_csv Sample.to_datetime_scalar
                               "11.25" "92.77" 2024 2024 12 fresh_world)) ∧
  Forall (fun d : DataFrame => d ≠ []) [Cases.parsed].
Proof.
  assert (H : fetch_data_in_chunks Sample.net_up Sample.read_csv
                                   Sample.to_datetime_scalar
                                   "11.25" "92.77" 2024 2024 12 fresh_world
              = (Ok [Cases.parsed],
                 snd (fetch_data_in_chunks Sample.net_up Sample.read_csv
                                           Sample.to_datetime_scalar
                                           "11.25" "92.77" 2024 2024 12 fresh_world)))
    by reflexivity.
  split; [assumption|].
  exact (chunked_fetch_returns_no_empty_frame
           Sample.net_up Sample.read_csv Sample.to_datetime_scalar
           "11.25" "92.77" 2024 2024 12 fresh_world _ _ H).
Defined.

Lemma preprocess_changes_only_calendar_columns_witness :
  preprocess_live_data [Sample.live_row] = Ok [calendar_row Sample.t2 Sample.live_row] ∧
  length [calendar_row Sample.t2 Sample.live_row] = length [Sample.live_row] ∧
  ∀ (i : nat) (r r' : row) (col : string),
    [Sample.live_row] !! i = Some r →
    [calendar_row Sample.t2 Sample.live_row] !! i = Some r' →
    col ∉ ["year"; "month"; "day_of_year"; "week_of_year"] →
    r' !! col = r !! col.
Proof.
  assert (H : preprocess_live_data [Sample.live_row]
              = Ok [calendar_row Sample.t2 Sample.live_row]) by reflexivity.
  split; [assumption|].
  exact (preprocess_changes_only_calendar_columns _ _ H).
Defined.

Lemma preprocess_is_idempotent_witness :
  preprocess_live_data [Sample.live_row] = Ok [calendar_row Sample.t2 Sample.live_row] ∧
  preprocess_live_data [calendar_row Sample.t2 Sample.live_row]
  = Ok [calendar_row Sample.t2 Sample.live_row].
Proof.
  assert (H : preprocess_live_data [Sample.live_row]
              = Ok [calendar_row Sample.t2 Sample.live_row]) by reflexivity.
  split; [assumption|].
  exact (preprocess_is_idempotent _ _ H).
Defined.

Lemma live_result_is_shown_without_warning_witness :
  live_failed (Some [Sample.fetched_row]) = false ∧
  (∀ other_df,
     dashboard Sample.to_datetime_scalar Sample.model_predict
               (Some [Sample.fetched_row]) other_df "Andaman_Islands" None None fresh_world
     = dashboard Sample.to_datetime_scalar Sample.model_predict
                 (Some [Sample.fetched_row]) Sample.history "Andaman_Islands" None None
                 fresh_world) ∧
  ∃ us,
    screen (snd (dashboard Sample.to_datetime_scalar Sample.model_predict
                           (Some [Sample.fetched_row]) Sample.history "Andaman_Islands"
                           None None fresh_world))
    = screen fresh_world ++ us
    ∧ Forall no_warning us.
Proof.
  assert (H : live_failed (Some [Sample.fetched_row]) = false) by reflexivity.
  split; [assumption|].
  exact (live_result_is_shown_without_warning
           Sample.to_datetime_scalar Sample.model_predict
           (Some [Sample.fetched_row]) Sample.history "Andaman_Islands" None None
           fresh_world H).
Defined.

Lemma main_under_outage_witness :
  REEF_LOCATIONS !! "Andaman_Islands" = Some ("11.25", "92.77") ∧
  cache_lookup Sample.now ("11.25", "92.77") fresh_world = None ∧
  (∀ url k, failed (Sample.net_down url k) = true) ∧
  main Sample.net_down Sample.read_csv Sample.to_datetime_scalar Sample.model_predict
       Sample.now (Some "Andaman_Islands") Sample.history None None fresh_world
  = dashboard Sample.to_datetime_scalar Sample.model_predict
      None Sample.history "Andaman_Islands" None None
      {| wire := wire fresh_world
                 ++ [Get (live_url Sample.now "11.25" "92.77" 0);
                     Get (live_url Sample.now "11.25" "92.77" 1)];
         cache := <[("11.25", "92.77") := (Sample.now, None)]> (cache fresh_world);
         screen := screen fresh_world |}.
Proof.
  assert (H1 : REEF_LOCATIONS !! "Andaman_Islands" = Some ("11.25", "92.77"))
    by reflexivity.
  assert (H2 : cache_lookup Sample.now ("11.25", "92.77") fresh_world = None)
    by reflexivity.
  assert (H3 : ∀ url k, failed (Sample.net_down url k) = true)
    by (intros url k; reflexivity).
  repeat (split; [assumption|]).
  exact (main_under_outage
           Sample.net_down Sample.read_csv Sample.to_datetime_scalar Sample.model_predict
           Sample.now "Andaman_Islands" "11.25" "92.77" Sample.history None None
           fresh_world H1 H2 H3).
Defined.

Lemma rerun_within_ttl_sends_nothing_witness :
  REEF_LOCATIONS !! "Andaman_Islands" = Some ("11.25", "92.77") ∧
  cache_lookup Sample.now ("11.25", "92.77") fresh_world = None ∧
  fst (get_live_data Sample.net_up Sample.read_csv Sample.to_datetime_scalar
                     Sample.now "11.25" "92.77" fresh_world)
  = Ok (Some [Sample.fetched_row]) ∧
  Sample.soon - Sample.now < ttl ∧
  let w1 := snd (main Sample.net_up Sample.read_csv Sample.to_datetime_scalar
                      Sample.model_predict Sample.now (Some "Andaman_Islands")
                      Sample.history None None fresh_world) in
  main Sample.net_up Sample.read_csv Sample.to_datetime_scalar Sample.model_predict
       Sample.soon (Some "Andaman_Islands") [] (Some (30 # 1)) None w1
  = dashboard Sample.to_datetime_scalar Sample.model_predict
              (Some [Sample.fetched_row]) [] "Andaman_Islands" (Some (30 # 1)) None w1
  ∧ wire (snd (main Sample.net_up Sample.read_csv Sample.to_datetime_scalar
                    Sample.model_predict Sample.soon (Some "Andaman_Islands") []
                    (Some (30 # 1)) None w1))
    = wire w1.
Proof.
  assert (H1 : REEF_LOCATIONS !! "Andaman_Islands" = Some ("11.25", "92.77"))
    by reflexivity.
  assert (H2 : cache_lookup Sample.now ("11.25", "92.77") fresh_world = None)
    by reflexivity.
  assert (H3 : fst (get_live_data Sample.net_up Sample.read_csv
                                  Sample.to_datetime_scalar
                                  Sample.now "11.25" "92.77" fresh_world)
               = Ok (Some [Sample.fetched_row])) by reflexivity.
  assert (H4 : Sample.soon - Sample.now < ttl) by reflexivity.
  repeat (split; [assumption|]).
  exact (rerun_within_ttl_sends_nothing
           Sample.net_up Sample.read_csv Sample.to_datetime_scalar Sample.model_predict
           Sample.now Sample.soon "Andaman_Islands" "11.25" "92.77"
           Sample.history [] None None (Some (30 # 1)) None
           (Some [Sample.fetched_row]) fresh_world H1 H2 H3 H4).
Defined.

Lemma clean_data_has_no_duplicate_rows_witness :
  (0 < 2)%nat ∧
  clean_data Cases.gappy !! 0%nat = Some (Cases.measured "2024-03-01T12:00:00Z" None (Some 1.25%Q)) ∧
  clean_data Cases.gappy !! 2%nat
  = Some (Cases.measured "2024-03-02T12:00:00Z" (Some 28.9%Q) (Some 1.5%Q)) ∧
  row_eqb (Cases.measured "2024-03-02T12:00:00Z" (Some 28.9%Q) (Some 1.5%Q))
          (Cases.measured "2024-03-01T12:00:00Z" None (Some 1.25%Q)) = false.
Proof.
  assert (H1 : (0 < 2)%nat) by lia.
  assert (H2 : clean_data Cases.gappy !! 0%nat
               = Some (Cases.measured "2024-03-01T12:00:00Z" None (Some 1.25%Q)))
    by reflexivity.
  assert (H3 : clean_data Cases.gappy !! 2%nat
               = Some (Cases.measured "2024-03-02T12:00:00Z" (Some 28.9%Q) (Some 1.5%Q)))
    by reflexivity.
  repeat (split; [assumption|]).
  exact (clean_data_has_no_duplicate_rows Cases.gappy 0 2 _ _ H1 H2 H3).
Defined.

Lemma clean_data_leaves_only_leading_gaps_witness :
  rectangular Cases.gappy ∧
  (0 < 1)%nat ∧
  clean_data Cases.gappy !! 0%nat
  = Some (Cases.measured "2024-03-01T12:00:00Z" None (Some 1.25%Q)) ∧
  clean_data Cases.gappy !! 1%nat
  = Some (Cases.measured "2024-03-02T12:00:00Z" None (Some 1.5%Q)) ∧
  Cases.measured "2024-03-02T12:00:00Z" None (Some 1.5%Q) !! "sea_surface_temp_c"
  = Some (CFloat None) ∧
  Cases.measured "2024-03-01T12:00:00Z" None (Some 1.25%Q) !! "sea_surface_temp_c"
  = Some (CFloat None).
Proof.
  assert (H1 : rectangular Cases.gappy) by (repeat constructor).
  assert (H2 : (0 < 1)%nat) by lia.
  assert (H3 : clean_data Cases.gappy !! 0%nat
               = Some (Cases.measured "2024-03-01T12:00:00Z" None (Some 1.25%Q)))
    by reflexivity.
  assert (H4 : clean_data Cases.gappy !! 1%nat
               = Some (Cases.measured "2024-03-02T12:00:00Z" None (Some 1.5%Q)))
    by reflexivity.
  assert (H5 : Cases.measured "2024-03-02T12:00:00Z" None (Some 1.5%Q)
               !! "sea_surface_temp_c" = Some (CFloat None)) by reflexivity.
  repeat (split; [assumption|]).
  exact (clean_data_leaves_only_leading_gaps Cases.gappy 0 1 _ _ _ H1 H2 H3 H4 H5).
Defined.

Lemma clean_data_is_idempotent_witness :
  rectangular Cases.gappy ∧
  clean_data Cases.gappy = Cases.cleaned ∧
  clean_data (clean_data Cases.gappy) = clean_data Cases.gappy.
Proof.
  assert (H : rectangular Cases.gappy) by (repeat constructor).
  split; [assumption|]. split; [reflexivity|].
  exact (clean_data_is_idempotent Cases.gappy H).
Defined.

Lemma preprocessed_frame_meets_model_contract_witness :
  Forall (fun r : row => Forall (fun col => is_Some (r !! col)) raw_features)
         Cases.downloaded ∧
  preprocess_dataset Sample.to_datetime_scalar Sample.rng Cases.downloaded
  = Ok (Cases.value [] (preprocess_dataset Sample.to_datetime_scalar Sample.rng
                                           Cases.downloaded)) ∧
  length (Cases.value [] (preprocess_dataset Sample.to_datetime_scalar Sample.rng
                                             Cases.downloaded)) = 2%nat ∧
  Forall processed_row
         (Cases.value [] (preprocess_dataset Sample.to_datetime_scalar Sample.rng
                                             Cases.downloaded)) ∧
  preprocess_live_data
    (Cases.value [] (preprocess_dataset Sample.to_datetime_scalar Sample.rng
                                        Cases.downloaded))
  = Ok (Cases.value [] (preprocess_dataset Sample.to_datetime_scalar Sample.rng
                                           Cases.downloaded)) ∧
  ∃ X,
    model_input (Cases.value [] (preprocess_dataset Sample.to_datetime_scalar
                                                     Sample.rng Cases.downloaded))
    = Ok X ∧
    length X
    = length (Cases.value [] (preprocess_dataset Sample.to_datetime_scalar Sample.rng
                                                 Cases.downloaded)).
Proof.
  assert (H1 : Forall (fun r : row =>
                         Forall (fun col => is_Some (r !! col)) raw_features)
                      Cases.downloaded) by (repeat econstructor).
  assert (H2 : preprocess_dataset Sample.to_datetime_scalar Sample.rng Cases.downloaded
               = Ok (Cases.value [] (preprocess_dataset Sample.to_datetime_scalar
                                                        Sample.rng Cases.downloaded)))
    by reflexivity.
  split; [assumption|]. split; [assumption|]. split; [reflexivity|].
  exact (preprocessed_frame_meets_model_contract
           Sample.to_datetime_scalar Sample.rng Cases.downloaded _ H1 H2).
Defined.

Lemma calendar_columns_are_a_date_witness :
  (preprocess_live_data [Sample.live_row] = Ok [calendar_row Sample.t2 Sample.live_row]
   ∨ feature_engineer Sample.to_datetime_scalar [Sample.live_row]
     = Ok [calendar_row Sample.t2 Sample.live_row]) ∧
  Forall (fun r : row =>
            ∃ t y m doy w,
              r !! "time" = Some (CTime t) ∧
              r !! "year" = Some (CInt y) ∧ r !! "month" = Some (CInt m) ∧
              r !! "day_of_year" = Some (CInt doy) ∧
              r !! "week_of_year" = Some (CInt w) ∧
              1 <= m <= 12 ∧ 1 <= doy <= 366 ∧ 1 <= w <= 53 ∧
              Calendar.days_from_civil y 1 1 + doy - 1 = Calendar.epoch_days t ∧
              Calendar.days_from_civil y m 1 <= Calendar.epoch_days t
              <= Calendar.days_from_civil y m 1 + 30)
         [calendar_row Sample.t2 Sample.live_row].
Proof.
  assert (H : preprocess_live_data [Sample.live_row]
              = Ok [calendar_row Sample.t2 Sample.live_row]
              ∨ feature_engineer Sample.to_datetime_scalar [Sample.live_row]
                = Ok [calendar_row Sample.t2 Sample.live_row])
    by (left; reflexivity).
  split; [assumption|].
  exact (calendar_columns_are_a_date Sample.to_datetime_scalar _ _ H).
Defined.

Lemma week_of_year_is_iso_week_witness :
  (preprocess_live_data [Sample.live_row] = Ok [calendar_row Sample.t2 Sample.live_row]
   ∨ feature_engineer Sample.to_datetime_scalar [Sample.live_row]
     = Ok [calendar_row Sample.t2 Sample.live_row]) ∧
  Forall (fun r : row =>
            ∃ t Y,
              r !! "time" = Some (CTime t) ∧
              let day := Calendar.epoch_days t in
              let thursday := day - Calendar.weekday_of_days day + 3 in
              Calendar.days_from_civil Y 1 1 <= thursday
              < Calendar.days_from_civil (Y + 1) 1 1 ∧
              r !! "week_of_year"
              = Some (CInt ((thursday - Calendar.days_from_civil Y 1 1) / 7 + 1)))
         [calendar_row Sample.t2 Sample.live_row].
Proof.
  assert (H : preprocess_live_data [Sample.live_row]
              = Ok [calendar_row Sample.t2 Sample.live_row]
              ∨ feature_engineer Sample.to_datetime_scalar [Sample.live_row]
                = Ok [calendar_row Sample.t2 Sample.live_row])
    by (right; reflexivity).
  split; [assumption|].
  exact (week_of_year_is_iso_week Sample.to_datetime_scalar _ _ H).
Defined.

Lemma chunked_fetch_request_bounds_witness :
  1 <= 12 ∧
  fetch_data_in_chunks Sample.net_up Sample.read_csv Sample.to_datetime_scalar
                       "11.25" "92.77" 2024 2024 12 fresh_world
  = (Ok [Cases.parsed],
     snd (fetch_data_in_chunks Sample.net_up Sample.read_csv Sample.to_datetime_scalar
                               "11.25" "92.77" 2024 2024 12 fresh_world)) ∧
  let w' := snd (fetch_data_in_chunks Sample.net_up Sample.read_csv
                                      Sample.to_datetime_scalar
                                      "11.25" "92.77" 2024 2024 12 fresh_world) in
  let chunks := (Z.to_nat (2024 + 1 - 2024) * Z.to_nat ((11 + 12) / 12))%nat in
  (attempts (wire fresh_world) + chunks ≤ attempts (wire w')
   ≤ attempts (wire fresh_world) + 3 * chunks)%nat ∧
  slept (wire fresh_world) + 2 * Z.of_nat chunks <= slept (wire w').
Proof.
  assert (H1 : 1 <= 12) by lia.
  assert (H2 : fetch_data_in_chunks Sample.net_up Sample.read_csv
                                    Sample.to_datetime_scalar
                                    "11.25" "92.77" 2024 2024 12 fresh_world
               = (Ok [Cases.parsed],
                  snd (fetch_data_in_chunks Sample.net_up Sample.read_csv
                                            Sample.to_datetime_scalar
                                            "11.25" "92.77" 2024 2024 12 fresh_world)))
    by reflexivity.
  repeat (split; [assumption|]).
  exact (chunked_fetch_request_bounds
           Sample.net_up Sample.read_csv Sample.to_datetime_scalar
           "11.25" "92.77" 2024 2024 12 fresh_world _ _ H1 H2).
Defined.

Lemma collected_frames_are_tagged_witness :
  location_loop Cases.net_andaman Sample.read_csv Sample.to_datetime_scalar
                reef_locations 2024 2024 12 [] fresh_world
  = (Ok [Cases.andaman_frame],
     snd (location_loop Cases.net_andaman Sample.read_csv Sample.to_datetime_scalar
                        reef_locations 2024 2024 12 [] fresh_world)) ∧
  Forall (fun df => ∃ name lat lon, (name, (lat, lon)) ∈ reef_locations ∧
                      ¬ unreachable Cases.net_andaman lat lon ∧ frame_of name df)
         [Cases.andaman_frame].
Proof.
  assert (H : location_loop Cases.net_andaman Sample.read_csv Sample.to_datetime_scalar
                            reef_locations 2024 2024 12 [] fresh_world
              = (Ok [Cases.andaman_frame],
                 snd (location_loop Cases.net_andaman Sample.read_csv
                                    Sample.to_datetime_scalar
                                    reef_locations 2024 2024 12 [] fresh_world)))
    by reflexivity.
  split; [assumption|].
  exact (collected_frames_are_tagged
           Cases.net_andaman Sample.read_csv Sample.to_datetime_scalar
           reef_locations 2024 2024 12 _ fresh_world _ H).
Defined.

Lemma string_length_append (a b : string) :
  String.length (a +:+ b) = (String.length a + String.length b)%nat.
Proof. induction a as [|c a IH]; simpl; [done|by f_equal]. Qed.

Lemma string_append_assoc (a b c : string) : a +:+ (b +:+ c) = (a +:+ b) +:+ c.
Proof.
  induction a as [|x a IH]; [done|].
  change (String x (a +:+ (b +:+ c)) = String x ((a +:+ b) +:+ c)). by f_equal.
Qed.

Lemma ends_with_append (suffix a b : string) :
  (String.length suffix ≤ String.length b)%nat →
  Cases.ends_with suffix (a +:+ b) = Cases.ends_with suffix b.
Proof.
  intros Hlen. induction a as [|c a IH]; [done|].
  change (Cases.ends_with suffix (String c a +:+ b))
    with (String.eqb (String c (a +:+ b)) suffix || Cases.ends_with suffix (a +:+ b)).
  rewrite IH.
  destruct (String.eqb_spec (String c (a +:+ b)) suffix) as [Heq|Hne]; [|done].
  subst suffix. simpl in Hlen. rewrite string_length_append in Hlen. lia.
Qed.

Lemma crw_url_ends (lat lon start_date end_date : string) :
  ∃ a, crw_url lat lon start_date end_date
       = a +:+ (")][(" +:+ lon +:+ "):1:(" +:+ lon +:+ ")]").
Proof.
  unfold crw_url, build_query, variables, query_part. cbn [map join_comma].
  repeat match goal with
         | |- ∃ a, ?x +:+ ?r = a +:+ ?t =>
             first [ unify r t; by exists x
                   | cut (∃ a', r = a' +:+ t);
                     [intros [a' ->]; exists (x +:+ a'); apply string_append_assoc|] ]
         end.
Qed.

Lemma kutch_unreachable (lat lon : string) :
  ("Gulf_of_Kutch", (lat, lon)) ∈ reef_locations →
  unreachable Cases.net_andaman lat lon.
Proof.
  intros Hin. unfold reef_locations in Hin.
  repeat (apply elem_of_cons in Hin as [Heq|Hin]; [try discriminate Heq|]).
  - inversion Heq; subst. intros start_date end_date k. unfold Cases.net_andaman.
    destruct (crw_url_ends "22.47" "69.07" start_date end_date) as [a ->].
    rewrite ends_with_append by (simpl; lia). reflexivity.
  - by apply elem_of_nil in Hin.
Qed.

Lemma failed_reef_is_left_out_witness :
  (∀ lat lon, ("Gulf_of_Kutch", (lat, lon)) ∈ reef_locations →
              unreachable Cases.net_andaman lat lon) ∧
  location_loop Cases.net_andaman Sample.read_csv Sample.to_datetime_scalar
                reef_locations 2024 2024 12 [] fresh_world
  = (Ok [Cases.andaman_frame],
     snd (location_loop Cases.net_andaman Sample.read_csv Sample.to_datetime_scalar
                        reef_locations 2024 2024 12 [] fresh_world)) ∧
  ∀ df r, df ∈ [Cases.andaman_frame] → r ∈ df →
          r !! "location_name" ≠ Some (CStr "Gulf_of_Kutch").
Proof.
  assert (H1 : ∀ lat lon, ("Gulf_of_Kutch", (lat, lon)) ∈ reef_locations →
                          unreachable Cases.net_andaman lat lon)
    by exact kutch_unreachable.
  assert (H2 : location_loop Cases.net_andaman Sample.read_csv
                             Sample.to_datetime_scalar
                             reef_locations 2024 2024 12 [] fresh_world
               = (Ok [Cases.andaman_frame],
                  snd (location_loop Cases.net_andaman Sample.read_csv
                                     Sample.to_datetime_scalar
                                     reef_locations 2024 2024 12 [] fresh_world)))
    by reflexivity.
  repeat (split; [assumption|]).
  exact (failed_reef_is_left_out
           Cases.net_andaman Sample.read_csv Sample.to_datetime_scalar
           reef_locations 2024 2024 12 _ fresh_world _ "Gulf_of_Kutch" H1 H2).
Defined.

Lemma labels_change_only_the_label_column_witness :
  Forall (fun r : row => ∃ x, Heuristic.dhw_of r = Ok x) Sample.dataset ∧
  ∃ out, Heuristic.apply_heuristic_labels Sample.rng Sample.dataset = Ok out.
Proof.
  assert (H : Forall (fun r : row => ∃ x, Heuristic.dhw_of r = Ok x) Sample.dataset)
    by (repeat econstructor).
  split; [assumption|].
  exact (proj2 (proj1 (labels_change_only_the_label_column Sample.rng Sample.dataset))
               H).
Defined.
